(** * retrieve_databundle_light: bundle selection and retrieval

    A shallow embedding of [scripts/retrieve_databundle_light.py].

    Conventions of the embedding:
    - a Python [dict] with string keys is an insertion-ordered association
      list ([dict V]) with distinct keys ([dict_wf]); iteration visits the
      keys in list order and [d[k]] is the entry of key [k];
    - a Python [set] of strings is a [gset string]; the order in which
      the interpreter iterates a set is not fixed by the language, so every
      function that iterates a set takes that order as the parameter
      [set_iter];
    - a call that may raise returns a [result];
    - in-place mutation of the catalog is explicit state passing: the
      mutated record is returned next to the value. *)

From stdpp Require Import gmap strings list sorting pretty.

Open Scope string_scope.
Open Scope list_scope.

(** ** Python runtime: exceptions and results *)

Inductive exn : Type :=
  | KeyError (key : string)
  | NameError (name : string)
  | TypeError (msg : string)
  | IndexError
  | AttributeError (name : string)
  | OSError (msg : string)
  | KeyboardInterrupt.

(** [except Exception] catches every exception class but the ones deriving
    from [BaseException] only. *)
Definition is_Exception (e : exn) : bool :=
  match e with
  | KeyboardInterrupt => false
  | _ => true
  end.

Inductive result (A : Type) : Type :=
  | Ok (a : A)
  | Raise (e : exn).
Arguments Ok {A} a.
Arguments Raise {A} e.

Definition rbind {A B : Type} (r : result A) (k : A → result B) : result B :=
  match r with
  | Ok a => k a
  | Raise e => Raise e
  end.

Definition rmap {A B : Type} (f : A → B) (r : result A) : result B :=
  rbind r (λ a, Ok (f a)).

#[global] Instance result_ret : MRet result := @Ok.
#[global] Instance result_bind : MBind result := λ A B k r, rbind r k.
#[global] Instance result_fmap : FMap result := @rmap.

(** ** Python runtime: insertion-ordered dictionaries *)

Abbreviation dict V := (list (string * V)).

Fixpoint dict_get {V : Type} (d : dict V) (k : string) : option V :=
  match d with
  | [] => None
  | (k', v) :: d' => if bool_decide (k' = k) then Some v else dict_get d' k
  end.

Definition dict_keys {V : Type} (d : dict V) : list string := d.*1.

(** [d[k]]: raises [KeyError] when the key is absent. *)
Definition getitem {V : Type} (d : dict V) (k : string) : result V :=
  match dict_get d k with
  | Some v => Ok v
  | None => Raise (KeyError k)
  end.

(** [d[k] = v] on an existing key keeps the position of the key; on a new
    key the entry is appended. *)
Fixpoint dict_set {V : Type} (d : dict V) (k : string) (v : V) : dict V :=
  match d with
  | [] => [(k, v)]
  | (k', v') :: d' =>
      if bool_decide (k' = k) then (k', v) :: d' else (k', v') :: dict_set d' k v
  end.

(** [d.pop(k)]: removes the entry and returns its value. *)
Fixpoint dict_del {V : Type} (d : dict V) (k : string) : dict V :=
  match d with
  | [] => []
  | (k', v') :: d' =>
      if bool_decide (k' = k) then d' else (k', v') :: dict_del d' k
  end.

Definition dict_pop {V : Type} (d : dict V) (k : string) : result (V * dict V) :=
  match dict_get d k with
  | Some v => Ok (v, dict_del d k)
  | None => Raise (KeyError k)
  end.

(** [for k in d: ... d[k] ...]: the keys in order, each with the value the
    subscript yields for it. *)
Definition dict_items {V : Type} (d : dict V) : list (string * V) :=
  omap (λ k, (λ v, (k, v)) <$> dict_get d k) (dict_keys d).

(** Keys of a dictionary are pairwise distinct. *)
Definition dict_wf {V : Type} (d : dict V) : Prop := NoDup (dict_keys d).

(** ** Catalog records *)

(** An entry of [urls]: a plain URL, or the mapping of the [post] source
    (its [url] and the fields of the request body), or a list (the
    [suffixes] of the hydrobasins source). *)
Inductive url_entry : Type :=
  | UrlStr (u : string)
  | UrlMap (m : dict string)
  | UrlList (l : list string).

(** One bundle of the catalog.  [countries], [category], [destination],
    [urls] and [output] are read unconditionally by the script; the other
    keys are optional ([None] = key absent).  [matched_countries] and
    [n_matched] are absent after loading and written by
    [get_best_bundles]. *)
Record bundle : Type := Bundle {
  bundle_countries : list string;
  bundle_category : string;
  bundle_tutorial : option bool;
  bundle_destination : string;
  bundle_urls : dict url_entry;
  bundle_unzip : option bool;
  bundle_output : list string;
  bundle_disable_by_opt : option (dict (list string));
  bundle_matched_countries : option (list string);
  bundle_n_matched : option nat
}.

Definition set_matched (b : bundle) (mc : list string) : bundle :=
  Bundle (bundle_countries b) (bundle_category b) (bundle_tutorial b)
         (bundle_destination b) (bundle_urls b) (bundle_unzip b)
         (bundle_output b) (bundle_disable_by_opt b)
         (Some mc) (bundle_n_matched b).

Definition set_n_matched (b : bundle) (n : nat) : bundle :=
  Bundle (bundle_countries b) (bundle_category b) (bundle_tutorial b)
         (bundle_destination b) (bundle_urls b) (bundle_unzip b)
         (bundle_output b) (bundle_disable_by_opt b)
         (bundle_matched_countries b) (Some n).

Definition set_urls (b : bundle) (u : dict url_entry) : bundle :=
  Bundle (bundle_countries b) (bundle_category b) (bundle_tutorial b)
         (bundle_destination b) u (bundle_unzip b)
         (bundle_output b) (bundle_disable_by_opt b)
         (bundle_matched_countries b) (bundle_n_matched b).

(** ** Iteration order of sets *)

(** [set_iter s] is the order in which the interpreter yields the members
    of [s].  Whatever the order, every member comes exactly once. *)
Definition set_iter_ok (set_iter : gset string → list string) : Prop :=
  ∀ s, set_iter s ≡ₚ elements s.

(** ** [_check_disabled_by_opt] *)

(** [for out in tot_outs: if out not in all_disabled:
    all_disabled.append(out)] *)
Definition append_unique (all_disabled tot_outs : list string) : list string :=
  foldl (λ all_disabled out,
           if bool_decide (out ∈ all_disabled) then all_disabled
           else all_disabled ++ [out])
        all_disabled tot_outs.

(** The outer loop [for tot_outs in disabled_objs]. *)
Definition merge_unique (disabled_objs : list (list string)) : list string :=
  foldl append_unique [] disabled_objs.

Definition enabled (config_enable : dict bool) (optname : string) : bool :=
  default false (dict_get config_enable optname).

Definition _check_disabled_by_opt (set_iter : gset string → list string)
    (config_bundle : bundle) (config_enable : dict bool) : list string :=
  match bundle_disable_by_opt config_bundle with
  | Some disabled_config =>
      let disabled_objs :=
        (filter (λ d, enabled config_enable d.1 = true)
                (dict_items disabled_config)).*2 in
      let all_disabled := merge_unique disabled_objs in
      if bool_decide ("all" ∈ all_disabled) then ["all"]
      else if bool_decide ("output" ∈ dict_keys config_enable)
           then set_iter (list_to_set all_disabled)
           else []
  | None => []
  end.

(** ** [get_best_bundles_by_category] *)

Section selection.
Variable set_iter : gset string → list string.

(** The filter of the dictionary comprehension. *)
Definition is_candidate (category : string) (tutorial : bool)
    (config_enable : dict bool) (b : bundle) : bool :=
  bool_decide (bundle_category b = category)
  && bool_decide (default false (bundle_tutorial b) = tutorial)
  && bool_decide (_check_disabled_by_opt set_iter b config_enable ≠ ["all"]).

(** The comprehension [{bname: config_bundles[bname]["n_matched"] for ...
    if ...}]: the condition is evaluated first, the value only for the
    bundles that pass it. *)
Fixpoint comprehension_n_matched (category : string) (tutorial : bool)
    (config_enable : dict bool) (items : list (string * bundle))
    : result (dict nat) :=
  match items with
  | [] => Ok []
  | (bname, b) :: items' =>
      if is_candidate category tutorial config_enable b then
        match bundle_n_matched b with
        | Some n =>
            rest ← comprehension_n_matched category tutorial config_enable items' ;
            Ok ((bname, n) :: rest)
        | None => Raise (KeyError "n_matched")
        end
      else comprehension_n_matched category tutorial config_enable items'
  end.

(** [sorted(..., key=lambda d: d[1])]: a stable sort, here by insertion
    from the right, an element going before the first one whose key is
    not smaller. *)
Fixpoint sorted_insert (x : string * nat) (l : list (string * nat))
    : list (string * nat) :=
  match l with
  | [] => [x]
  | y :: l' =>
      if bool_decide (x.2 ≤ y.2)%nat then x :: y :: l' else y :: sorted_insert x l'
  end.

Definition sorted_by_value (l : list (string * nat)) : list (string * nat) :=
  foldr sorted_insert [] l.

(** State of the selection loop. *)
Record sel_state : Type := SelState {
  current_matched_countries : list string;
  remaining_countries : gset string;
  returned_bundles : list string
}.

(** One iteration of [for d_val in dict_sort]. *)
Definition select_step (config_bundles : dict bundle) (st : sel_state)
    (d_val : string * nat) : result sel_state :=
  let bname := d_val.1 in
  b ← getitem config_bundles bname ;
  let cbundle_list : gset string := list_to_set (bundle_countries b) in
  let intersect := cbundle_list ∩ remaining_countries st in
  if bool_decide (intersect ≠ ∅) then
    Ok (SelState (current_matched_countries st ++ set_iter intersect)
                 (remaining_countries st ∖ intersect)
                 (returned_bundles st ++ [bname]))
  else Ok st.

Fixpoint select_loop (config_bundles : dict bundle) (st : sel_state)
    (dict_sort : list (string * nat)) : result sel_state :=
  match dict_sort with
  | [] => Ok st
  | d_val :: rest =>
      st' ← select_step config_bundles st d_val ;
      select_loop config_bundles st' rest
  end.

Definition get_best_bundles_by_category (country_list : list string)
    (category : string) (config_bundles : dict bundle) (tutorial : bool)
    (config_enable : dict bool) : result (list string) :=
  dict_n_matched ← comprehension_n_matched category tutorial config_enable
                     (dict_items config_bundles) ;
  match dict_n_matched with
  | [] => Ok []
  | _ :: _ =>
      let dict_sort := sorted_by_value dict_n_matched in
      st ← select_loop config_bundles
             (SelState [] (list_to_set country_list) []) dict_sort ;
      Ok (returned_bundles st)
  end.

(** ** [get_best_bundles] *)

(** The body of [for bname in config_bundles] that writes the two
    annotations into the record of [bname]. *)
Definition annotate_bundle (countries : list string) (b : bundle) : bundle :=
  let matched := filter (λ c, c ∈ countries) (bundle_countries b) in
  set_n_matched (set_matched b matched) (length matched).

Definition annotate (countries : list string) (config_bundles : dict bundle)
    : dict bundle :=
  foldl (λ cb bname,
           match dict_get cb bname with
           | Some b => dict_set cb bname (annotate_bundle countries b)
           | None => cb
           end)
        config_bundles (dict_keys config_bundles).

(** [list(set([config_bundles[conf]["category"] for conf in
    config_bundles]))] *)
Definition categories_of (config_bundles : dict bundle) : list string :=
  set_iter (list_to_set (bundle_category <$> (dict_items config_bundles).*2)).

Definition multiple_warning (cat : string) (selection_bundles : list string)
    : string :=
  "Multiple bundle data for category " +:+ cat +:+ ": "
    +:+ String.concat ", " selection_bundles.

(** What a run leaves behind: the returned list, the warnings logged and
    the catalog, which is annotated in place. *)
Record selection_run : Type := SelectionRun {
  bundles_to_download : list string;
  warnings : list string;
  catalog_after : dict bundle
}.

Fixpoint categories_loop (countries : list string) (config_bundles : dict bundle)
    (tutorial : bool) (config_enable : dict bool)
    (acc : list string * list string) (categories : list string)
    : result (list string * list string) :=
  match categories with
  | [] => Ok acc
  | cat :: rest =>
      selection_bundles ← get_best_bundles_by_category countries cat
                            config_bundles tutorial config_enable ;
      let acc' :=
        match selection_bundles with
        | [] => acc
        | _ :: _ =>
            (acc.1 ++ selection_bundles,
             if bool_decide (1 < length selection_bundles)%nat
             then acc.2 ++ [multiple_warning cat selection_bundles]
             else acc.2)
        end in
      categories_loop countries config_bundles tutorial config_enable acc' rest
  end.

Definition get_best_bundles_run (countries : list string)
    (config_bundles : dict bundle) (tutorial : bool) (config_enable : dict bool)
    : result selection_run :=
  let categories := categories_of config_bundles in
  let config_bundles := annotate countries config_bundles in
  out ← categories_loop countries config_bundles tutorial config_enable
          ([], []) categories ;
  Ok (SelectionRun out.1 out.2 config_bundles).

Definition get_best_bundles (countries : list string)
    (config_bundles : dict bundle) (tutorial : bool) (config_enable : dict bool)
    : result (list string) :=
  bundles_to_download <$>
       (get_best_bundles_run countries config_bundles tutorial config_enable).

End selection.

(** ** Specification-side definitions *)

(** The order [sorted] establishes on the items. *)
Definition by_value : relation (string * nat) := λ x y, (x.2 ≤ y.2)%nat.

(** Following the specification (4.3, OptionGate): the lists of the
    entries whose option is active are united, and the bundle is fully
    disabled when the sentinel is in the union. *)
Definition is_fully_disabled (b : bundle) (active_options : dict bool) : bool :=
  match bundle_disable_by_opt b with
  | None => false
  | Some disabled_config =>
      bool_decide
        ("all" ∈ (⋃ ((λ d, list_to_set d.2) <$>
                      filter (λ d, enabled active_options d.1 = true)
                             (dict_items disabled_config)) : gset string))
  end.


(** Following the specification (4.4, step 2d): the candidates are visited
    in the given order with the set of countries still to cover; a
    candidate that covers one of them is taken and its countries leave the
    set, any other candidate is passed over. *)
Fixpoint greedy_cover (countries_of : string → gset string)
    (remaining : gset string) (candidates : list string) : list string :=
  match candidates with
  | [] => []
  | c :: rest =>
      let intersect := countries_of c ∩ remaining in
      if bool_decide (intersect ≠ ∅)
      then c :: greedy_cover countries_of (remaining ∖ intersect) rest
      else greedy_cover countries_of remaining rest
  end.

(** The countries of the bundle of a given name. *)
Definition countries_of (config_bundles : dict bundle) (bname : string)
    : gset string :=
  match dict_get config_bundles bname with
  | Some b => list_to_set (bundle_countries b)
  | None => ∅
  end.

(** The number [get_best_bundles] stores as [n_matched]. *)
Definition n_matched_of (countries : list string) (b : bundle) : nat :=
  length (filter (λ c, c ∈ countries) (bundle_countries b)).

(** The candidates of a category (4.4, step 2a), in catalog order, each
    with its [n_matched]. *)
Definition candidates (set_iter : gset string → list string)
    (countries : list string) (category : string) (tutorial : bool)
    (config_enable : dict bool) (config_bundles : dict bundle)
    : list (string * nat) :=
  (λ kb, (kb.1, n_matched_of countries kb.2)) <$>
    filter (λ kb, is_candidate set_iter category tutorial config_enable kb.2 = true)
           (dict_items config_bundles).

(** What one category contributes to the selection. *)
Definition contribution (set_iter : gset string → list string)
    (countries : list string) (config_bundles : dict bundle) (tutorial : bool)
    (config_enable : dict bool) (category : string) : list string :=
  greedy_cover (countries_of config_bundles) (list_to_set countries)
    (sorted_by_value
       (candidates set_iter countries category tutorial config_enable
                   config_bundles)).*1.

(** ** Python runtime: strings and paths *)

Definition backslash : Ascii.ascii := Ascii.ascii_of_nat 92.
Definition slash : Ascii.ascii := Ascii.ascii_of_nat 47.
Definition dquote : Ascii.ascii := Ascii.ascii_of_nat 34.

(** [re.split] on a pattern that matches single characters: the pieces
    between the separators, empty pieces included. *)
Fixpoint split_chars (is_sep : Ascii.ascii → bool) (s : string) : list string :=
  match s with
  | EmptyString => [EmptyString]
  | String c s' =>
      if is_sep c then EmptyString :: split_chars is_sep s'
      else match split_chars is_sep s' with
           | piece :: pieces => String c piece :: pieces
           | [] => [String c EmptyString]
           end
  end.

(** [re.split(r"\\|/", s)] *)
Definition split_separators (s : string) : list string :=
  split_chars (λ c, bool_decide (c = backslash) || bool_decide (c = slash)) s.

(** [re.split(r"/view|\\view", s, 1)]: the text before the first place
    where one of the two markers starts and the text after the marker, or
    the text alone when there is no marker. *)
Fixpoint split_view (s : string) : list string :=
  match s with
  | EmptyString => [EmptyString]
  | String c s' =>
      if String.prefix "/view" s || String.prefix (String backslash "view") s
      then [EmptyString; String.substring 5 (String.length s - 5) s]
      else match split_view s' with
           | piece :: pieces => String c piece :: pieces
           | [] => [String c EmptyString]
           end
  end.

(** [os.path.basename] *)
Definition basename (p : string) : string :=
  List.last (split_chars (λ c, bool_decide (c = slash)) p) EmptyString.

Definition ends_with_slash (p : string) : bool :=
  bool_decide (basename p = EmptyString) && negb (bool_decide (p = EmptyString)).

(** [os.path.join] of two components. *)
Definition path_join (a b : string) : string :=
  if String.prefix "/" b then b
  else if bool_decide (a = EmptyString) || ends_with_slash a then a +:+ b
  else a +:+ "/" +:+ b.

(** ** State and effects of the retrieval *)

Inductive level : Type := INFO | WARNING | ERROR.

(** A computation over a state [S] that returns or raises; the state it
    leaves is kept in both cases. *)
Definition M (S A : Type) : Type := S → result A * S.

#[global] Instance M_ret {S : Type} : MRet (M S) := λ A a s, (Ok a, s).
#[global] Instance M_bind {S : Type} : MBind (M S) := λ A B k m s,
  match m s with
  | (Ok a, s') => k a s'
  | (Raise e, s') => (Raise e, s')
  end.

Definition raise {S A : Type} (e : exn) : M S A := λ s, (Raise e, s).

Definition of_result {S A : Type} (r : result A) : M S A := λ s, (r, s).

(** [try: body except <classes>: handler], where [catches] tells the
    exceptions the clause names. *)
Definition try_except {S A : Type} (catches : exn → bool)
    (body : M S A) (handler : M S A) : M S A := λ s,
  match body s with
  | (Ok a, s') => (Ok a, s')
  | (Raise e, s') => if catches e then handler s' else (Raise e, s')
  end.

(** A bare [except:] clause. *)
Definition any_exception (e : exn) : bool := true.

Section retrieval.
Context {World : Type}.

(** What the functions share: the outside world, the records written to
    the logger, and the module-level name [host], which is bound only once
    the download loop under [__main__] has started. *)
Record env : Type := Env {
  world : World;
  log : list (level * string);
  host : option string
}.

(** The state of a call of a download function: the bundle record it was
    handed, which it may mutate, and the environment. *)
Record call : Type := Call {
  config : bundle;
  call_env : env
}.

(** The state of the script: the catalog and the environment. *)
Record script : Type := Script {
  config_bundles : dict bundle;
  script_env : env
}.

(** The collaborators, which act on the world and may raise. *)
Variable progress_retrieve :
  url_entry → string → option (dict string) → bool → World → result unit * World.
Variable extractall : string → string → World → result unit * World.
Variable os_path_exists : string → World → bool.
Variable os_remove : string → World → result unit * World.
Variable download_file_from_google_drive :
  string → string → bool → World → result unit * World.

(** [repr] of a value that is not a string. *)
Variable py_repr : url_entry → string.

(** [str(url)] *)
Definition py_str (url : url_entry) : string :=
  match url with
  | UrlStr u => u
  | _ => py_repr url
  end.

Definition on_world {A : Type} (f : World → result A * World) : M call A := λ c,
  let (r, w) := f (world (call_env c)) in
  (r, Call (config c) (Env w (log (call_env c)) (host (call_env c)))).

Definition env_log (lvl : level) (msg : string) (e : env) : env :=
  Env (world e) (log e ++ [(lvl, msg)]) (host e).

Definition logger (lvl : level) (msg : string) : M call unit := λ c,
  (Ok (), Call (config c) (env_log lvl msg (call_env c))).

Definition get_config : M call bundle := λ c, (Ok (config c), c).

Definition set_config (b : bundle) : M call unit := λ c,
  (Ok (), Call b (call_env c)).

(** Reading the module-level name [host]. *)
Definition global_host : M call string := λ c,
  match host (call_env c) with
  | Some h => (Ok h, c)
  | None => (Raise (NameError "host"), c)
  end.

(** [if os.path.exists(file_path): os.remove(file_path)] *)
Definition remove_if_exists (file_path : string) : M call unit := λ c,
  if os_path_exists file_path (world (call_env c))
  then on_world (os_remove file_path) c
  else (Ok (), c).

(** [os.path.basename(url)] on a value of [urls]. *)
Definition basename_of (url : url_entry) : M call string :=
  match url with
  | UrlStr u => mret (basename u)
  | _ => raise (TypeError "expected str, bytes or os.PathLike object")
  end.

Definition downloading (resource : string) (url : string) : string :=
  "Downloading resource '" +:+ resource +:+ "' from cloud '" +:+ url +:+ "'.".
Definition downloaded (resource : string) (url : string) : string :=
  "Downloaded resource '" +:+ resource +:+ "' from cloud '" +:+ url +:+ "'.".
Definition failed_download (resource : string) (url : string) : string :=
  "Failed download resource '" +:+ resource +:+ "' from cloud '" +:+ url +:+ "'.".

(** A download function: [rootpath], [hot_run], [disable_progress]. *)
Definition downloader : Type := string → bool → bool → M call bool.

Definition download_and_unzip_zenodo : downloader :=
  λ rootpath hot_run disable_progress,
  cfg ← get_config;
  let resource := bundle_category cfg in
  let file_path := path_join rootpath "tempfile.zip" in
  url ← of_result (getitem (bundle_urls cfg) "zenodo");
  if hot_run then
    try_except any_exception
      (logger INFO ("Downloading resource '" +:+ resource +:+ "' from cloud '"
                      +:+ py_str url +:+ "'");;
       on_world (progress_retrieve url file_path None disable_progress);;
       logger INFO "Extracting resources";;
       on_world (extractall file_path (bundle_destination cfg));;
       on_world (os_remove file_path);;
       logger INFO (downloaded resource (py_str url));;
       mret true)
      (logger WARNING (failed_download resource (py_str url));;
       mret false)
  else mret true.

Definition download_and_unzip_gdrive : downloader :=
  λ rootpath hot_run disable_progress,
  cfg ← get_config;
  let resource := bundle_category cfg in
  let file_path := path_join rootpath "tempfile.zip" in
  url ← of_result (getitem (bundle_urls cfg) "gdrive");
  let partition_view := split_view (py_str url) in
  if bool_decide (length partition_view < 2)%nat then
    logger ERROR ("Resource " +:+ resource
                    +:+ " cannot be downloaded: " +:+ String dquote (String backslash "view")
                    +:+ String dquote " not found in url " +:+ py_str url);;
    mret false
  else
    let code_split := split_separators (default EmptyString (head partition_view)) in
    if bool_decide (length code_split < 2)%nat then
      logger ERROR ("Resource " +:+ resource
                      +:+ " cannot be downloaded: character " +:+ String dquote (String backslash "")
                      +:+ String dquote " not found in "
                      +:+ default EmptyString (head partition_view));;
      mret false
    else
      let file_id := List.last code_split EmptyString in
      if hot_run then
        remove_if_exists file_path;;
        on_world (download_file_from_google_drive file_id file_path
                    (negb disable_progress));;
        on_world (extractall file_path (bundle_destination cfg));;
        logger INFO ("Download resource '" +:+ resource +:+ "' from cloud '"
                       +:+ py_str url +:+ "'.");;
        mret true
      else
        h ← global_host;
        logger ERROR ("Host " +:+ h +:+ " not implemented");;
        mret false.

Definition download_and_unzip_direct : downloader :=
  λ rootpath hot_run disable_progress,
  cfg ← get_config;
  let resource := bundle_category cfg in
  url ← of_result (getitem (bundle_urls cfg) "direct");
  name ← basename_of url;
  let file_path := path_join (bundle_destination cfg) name in
  if hot_run then
    remove_if_exists file_path;;
    try_except any_exception
      (logger INFO (downloading resource (py_str url));;
       on_world (progress_retrieve url file_path None disable_progress);;
       (if default false (bundle_unzip cfg) then
          on_world (extractall file_path (bundle_destination cfg));;
          on_world (os_remove file_path)
        else mret ());;
       logger INFO (downloaded resource (py_str url));;
       mret true)
      (logger WARNING (failed_download resource (py_str url));;
       mret false)
  else mret true.

(** [postdata = config["urls"]["post"]; url = postdata.pop("url")]: the
    mapping is the one of the record, so the entry leaves the record.  A
    string has no [pop], and the [pop] of a list takes an integer. *)
Definition pop_post_url : M call string :=
  cfg ← get_config;
  entry ← of_result (getitem (bundle_urls cfg) "post");
  match entry with
  | UrlMap postdata =>
      popped ← of_result (dict_pop postdata "url");
      set_config (set_urls cfg (dict_set (bundle_urls cfg) "post" (UrlMap popped.2)));;
      mret popped.1
  | UrlList _ =>
      raise (TypeError "'str' object cannot be interpreted as an integer")
  | UrlStr _ => raise (AttributeError "pop")
  end.

Definition download_and_unzip_post : downloader :=
  λ rootpath hot_run disable_progress,
  cfg ← get_config;
  let resource := bundle_category cfg in
  url ← pop_post_url;
  cfg' ← get_config;
  postdata ← of_result (getitem (bundle_urls cfg') "post");
  let file_path := path_join (bundle_destination cfg) (basename url) in
  if hot_run then
    remove_if_exists file_path;;
    logger INFO (downloading resource url);;
    on_world (progress_retrieve (UrlStr url) file_path
                (match postdata with UrlMap d => Some d | _ => None end)
                disable_progress);;
    (if default false (bundle_unzip cfg) then
       on_world (extractall file_path (bundle_destination cfg));;
       on_world (os_remove file_path)
     else mret ());;
    logger INFO (downloaded resource url);;
    mret true
  else mret true.

(** A computation that raises nothing but an [Exception]. *)
Definition safe {S A : Type} (m : M S A) : Prop :=
  ∀ s e s', m s = (Raise e, s') → is_Exception e = true.

(** A computation that leaves the record of the call as it found it. *)
Definition keeps {A : Type} (m : M call A) : Prop :=
  ∀ c r c', m c = (r, c') → config c' = config c.

Definition world_safe {A : Type} (f : World → result A * World) : Prop :=
  ∀ w e w', f w = (Raise e, w') → is_Exception e = true.

(** ** The download loop of the script *)

(** The two download functions that are not embedded; whatever they do,
    they are download functions. *)
Variable download_and_unzip_protectedplanet : downloader.
Variable download_and_unzip_hydrobasins : downloader.

(** [globals()[name]] for the names the loop can build. *)
Definition module_globals (name : string) : option downloader :=
  if bool_decide (name = "download_and_unzip_zenodo")
  then Some download_and_unzip_zenodo
  else if bool_decide (name = "download_and_unzip_gdrive")
  then Some download_and_unzip_gdrive
  else if bool_decide (name = "download_and_unzip_protectedplanet")
  then Some download_and_unzip_protectedplanet
  else if bool_decide (name = "download_and_unzip_direct")
  then Some download_and_unzip_direct
  else if bool_decide (name = "download_and_unzip_hydrobasins")
  then Some download_and_unzip_hydrobasins
  else if bool_decide (name = "download_and_unzip_post")
  then Some download_and_unzip_post
  else None.

Section download_loop.
(** The loop is written over any table of globals. *)
Variable globals : string → option downloader.
Variable rootpath : string.
Variable disable_progress : bool.

Definition script_log (lvl : level) (msg : string) (s : script) : script :=
  Script (config_bundles s) (env_log lvl msg (script_env s)).

Definition script_logger (lvl : level) (msg : string) : M script unit := λ s,
  (Ok (), script_log lvl msg s).

(** [for host in ...] binds the module-level name. *)
Definition bind_host (h : string) (s : script) : script :=
  Script (config_bundles s)
         (Env (world (script_env s)) (log (script_env s)) (Some h)).

(** What the loop does before an attempt. *)
Definition announce (b_name h : string) (s : script) : script :=
  script_log INFO ("Downloading bundle " +:+ b_name +:+ " - Host " +:+ h)
             (bind_host h s).

(** What the [except Exception] clause does. *)
Definition warn (b_name h : string) (s : script) : script :=
  script_log WARNING ("Error in downloading bundle " +:+ b_name +:+ " - host " +:+ h) s.

(** What the loop does for a bundle no source delivered. *)
Definition mark_failed (b_name : string) (s : script) : script :=
  script_log ERROR ("Bundle " +:+ b_name +:+ " cannot be downloaded") s.

(** The call [download_and_unzip(config_bundles[b_name], rootpath,
    disable_progress=disable_progress)]: the function works on the record
    of the catalog, so what it does to the record stays in the catalog. *)
Definition call_downloader (dl : downloader) (b_name : string) : M script bool := λ s,
  match dict_get (config_bundles s) b_name with
  | Some cfg =>
      let (r, c) := dl rootpath true disable_progress (Call cfg (script_env s)) in
      (r, Script (dict_set (config_bundles s) b_name (config c)) (call_env c))
  | None => (Raise (KeyError b_name), s)
  end.

(** The body of the [try]. *)
Definition attempt (b_name h : string) : M script bool :=
  match globals ("download_and_unzip_" +:+ h) with
  | Some download_and_unzip => call_downloader download_and_unzip b_name
  | None => raise (KeyError ("download_and_unzip_" +:+ h))
  end.

(** One iteration of [for host in host_list], up to the test of
    [downloaded_bundle]. *)
Definition try_host (b_name h : string) : M script bool := λ s,
  try_except is_Exception
    (attempt b_name h)
    (λ s', (Ok false, warn b_name h s'))
    (announce b_name h s).

Fixpoint hosts_loop (b_name : string) (host_list : list string) : M script bool :=
  match host_list with
  | [] => mret false
  | h :: rest =>
      downloaded_bundle ← try_host b_name h;
      if downloaded_bundle : bool then mret true else hosts_loop b_name rest
  end.

(** [config_bundles[b_name]] *)
Definition catalog_getitem (b_name : string) : M script bundle := λ s,
  (getitem (config_bundles s) b_name, s).

Definition modify (f : script → script) : M script unit := λ s, (Ok (), f s).

(** One iteration of [for b_name in bundles_to_download]; the value is
    [downloaded_bundle] at its end. *)
Definition download_bundle (b_name : string) : M script bool :=
  cfg ← catalog_getitem b_name;
  let host_list := dict_keys (bundle_urls cfg) in
  downloaded_bundle ← hosts_loop b_name host_list;
  (if downloaded_bundle : bool then mret ()
   else modify (mark_failed b_name));;
  mret downloaded_bundle.

(** The loop; the value lists [downloaded_bundle] for every bundle. *)
Fixpoint download_loop (bundles_to_download : list string)
    : M script (list (string * bool)) :=
  match bundles_to_download with
  | [] => mret []
  | b_name :: rest =>
      d ← download_bundle b_name;
      report ← download_loop rest;
      mret ((b_name, d) :: report)
  end.

(** Following the specification (4.5, steps 1 to 4): the sources of a
    bundle are tried in the declared order; an attempt that returns false
    or raises has failed, and the next source is tried; the first attempt
    that succeeds ends the bundle. *)
Inductive tried_in_order (b_name : string)
    : list string → script → bool → script → Prop :=
  | tried_none s :
      tried_in_order b_name [] s false s
  | tried_succeeded h rest s s' :
      attempt b_name h (announce b_name h s) = (Ok true, s') →
      tried_in_order b_name (h :: rest) s true s'
  | tried_returned_false h rest s s' d s'' :
      attempt b_name h (announce b_name h s) = (Ok false, s') →
      tried_in_order b_name rest s' d s'' →
      tried_in_order b_name (h :: rest) s d s''
  | tried_raised h rest s e s' d s'' :
      attempt b_name h (announce b_name h s) = (Raise e, s') →
      is_Exception e = true →
      tried_in_order b_name rest (warn b_name h s') d s'' →
      tried_in_order b_name (h :: rest) s d s''.

(** The bundles are processed one after the other, each through its
    sources; a bundle all sources of which failed is marked and the next
    bundle is processed. *)
Inductive fetched : list string → script → list (string * bool) → script → Prop :=
  | fetched_nil s :
      fetched [] s [] s
  | fetched_cons b_name rest s cfg d s' report s'' :
      dict_get (config_bundles s) b_name = Some cfg →
      tried_in_order b_name (dict_keys (bundle_urls cfg)) s d s' →
      fetched rest (if d then s' else mark_failed b_name s') report s'' →
      fetched (b_name :: rest) s ((b_name, d) :: report) s''.

(** No download function of the table, called as the loop calls it,
    raises anything but an [Exception]. *)
Definition raises_exceptions_only : Prop :=
  ∀ name dl c e c',
    globals name = Some dl →
    dl rootpath true disable_progress c = (Raise e, c') →
    is_Exception e = true.

End download_loop.

End retrieval.

(** ** [load_databundle_config] *)

(** The values the loader can be handed: what a YAML document or the
    caller may hold, of the kinds [None], [bool], [int], [str], [list],
    [dict], [tuple], [set], [bytes] and [collections.OrderedDict].  The
    last is an instance of a subclass of [dict]: it reads and writes as a
    [dict] does, and [type(v) is dict] is false of it.  A set holds its
    elements in the order in which it is iterated; a [bytes] holds the
    values of its bytes. *)
#[local] Set Warnings "-register-all".
Inductive pyval : Type :=
  | PNone
  | PBool (b : bool)
  | PInt (z : Z)
  | PStr (s : string)
  | PList (l : list pyval)
  | PDict (d : list (string * pyval))
  | PTuple (l : list pyval)
  | PSet (l : list pyval)
  | PBytes (b : list Z)
  | POrderedDict (d : list (string * pyval)).

(** [hash(v)] returns: lists, sets and mappings cannot be keys, and a tuple
    can when its elements can. *)
Fixpoint hashable (v : pyval) : bool :=
  match v with
  | PList _ | PDict _ | PSet _ | POrderedDict _ => false
  | PTuple l => forallb hashable l
  | _ => true
  end.

(** Index of a sequence of length [n] for the subscript [z]. *)
Definition seq_index (n : nat) (z : Z) : result nat :=
  if bool_decide (0 ≤ z < Z.of_nat n)%Z then Ok (Z.to_nat z)
  else if bool_decide (- Z.of_nat n ≤ z < 0)%Z then Ok (Z.to_nat (Z.of_nat n + z))
  else Raise IndexError.

Definition int_of_bool (b : bool) : Z := if b then 1%Z else 0%Z.

Fixpoint chars (s : string) : list string :=
  match s with
  | EmptyString => []
  | String c s' => String c EmptyString :: chars s'
  end.

(** [for x in v] *)
Definition py_iter (v : pyval) : result (list pyval) :=
  match v with
  | PDict d => Ok (PStr <$> dict_keys d)
  | PList l => Ok l
  | PStr s => Ok (PStr <$> chars s)
  | PTuple l => Ok l
  | PSet l => Ok l
  | PBytes b => Ok (PInt <$> b)
  | POrderedDict d => Ok (PStr <$> dict_keys d)
  | _ => Raise (TypeError "object is not iterable")
  end.

Definition list_getitem (l : list pyval) (z : Z) : result pyval :=
  i ← seq_index (length l) z;
  match l !! i with
  | Some x => Ok x
  | None => Raise IndexError
  end.

(** [d[k]] for a key that is not a string: the mappings here have string
    keys only. *)
Definition missing_key (k : pyval) : result pyval :=
  if hashable k then Raise (KeyError "key that is not a string")
  else Raise (TypeError "unhashable type").

(** [v[k]] *)
Definition py_getitem (v k : pyval) : result pyval :=
  match v, k with
  | PDict d, PStr key => getitem d key
  | PDict d, _ => missing_key k
  | POrderedDict d, PStr key => getitem d key
  | POrderedDict d, _ => missing_key k
  | PList l, PInt z => list_getitem l z
  | PList l, PBool b => list_getitem l (int_of_bool b)
  | PList l, _ => Raise (TypeError "list indices must be integers or slices")
  | PTuple l, PInt z => list_getitem l z
  | PTuple l, PBool b => list_getitem l (int_of_bool b)
  | PTuple l, _ => Raise (TypeError "tuple indices must be integers or slices")
  | PStr s, PInt z => list_getitem (PStr <$> chars s) z
  | PStr s, PBool b => list_getitem (PStr <$> chars s) (int_of_bool b)
  | PStr s, _ => Raise (TypeError "string indices must be integers")
  | PBytes b, PInt z => list_getitem (PInt <$> b) z
  | PBytes b, PBool i => list_getitem (PInt <$> b) (int_of_bool i)
  | PBytes b, _ => Raise (TypeError "byte indices must be integers or slices")
  | _, _ => Raise (TypeError "object is not subscriptable")
  end.

(** [v["countries"] = x]: the value [v] after the assignment. *)
Definition py_setitem_str (v : pyval) (key : string) (x : pyval) : result pyval :=
  match v with
  | PDict d => Ok (PDict (dict_set d key x))
  | POrderedDict d => Ok (POrderedDict (dict_set d key x))
  | PList _ => Raise (TypeError "list indices must be integers or slices, not str")
  | _ => Raise (TypeError "object does not support item assignment")
  end.

(** The container [v] once the object under [k] has become [x]: the
    assignment above acts on the object that [v[k]] yields.  A tuple
    cannot be assigned to, but the object it holds under [k] can change. *)
Definition py_store (v k x : pyval) : result pyval :=
  match v, k with
  | PDict d, PStr key => Ok (PDict (dict_set d key x))
  | POrderedDict d, PStr key => Ok (POrderedDict (dict_set d key x))
  | PList l, PInt z => i ← seq_index (length l) z; Ok (PList (<[i:=x]> l))
  | PList l, PBool b =>
      i ← seq_index (length l) (int_of_bool b); Ok (PList (<[i:=x]> l))
  | PTuple l, PInt z => i ← seq_index (length l) z; Ok (PTuple (<[i:=x]> l))
  | PTuple l, PBool b =>
      i ← seq_index (length l) (int_of_bool b); Ok (PTuple (<[i:=x]> l))
  | _, _ => Raise (TypeError "object is not subscriptable")
  end.

Section loader.

(** [yaml.load(open(path), Loader=yaml.FullLoader)["databundles"]] *)
Variable load_yaml_databundles : string → result pyval.

(** [create_country_list(x, iso_coding=False)] of [_helpers]. *)
Variable create_country_list : pyval → result pyval.

(** The loop [for bundle_name in config]. *)
Fixpoint parse_countries (config : pyval) (names : list pyval) : result pyval :=
  match names with
  | [] => Ok config
  | bundle_name :: rest =>
      entry ← py_getitem config bundle_name;
      listed ← py_getitem entry (PStr "countries");
      parsed ← create_country_list listed;
      entry' ← py_setitem_str entry "countries" parsed;
      config' ← py_store config bundle_name entry';
      parse_countries config' rest
  end.

(** The records written to the logger, and the value returned or the
    exception raised. *)
Definition load_databundle_config (config : pyval)
    : list (level * string) * result pyval :=
  let '(logged, loaded) :=
    match config with
    | PStr path => ([], load_yaml_databundles path)
    | PDict _ => ([], Ok config)
    | _ => ([(ERROR, "Impossible to load the databundle configuration")],
            Ok config)
    end in
  (logged,
   config ← loaded;
   names ← py_iter config;
   parse_countries config names).

End loader.

(** ** A sample world *)

(** The files on disk. *)
Definition disk : Type := list string.

(** A retriever that reaches the https URLs only. *)
Definition sample_retrieve (url : url_entry) (file_path : string)
    (data : option (dict string)) (disable_progress : bool) (w : disk)
    : result unit * disk :=
  match url with
  | UrlStr u =>
      if String.prefix "https://" u then (Ok (), file_path :: w)
      else (Raise (OSError "unreachable"), w)
  | _ => (Raise (TypeError "url"), w)
  end.

Definition sample_extractall (archive destination : string) (w : disk)
    : result unit * disk :=
  if bool_decide (archive ∈ w) then (Ok (), (destination +:+ "/content") :: w)
  else (Raise (OSError "no such file"), w).

Definition sample_exists (file_path : string) (w : disk) : bool :=
  bool_decide (file_path ∈ w).

Definition sample_remove (file_path : string) (w : disk) : result unit * disk :=
  if bool_decide (file_path ∈ w) then (Ok (), filter (λ f, f ≠ file_path) w)
  else (Raise (OSError "no such file"), w).

(** A drive that holds no file. *)
Definition sample_drive (file_id dest_path : string) (showsize : bool) (w : disk)
    : result unit * disk :=
  (Raise (OSError "file not found on the drive"), w).

Definition sample_repr (url : url_entry) : string := "<mapping>".

Definition sample_other : @downloader disk := λ _ _ _ c, (Ok false, c).

(** The module table over the sample world. *)
Definition sample_globals : string → option (@downloader disk) :=
  module_globals sample_retrieve sample_extractall sample_exists sample_remove
                 sample_drive sample_repr sample_other sample_other.

Definition sample_env : @env disk := Env [] [] None.

(** A bundle whose post source names its url and one field of the body. *)
Definition post_bundle : bundle :=
  Bundle ["DZ"] "data" None "data"
         [("post", UrlMap [("url", "https://example.org/files/data.zip");
                           ("token", "abc")])]
         None [] None None None.

(** A bundle with a gdrive source. *)
Definition gdrive_bundle : bundle :=
  Bundle ["DZ"] "data" None "data"
         [("gdrive", UrlStr "https://drive.google.com/file/d/1abc/view?usp=sharing")]
         None [] None None None.

(** A catalog for the download loop.  The first bundle has a drive source
    that raises, a zenodo source that is out of reach, a direct source that
    delivers and a post source after it; no source of the second bundle is
    known or in reach; the third has one source, which delivers. *)
Definition fetch_catalog : dict bundle :=
  [ ("bundle_a",
     Bundle ["DZ"] "data" None "data"
       [("gdrive", UrlStr "https://drive.google.com/file/d/1abc/view");
        ("zenodo", UrlStr "ftp://zenodo.org/a.zip");
        ("direct", UrlStr "https://example.org/a.zip");
        ("post", UrlMap [("url", "https://example.org/a.zip")])]
       (Some true) [] None None None);
    ("bundle_b",
     Bundle ["DZ"] "common" None "data"
       [("mirror", UrlStr "https://example.org/b.zip");
        ("zenodo", UrlStr "ftp://zenodo.org/b.zip")]
       None [] None None None);
    ("bundle_c",
     Bundle ["DZ"] "cutouts" None "cutouts"
       [("direct", UrlStr "https://example.org/c.nc")]
       None [] None None None) ].

(** The tie-break as the specification words it (4.4, edge cases): in a
    selection, two bundles of one category with the same [n_matched] come
    in the lexicographic order of their names. *)
Definition ties_by_id (countries : list string) (config_bundles : dict bundle)
    (selection : list string) : Prop :=
  ∀ (i j : nat) (a b : string) (ba bb : bundle),
    (i < j)%nat → selection !! i = Some a → selection !! j = Some b →
    dict_get config_bundles a = Some ba → dict_get config_bundles b = Some bb →
    bundle_category ba = bundle_category bb →
    n_matched_of countries ba = n_matched_of countries bb →
    String.ltb a b = true.

(** ** Sample catalogs *)

(** A bundle with one zenodo source and no outputs. *)
Definition sample_bundle (countries : list string) (category : string)
    (tutorial : option bool) (disable_by_opt : option (dict (list string)))
    : bundle :=
  Bundle countries category tutorial "data"
         [("zenodo", UrlStr "https://zenodo.org/record/1/files/bundle.zip")]
         None [] disable_by_opt None None.

(** Sample scenario 1 of the specification. *)
Definition scenario1 : dict bundle :=
  [ ("common_africa", sample_bundle ["DZ"; "EG"; "MA"] "common" (Some false) None);
    ("common_europe", sample_bundle ["DE"; "FR"] "common" (Some false) None) ].

(** The same two bundles, listed in the other order. *)
Definition scenario1_swapped : dict bundle :=
  [ ("common_europe", sample_bundle ["DE"; "FR"] "common" (Some false) None);
    ("common_africa", sample_bundle ["DZ"; "EG"; "MA"] "common" (Some false) None) ].

(** A catalog with two categories, a tutorial bundle and a bundle that an
    option disables. *)
Definition two_categories : dict bundle :=
  [ ("bundle_data", sample_bundle ["DZ"] "data" None None);
    ("bundle_common", sample_bundle ["DZ"] "common" None None);
    ("bundle_tutorial", sample_bundle ["DZ"; "MA"] "common" (Some true) None);
    ("bundle_cutouts", sample_bundle ["DZ"; "MA"] "common" None
                         (Some [("build_cutout", ["all"])])) ].

(** A second iteration order of sets: the reverse of the first. *)
Definition set_iter_rev (s : gset string) : list string := reverse (elements s).

(** * Further definitions *)

(** ** The loader, entry by entry *)

(** What the body of the loop of [load_databundle_config] makes of one
    entry of the catalog. *)
Definition parse_entry (create_country_list : pyval → result pyval)
    (entry : pyval) : result pyval :=
  listed ← py_getitem entry (PStr "countries");
  parsed ← create_country_list listed;
  py_setitem_str entry "countries" parsed.

(** The entries of a mapping parsed in order, up to the first that
    raises. *)
Fixpoint parse_entries (create_country_list : pyval → result pyval)
    (d : list (string * pyval)) : result (list (string * pyval)) :=
  match d with
  | [] => Ok []
  | (bundle_name, entry) :: rest =>
      entry' ← parse_entry create_country_list entry;
      rest' ← parse_entries create_country_list rest;
      Ok ((bundle_name, entry') :: rest')
  end.

(** A value that can be a subscript of a list or tuple. *)
Definition is_index (v : pyval) : bool :=
  match v with
  | PInt _ | PBool _ => true
  | _ => false
  end.

(** The test of the [elif] of the loader. *)
Definition neither_str_nor_dict (config : pyval) : bool :=
  match config with
  | PStr _ | PDict _ => false
  | _ => true
  end.

(** A list, tuple, set or bytes without elements: the loop over it has
    nothing to do. *)
Definition is_empty_iterable (v : pyval) : bool :=
  match v with
  | PList [] | PTuple [] | PSet [] | PBytes [] => true
  | _ => false
  end.

Definition is_ordered_dict (v : pyval) : bool :=
  match v with
  | POrderedDict _ => true
  | _ => false
  end.

(** A country-list helper for the examples: the token [Africa] stands for
    two countries, any other token for itself. *)
Definition sample_country_list (listed : pyval) : result pyval :=
  match listed with
  | PList tokens =>
      Ok (PList (tokens ≫= λ token,
                   match token with
                   | PStr name =>
                       if bool_decide (name = "Africa")
                       then [PStr "DZ"; PStr "EG"] else [token]
                   | _ => [token]
                   end))
  | _ => Raise (TypeError "a list of countries is expected")
  end.

(** ** Markers and separators of a drive link *)

Definition is_separator (c : Ascii.ascii) : bool :=
  bool_decide (c = backslash) || bool_decide (c = slash).

(** One of the markers [/view] and [\view] starts the text. *)
Definition starts_with_marker (s : string) : bool :=
  String.prefix "/view" s || String.prefix (String backslash "view") s.

(** One of the markers starts somewhere in the text. *)
Fixpoint has_marker (s : string) : bool :=
  match s with
  | EmptyString => false
  | String c s' => starts_with_marker s || has_marker s'
  end.

(** The text holds a separator. *)
Fixpoint has_separator (s : string) : bool :=
  match s with
  | EmptyString => false
  | String c s' => is_separator c || has_separator s'
  end.

(** The text before the first marker. *)
Definition before_marker (s : string) : string :=
  default EmptyString (head (split_view s)).

(** ** More sample tables *)

(** The sample table with a zenodo function that is interrupted. *)
Definition interrupted_globals (name : string) : option (@downloader disk) :=
  if bool_decide (name = "download_and_unzip_zenodo")
  then Some (λ _ _ _ c, (Raise KeyboardInterrupt, c))
  else sample_globals name.

(** The sample table without the post function. *)
Definition reading_globals (name : string) : option (@downloader disk) :=
  if bool_decide (name = "download_and_unzip_post") then None
  else sample_globals name.

(** ** The two other download functions *)

(** [s.endswith(suffix)] *)
Fixpoint ends_with (suffix s : string) : bool :=
  bool_decide (s = suffix)
  || match s with
     | EmptyString => false
     | String _ s' => ends_with suffix s'
     end.

(** ["{:02d}".format(z)] *)
Definition format_02d (z : Z) : string :=
  if bool_decide (0 ≤ z < 10)%Z then "0" +:+ pretty z else pretty z.

Section other_downloaders.
Context {World : Type}.
Variable progress_retrieve :
  url_entry → string → option (dict string) → bool → World → result unit * World.
(** [progress_retrieve(url, file_path, headers=..., disable_progress=...)] *)
Variable progress_retrieve_headers :
  string → string → list (string * string) → bool → World → result unit * World.
Variable extractall : string → string → World → result unit * World.
(** [ZipFile(file_path, "r").namelist()] *)
Variable namelist : string → World → result (list string) * World.
(** [zip_obj.extract(member, path=destination)] on the archive at a path. *)
Variable extract_member : string → string → string → World → result unit * World.
Variable os_path_exists : string → World → bool.
Variable os_remove : string → World → result unit * World.
Variable py_repr : url_entry → string.
(** [int(snakemake.config["renewable"]["hydro"]["resource"]
    ["hydrobasins_level"])] *)
Variable hydrobasins_level : result Z.

(** The loop [for fzip in zip_files] of the protected planet function. *)
Fixpoint extract_nested (file_path destination : string)
    (zip_files : list string) : M (@call World) unit :=
  match zip_files with
  | [] => mret ()
  | fzip :: rest =>
      let inner_zipname := path_join destination fzip in
      on_world (extract_member file_path fzip destination);;
      on_world (extractall inner_zipname destination);;
      on_world (os_remove inner_zipname);;
      extract_nested file_path destination rest
  end.

Definition download_and_unzip_protectedplanet : downloader :=
  λ rootpath hot_run disable_progress,
  cfg ← get_config;
  let resource := bundle_category cfg in
  let file_path := path_join rootpath "tempfile_wpda.zip" in
  url ← of_result (getitem (bundle_urls cfg) "protectedplanet");
  if hot_run then
    remove_if_exists os_path_exists os_remove file_path;;
    try_except any_exception
      (logger INFO (downloading resource (py_str py_repr url));;
       on_world (progress_retrieve url file_path None disable_progress);;
       names ← on_world (namelist file_path);
       let zip_files := filter (λ fname, ends_with ".zip" fname = true) names in
       extract_nested file_path (bundle_destination cfg) zip_files;;
       on_world (os_remove file_path);;
       logger INFO (downloaded resource (py_str py_repr url));;
       mret true)
      (logger WARNING (failed_download resource (py_str py_repr url));;
       mret false)
  else mret true.

(** [for rg in suffix_list] over a value of [urls]. *)
Definition iter_entry (entry : url_entry) : list string :=
  match entry with
  | UrlList l => l
  | UrlStr s => chars s
  | UrlMap m => dict_keys m
  end.

(** [url_templ + "hybas_" + ...] *)
Definition concat_url (url_templ : url_entry) (tail : string)
    : M (@call World) string :=
  match url_templ with
  | UrlStr u => mret (u +:+ tail)
  | _ => raise (TypeError "unsupported operand type(s) for +")
  end.

(** The loop [for rg in suffix_list] of the hydrobasins function. *)
Fixpoint hydrobasins_loop (cfg : bundle) (url_templ : url_entry)
    (level_code : string) (hot_run disable_progress : bool)
    (suffix_list : list string) : M (@call World) bool :=
  match suffix_list with
  | [] => mret true
  | rg :: rest =>
      url ← concat_url url_templ
              ("hybas_" +:+ rg +:+ "_lev" +:+ level_code +:+ "_v1c.zip");
      let file_path := path_join (bundle_destination cfg) (basename url) in
      if hot_run then
        remove_if_exists os_path_exists os_remove file_path;;
        fetched_region ←
          try_except any_exception
            (logger INFO ("Downloading resource '" +:+ bundle_category cfg
                            +:+ "' for hydrobasins in '" +:+ rg
                            +:+ "' from cloud '" +:+ url +:+ "'.");;
             on_world (progress_retrieve_headers url file_path
                         [("User-agent", "Mozilla/5.0")] disable_progress);;
             on_world (extractall file_path (bundle_destination cfg));;
             on_world (os_remove file_path);;
             logger INFO (downloaded (bundle_category cfg) url);;
             mret true)
            (logger WARNING (failed_download (bundle_category cfg) url);;
             mret false);
        if fetched_region : bool
        then hydrobasins_loop cfg url_templ level_code hot_run disable_progress rest
        else mret false
      else hydrobasins_loop cfg url_templ level_code hot_run disable_progress rest
  end.

Definition download_and_unzip_hydrobasins : downloader :=
  λ rootpath hot_run disable_progress,
  cfg ← get_config;
  url_templ ← of_result (getitem (bundle_urls cfg) "hydrobasins");
  suffix_list ← of_result (getitem (bundle_urls cfg) "suffixes");
  level ← of_result hydrobasins_level;
  hydrobasins_loop cfg url_templ (format_02d level) hot_run disable_progress
    (iter_entry suffix_list).

End other_downloaders.

(** A computation that, when it returns, returns [True]. *)
Definition returns_true {S : Type} (m : M S bool) : Prop :=
  ∀ s b s', m s = (Ok b, s') → b = true.

(** The table of the module with its six download functions. *)
Definition script_globals {World : Type}
    (progress_retrieve :
       url_entry → string → option (dict string) → bool → World → result unit * World)
    (progress_retrieve_headers :
       string → string → list (string * string) → bool → World → result unit * World)
    (extractall : string → string → World → result unit * World)
    (namelist : string → World → result (list string) * World)
    (extract_member : string → string → string → World → result unit * World)
    (os_path_exists : string → World → bool)
    (os_remove : string → World → result unit * World)
    (download_file_from_google_drive :
       string → string → bool → World → result unit * World)
    (py_repr : url_entry → string)
    (hydrobasins_level : result Z)
    : string → option (@downloader World) :=
  module_globals progress_retrieve extractall os_path_exists os_remove
    download_file_from_google_drive py_repr
    (download_and_unzip_protectedplanet progress_retrieve extractall namelist
       extract_member os_path_exists os_remove py_repr)
    (download_and_unzip_hydrobasins progress_retrieve_headers extractall
       os_path_exists os_remove hydrobasins_level).

(** More of the sample world: the retriever with headers reaches the https
    URLs, an archive lists one nested archive and one other file, and a
    member is extracted when the archive is there. *)
Definition sample_retrieve_headers (url file_path : string)
    (headers : list (string * string)) (disable_progress : bool) (w : disk)
    : result unit * disk :=
  if String.prefix "https://" url then (Ok (), file_path :: w)
  else (Raise (OSError "unreachable"), w).

Definition sample_namelist (file_path : string) (w : disk)
    : result (list string) * disk :=
  if bool_decide (file_path ∈ w) then (Ok ["wdpa_1.zip"; "readme.txt"], w)
  else (Raise (OSError "no such file"), w).

Definition sample_extract_member (archive member destination : string)
    (w : disk) : result unit * disk :=
  if bool_decide (archive ∈ w)
  then (Ok (), path_join destination member :: w)
  else (Raise (OSError "no such file"), w).

Definition sample_script_globals : string → option (@downloader disk) :=
  script_globals sample_retrieve sample_retrieve_headers sample_extractall
    sample_namelist sample_extract_member sample_exists sample_remove
    sample_drive sample_repr (Ok 6%Z).

(** A catalog with a bundle of the basins registry and one of the
    protected areas. *)
Definition registry_catalog : dict bundle :=
  [ ("bundle_hydrobasins",
     Bundle ["DZ"] "data" None "data/hydrobasins"
       [("hydrobasins", UrlStr "https://data.hydrosheds.org/file/HydroBASINS/standard/");
        ("suffixes", UrlList ["af"; "eu"])]
       None [] None None None);
    ("bundle_landcover",
     Bundle ["DZ"] "data" None "data/landcover"
       [("protectedplanet", UrlStr "https://example.org/WDPA_shp.zip")]
       None [] None None None) ].

(** A bundle that options disable in part. *)
Definition partly_disabled_bundle : bundle :=
  sample_bundle ["DZ"] "data" None
    (Some [("build_cutout", ["cutouts/a.nc"; "cutouts/b.nc"]);
           ("build_natura_raster", ["cutouts/b.nc"; "data/natura.tiff"]);
           ("retrieve_cost_data", ["data/costs.csv"])]).

(** A catalog as the loader receives it. *)
Definition raw_catalog : list (string * pyval) :=
  [ ("bundle_a", PDict [("countries", PList [PStr "Africa"]);
                        ("category", PStr "data")]);
    ("bundle_b", PDict [("category", PStr "common");
                        ("countries", PList [PStr "DE"; PStr "FR"])]) ].

(** ** The loader on records, and [datafiles_retrivedatabundle] *)

Definition set_countries (b : bundle) (countries : list string) : bundle :=
  Bundle countries (bundle_category b) (bundle_tutorial b)
         (bundle_destination b) (bundle_urls b) (bundle_unzip b)
         (bundle_output b) (bundle_disable_by_opt b)
         (bundle_matched_countries b) (bundle_n_matched b).

(** The loop of [load_databundle_config] on a catalog of records: the
    countries of every bundle are parsed, in order, up to the first list
    on which the helper raises. *)
Fixpoint load_records (create_country_list : list string → result (list string))
    (config : dict bundle) : result (dict bundle) :=
  match config with
  | [] => Ok []
  | (bundle_name, b) :: rest =>
      parsed ← create_country_list (bundle_countries b);
      rest' ← load_records create_country_list rest;
      Ok ((bundle_name, set_countries b parsed) :: rest')
  end.

(** A record as the mapping the script works on: the keys that are
    absent from the record are absent from the mapping. *)
Definition encode_strings (l : list string) : pyval := PList (PStr <$> l).

Definition encode_entry (entry : url_entry) : pyval :=
  match entry with
  | UrlStr u => PStr u
  | UrlMap m => PDict ((λ kv, (kv.1, PStr kv.2)) <$> m)
  | UrlList l => encode_strings l
  end.

Definition encode_bundle (b : bundle) : pyval :=
  PDict
    ([("countries", encode_strings (bundle_countries b));
      ("category", PStr (bundle_category b))]
     ++ from_option (λ t, [("tutorial", PBool t)]) [] (bundle_tutorial b)
     ++ [("destination", PStr (bundle_destination b));
         ("urls", PDict ((λ kv, (kv.1, encode_entry kv.2)) <$> bundle_urls b))]
     ++ from_option (λ u, [("unzip", PBool u)]) [] (bundle_unzip b)
     ++ [("output", encode_strings (bundle_output b))]
     ++ from_option
          (λ d, [("disable_by_opt",
                  PDict ((λ kv, (kv.1, encode_strings kv.2)) <$> d))])
          [] (bundle_disable_by_opt b)
     ++ from_option (λ m, [("matched_countries", encode_strings m)]) []
          (bundle_matched_countries b)
     ++ from_option (λ n, [("n_matched", PInt (Z.of_nat n))]) []
          (bundle_n_matched b)).

Definition encode_catalog (config : dict bundle) : list (string * pyval) :=
  (λ kb, (kb.1, encode_bundle kb.2)) <$> config.

(** The keys of the run configuration that the function reads. *)
Record run_config : Type := RunConfig {
  run_tutorial : bool;
  run_countries : list string;
  run_enable : dict bool;
  run_databundles : dict bundle
}.

Definition star : Ascii.ascii := Ascii.ascii_of_nat 42.

(** [c in s] for a character [c]. *)
Fixpoint contains_char (c : Ascii.ascii) (s : string) : bool :=
  match s with
  | EmptyString => false
  | String c' s' => bool_decide (c' = c) || contains_char c s'
  end.

(** The condition of the comprehension: ["*" not in inneroutput or
    inneroutput.endswith("/")]. *)
Definition is_listed (inneroutput : string) : bool :=
  negb (contains_char star inneroutput) || ends_with "/" inneroutput.

(** The comprehension over the bundles and their outputs. *)
Fixpoint listed_outputs (databundles : dict bundle) (bundles : list string)
    : result (list string) :=
  match bundles with
  | [] => Ok []
  | bundlename :: rest =>
      b ← getitem databundles bundlename;
      rest' ← listed_outputs databundles rest;
      Ok (filter (λ inneroutput, is_listed inneroutput = true) (bundle_output b)
          ++ rest')
  end.

(** The mapping under [databundles] is loaded and annotated in place, so
    the outputs are read from the catalog the selection leaves. *)
Definition datafiles_retrivedatabundle (set_iter : gset string → list string)
    (create_country_list : list string → result (list string))
    (config : run_config) : result (list string) :=
  config_bundles ← load_records create_country_list (run_databundles config);
  run ← get_best_bundles_run set_iter (run_countries config) config_bundles
          (run_tutorial config) (run_enable config);
  outputs ← listed_outputs (catalog_after run) (bundles_to_download run);
  Ok (set_iter (list_to_set outputs)).

(** A country-list helper on lists of names that agrees with the sample
    helper of the loader. *)
Definition sample_countries (listed : list string) : result (list string) :=
  Ok (listed ≫= λ name,
        if bool_decide (name = "Africa") then ["DZ"; "EG"] else [name]).

Definition sample_run : run_config :=
  RunConfig false ["DZ"; "FR"] []
    [ ("bundle_africa",
       Bundle ["Africa"] "data" None "data"
         [("zenodo", UrlStr "https://zenodo.org/record/1/files/africa.zip")]
         None ["data/africa.csv"; "data/raw/*.tif"; "data/shapes/*/"]
         None None None);
      ("bundle_europe",
       Bundle ["DE"; "FR"] "data" None "data"
         [("zenodo", UrlStr "https://zenodo.org/record/1/files/europe.zip")]
         None ["data/europe.csv"; "data/africa.csv"]
         None None None) ].
(** * Properties *)

(** ** Results *)

Lemma bind_Ok {A B : Type} (a : A) (k : A → result B) : Ok a ≫= k = k a.
Proof. done. Qed.

Lemma bind_Raise {A B : Type} (e : exn) (k : A → result B) :
  Raise e ≫= k = Raise e.
Proof. done. Qed.

(** ** Dictionaries *)

Section dict_facts.
Context {V : Type}.
Implicit Types (d : dict V) (k : string) (v : V).

Lemma dict_get_cons d k k' v :
  dict_get ((k', v) :: d) k = if bool_decide (k' = k) then Some v else dict_get d k.
Proof. reflexivity. Qed.

Lemma dict_get_elem d k v : dict_get d k = Some v → (k, v) ∈ d.
Proof.
  induction d as [|[k' v'] d IH]; simpl; [done|].
  case_bool_decide as Hk.
  - intros [= ->]. subst k'. left.
  - intros Hg. right. by apply IH.
Qed.

Lemma dict_get_is_Some d k : is_Some (dict_get d k) ↔ k ∈ dict_keys d.
Proof.
  unfold dict_keys. induction d as [|[k' v'] d IH]; simpl.
  - split; [by intros [? ?] | by intros ?%elem_of_nil].
  - case_bool_decide as Hk.
    + subst k'. split; [intros _; left | eauto].
    + rewrite IH. split; [by right|].
      intros [?|?]%elem_of_cons; [congruence | done].
Qed.

Lemma dict_get_None d k : dict_get d k = None ↔ k ∉ dict_keys d.
Proof. rewrite <-dict_get_is_Some, eq_None_not_Some. done. Qed.

Lemma dict_get_set d k k' v :
  dict_get (dict_set d k v) k' = if bool_decide (k = k') then Some v else dict_get d k'.
Proof.
  induction d as [|[k0 v0] d IH]; simpl.
  - done.
  - destruct (decide (k0 = k)) as [Heq|Hne].
    + rewrite bool_decide_true by done. simpl. subst k0.
      destruct (decide (k = k'));
        rewrite ?bool_decide_true, ?bool_decide_false by done; done.
    + rewrite bool_decide_false by done. simpl. rewrite IH.
      destruct (decide (k = k')), (decide (k0 = k'));
        rewrite ?bool_decide_true, ?bool_decide_false by congruence;
        congruence.
Qed.

Lemma dict_keys_set d k v :
  k ∈ dict_keys d → dict_keys (dict_set d k v) = dict_keys d.
Proof.
  unfold dict_keys. induction d as [|[k0 v0] d IH]; csimpl.
  - by intros ?%elem_of_nil.
  - case_bool_decide as H0; csimpl; [done|].
    intros [?|Hin]%elem_of_cons; [congruence|]. f_equal. by apply IH.
Qed.

Lemma dict_items_elem d k v :
  (k, v) ∈ dict_items d ↔ dict_get d k = Some v.
Proof.
  unfold dict_items. rewrite list_elem_of_omap. split.
  - intros (k0 & _ & Hk). destruct (dict_get d k0) eqn:E; simplify_eq/=. done.
  - intros Hg. exists k. split.
    + apply dict_get_is_Some. eauto.
    + by rewrite Hg.
Qed.

Lemma dict_items_keys d : (dict_items d).*1 = dict_keys d.
Proof.
  unfold dict_items.
  assert (∀ ks, Forall (λ k, k ∈ dict_keys d) ks →
    (omap (λ k, (λ v, (k, v)) <$> dict_get d k) ks).*1 = ks) as Hgen.
  { induction 1 as [|k ks Hk _ IH]; csimpl; [done|].
    apply dict_get_is_Some in Hk as [v Hv]. rewrite Hv. csimpl. by f_equal. }
  apply Hgen, Forall_forall. auto.
Qed.

(** On a dictionary with distinct keys the items are the entries. *)
Lemma dict_items_wf d : dict_wf d → dict_items d = d.
Proof.
  unfold dict_wf, dict_items, dict_keys.
  induction d as [|[k v] d IH]; csimpl; [done|].
  rewrite NoDup_cons. intros [Hk Hnd].
  rewrite bool_decide_true by done. csimpl. f_equal.
  rewrite <-(IH Hnd) at 2.
  apply list_omap_ext, Forall_Forall2_diag, Forall_forall.
  intros k' Hk'. rewrite bool_decide_false; [done|]. by intros ->.
Qed.

End dict_facts.

(** ** The stable sort on [n_matched] *)

Lemma sorted_insert_perm x l : sorted_insert x l ≡ₚ x :: l.
Proof.
  induction l as [|y l IH]; simpl; [done|].
  case_bool_decide; [done|]. rewrite IH. apply Permutation_swap.
Qed.

Lemma sorted_by_value_perm l : sorted_by_value l ≡ₚ l.
Proof.
  unfold sorted_by_value. induction l as [|x l IH]; simpl; [done|].
  by rewrite sorted_insert_perm, IH.
Qed.

Lemma sorted_insert_hd x y l :
  (y.2 ≤ x.2)%nat → HdRel by_value y l → HdRel by_value y (sorted_insert x l).
Proof.
  intros Hyx Hhd. destruct l as [|z l]; simpl.
  - by constructor.
  - case_bool_decide; constructor; [done|]. by inversion Hhd.
Qed.

Lemma sorted_insert_sorted x l :
  Sorted by_value l → Sorted by_value (sorted_insert x l).
Proof.
  induction 1 as [|y l Hl IH Hhd]; simpl.
  - by repeat constructor.
  - case_bool_decide as Hle.
    + constructor; [by constructor|]. by constructor.
    + constructor; [done|]. apply sorted_insert_hd; [|done].
      unfold by_value in Hle. lia.
Qed.

Lemma sorted_by_value_sorted l : Sorted by_value (sorted_by_value l).
Proof.
  unfold sorted_by_value. induction l as [|x l IH]; simpl; [constructor|].
  by apply sorted_insert_sorted.
Qed.

(** Stability: the entries of any one value keep their relative order. *)
Lemma sorted_insert_stable n x l :
  filter (λ y, y.2 = n) (sorted_insert x l) = filter (λ y, y.2 = n) (x :: l).
Proof.
  induction l as [|y l IH]; simpl; [done|].
  case_bool_decide as Hle; [done|].
  rewrite filter_cons, IH, !filter_cons.
  repeat case_decide; try done. lia.
Qed.

Lemma sorted_by_value_stable n l :
  filter (λ y, y.2 = n) (sorted_by_value l) = filter (λ y, y.2 = n) l.
Proof.
  unfold sorted_by_value. induction l as [|x l IH]; simpl; [done|].
  rewrite sorted_insert_stable, !filter_cons, IH. done.
Qed.

(** ** The option gate *)

Lemma append_unique_elem x acc outs :
  x ∈ append_unique acc outs ↔ x ∈ acc ∨ x ∈ outs.
Proof.
  unfold append_unique. revert acc.
  induction outs as [|o outs IH]; intros acc; simpl.
  - rewrite elem_of_nil. tauto.
  - rewrite IH, elem_of_cons. case_bool_decide as Ho.
    + split; [tauto|]. intros [?|[->|?]]; tauto.
    + rewrite elem_of_app, list_elem_of_singleton. tauto.
Qed.

Lemma foldl_append_unique_elem x acc objs :
  x ∈ foldl append_unique acc objs ↔ x ∈ acc ∨ ∃ outs, outs ∈ objs ∧ x ∈ outs.
Proof.
  revert acc. induction objs as [|o objs IH]; intros acc; simpl.
  - split; [tauto|]. intros [?|(? & ?%elem_of_nil & _)]; done.
  - rewrite IH, append_unique_elem. split.
    + intros [[?|?]|(outs & ? & ?)]; [tauto| |].
      * right. exists o. split; [left|done].
      * right. exists outs. split; [by right|done].
    + intros [?|(outs & [->|?]%elem_of_cons & ?)]; [tauto|tauto|].
      right. eauto.
Qed.

Lemma merge_unique_elem x objs :
  x ∈ merge_unique objs ↔ ∃ outs, outs ∈ objs ∧ x ∈ outs.
Proof.
  unfold merge_unique. rewrite foldl_append_unique_elem, elem_of_nil. tauto.
Qed.

Lemma merge_unique_union (x : string) (ds : list (string * list string)) :
  x ∈ merge_unique ds.*2 ↔
  x ∈ (⋃ ((λ d, list_to_set d.2) <$> ds) : gset string).
Proof.
  rewrite merge_unique_elem, elem_of_union_list. split.
  - intros (outs & Hin & Hx). apply list_elem_of_fmap in Hin as (d & -> & Hd).
    exists (list_to_set d.2). split; [|by apply elem_of_list_to_set].
    apply list_elem_of_fmap. eauto.
  - intros (X & Hin & Hx). apply list_elem_of_fmap in Hin as (d & -> & Hd).
    exists d.2. split; [|by apply elem_of_list_to_set in Hx].
    apply list_elem_of_fmap. eauto.
Qed.

Lemma set_iter_ok_elem set_iter s x :
  set_iter_ok set_iter → x ∈ set_iter s ↔ x ∈ s.
Proof. intros Hok. by rewrite (Hok s), elem_of_elements. Qed.

(** The returned list is [["all"]] exactly for a fully disabled bundle. *)
Lemma check_disabled_all set_iter b en :
  set_iter_ok set_iter →
  _check_disabled_by_opt set_iter b en = ["all"] ↔ is_fully_disabled b en = true.
Proof.
  intros Hok. unfold _check_disabled_by_opt, is_fully_disabled.
  destruct (bundle_disable_by_opt b) as [cfg|]; [|done].
  rewrite bool_decide_eq_true, <-merge_unique_union.
  case_bool_decide as Hall; [done|].
  split; [|done]. intros Heq. exfalso. apply Hall.
  case_bool_decide; [|done].
  assert ("all" ∈ set_iter (list_to_set
            (merge_unique (filter (λ d, enabled en d.1 = true) (dict_items cfg)).*2)))
    as Hin by (rewrite Heq; left).
  apply (set_iter_ok_elem _ _ _ Hok) in Hin. by apply elem_of_list_to_set in Hin.
Qed.

Lemma check_disabled_absent set_iter b en :
  bundle_disable_by_opt b = None → _check_disabled_by_opt set_iter b en = [].
Proof. unfold _check_disabled_by_opt. by intros ->. Qed.

(** ** Annotation of the catalog *)

Lemma annotate_bundle_idemp C b :
  annotate_bundle C (annotate_bundle C b) = annotate_bundle C b.
Proof. done. Qed.

Lemma annotate_keys_get C ks (cb : dict bundle) k :
  dict_get (foldl (λ cb bname,
                     match dict_get cb bname with
                     | Some b => dict_set cb bname (annotate_bundle C b)
                     | None => cb
                     end) cb ks) k
  = if bool_decide (k ∈ ks) then annotate_bundle C <$> dict_get cb k
    else dict_get cb k.
Proof.
  revert cb. induction ks as [|k0 ks IH]; intros cb; simpl; [done|].
  rewrite IH. clear IH.
  assert (dict_get (match dict_get cb k0 with
                    | Some b => dict_set cb k0 (annotate_bundle C b)
                    | None => cb
                    end) k
          = if bool_decide (k0 = k) then annotate_bundle C <$> dict_get cb k
            else dict_get cb k) as ->.
  { destruct (dict_get cb k0) as [b0|] eqn:E0.
    - rewrite dict_get_set. case_bool_decide; [|done]. subst. by rewrite E0.
    - case_bool_decide; [|done]. subst. by rewrite E0. }
  destruct (decide (k0 = k)) as [->|Hne].
  - rewrite (bool_decide_true (k = k)) by done.
    rewrite (bool_decide_true (k ∈ k :: ks)) by left.
    case_bool_decide; [|done].
    destruct (dict_get cb k); simpl; [|done]. by rewrite annotate_bundle_idemp.
  - rewrite (bool_decide_false (k0 = k)) by done.
    rewrite (bool_decide_ext (k ∈ k0 :: ks) (k ∈ ks)); [done|].
    rewrite elem_of_cons. split; [intros [?|?]; congruence | by right].
Qed.

Lemma annotate_keys_keys C ks (cb : dict bundle) :
  dict_keys (foldl (λ cb bname,
                     match dict_get cb bname with
                     | Some b => dict_set cb bname (annotate_bundle C b)
                     | None => cb
                     end) cb ks) = dict_keys cb.
Proof.
  revert cb. induction ks as [|k0 ks IH]; intros cb; simpl; [done|].
  rewrite IH. destruct (dict_get cb k0) eqn:E0; [|done].
  apply dict_keys_set, dict_get_is_Some. eauto.
Qed.

Lemma annotate_get C K k :
  dict_get (annotate C K) k = annotate_bundle C <$> dict_get K k.
Proof.
  unfold annotate. rewrite annotate_keys_get. case_bool_decide as Hk; [done|].
  apply dict_get_None in Hk. by rewrite Hk.
Qed.

Lemma annotate_keys C K : dict_keys (annotate C K) = dict_keys K.
Proof. apply annotate_keys_keys. Qed.

Lemma annotate_items C K :
  dict_items (annotate C K) = (λ kb, (kb.1, annotate_bundle C kb.2)) <$> dict_items K.
Proof.
  unfold dict_items. rewrite annotate_keys, list_fmap_omap.
  apply list_omap_ext, Forall_Forall2_diag, Forall_forall. intros k _.
  rewrite annotate_get. by destruct (dict_get K k).
Qed.

(** ** The selection of one category *)

Section selection_facts.
Variable set_iter : gset string → list string.

Lemma is_candidate_annotate C cat t en b :
  is_candidate set_iter cat t en (annotate_bundle C b)
  = is_candidate set_iter cat t en b.
Proof. done. Qed.

Lemma countries_of_annotate C K bname :
  countries_of (annotate C K) bname = countries_of K bname.
Proof.
  unfold countries_of. rewrite annotate_get. by destruct (dict_get K bname).
Qed.

Lemma greedy_cover_ext f g remaining l :
  (∀ c, f c = g c) → greedy_cover f remaining l = greedy_cover g remaining l.
Proof.
  intros Hfg. revert remaining. induction l as [|c l IH]; intros remaining; simpl.
  - done.
  - rewrite Hfg. case_bool_decide; by rewrite IH.
Qed.

Lemma greedy_cover_elem f remaining l x :
  x ∈ greedy_cover f remaining l → x ∈ l.
Proof.
  revert remaining. induction l as [|c l IH]; intros remaining; simpl; [done|].
  case_bool_decide.
  - intros [->|?]%elem_of_cons; [left|right; eauto].
  - intros ?. right. eauto.
Qed.

(** An empty set of countries to cover selects nothing. *)
Lemma greedy_cover_empty f l : greedy_cover f ∅ l = [].
Proof.
  induction l as [|c l IH]; simpl; [done|].
  rewrite bool_decide_false; [done|]. intros Hne. apply Hne.
  apply set_eq. intros x. rewrite elem_of_intersection, elem_of_empty. tauto.
Qed.

(** The loop of the source accumulates what [greedy_cover] builds. *)
Lemma select_loop_greedy K st l :
  Forall (λ d, d.1 ∈ dict_keys K) l →
  ∃ st', select_loop set_iter K st l = Ok st'
    ∧ returned_bundles st'
      = returned_bundles st ++ greedy_cover (countries_of K) (remaining_countries st) l.*1.
Proof.
  intros Hl. revert st. induction Hl as [|[bname n] l Hk _ IH]; intros st; simpl.
  - exists st. by rewrite app_nil_r.
  - apply dict_get_is_Some in Hk as [b Hb]. simpl in Hb.
    assert (countries_of K bname = list_to_set (bundle_countries b)) as ->
      by (unfold countries_of; by rewrite Hb).
    unfold select_step, getitem. simpl. rewrite Hb, bind_Ok.
    case_bool_decide as Hne; rewrite bind_Ok.
    + destruct (IH (SelState
          (current_matched_countries st ++
             set_iter (list_to_set (bundle_countries b) ∩ remaining_countries st))
          (remaining_countries st ∖
             (list_to_set (bundle_countries b) ∩ remaining_countries st))
          (returned_bundles st ++ [bname]))) as (st' & -> & Hret).
      exists st'. split; [done|]. rewrite Hret. simpl. by rewrite <-app_assoc.
    + apply IH.
Qed.

Lemma comprehension_annotated C cat t en items :
  comprehension_n_matched set_iter cat t en
    ((λ kb, (kb.1, annotate_bundle C kb.2)) <$> items)
  = Ok ((λ kb, (kb.1, n_matched_of C kb.2)) <$>
          filter (λ kb, is_candidate set_iter cat t en kb.2 = true) items).
Proof.
  induction items as [|[bname b] items IH]; [done|].
  rewrite fmap_cons, filter_cons. cbn [comprehension_n_matched fst snd].
  rewrite is_candidate_annotate.
  destruct (is_candidate set_iter cat t en b) eqn:Ec.
  - rewrite decide_True by done. cbn [annotate_bundle set_n_matched bundle_n_matched].
    rewrite IH. done.
  - rewrite decide_False by done. done.
Qed.

Lemma candidates_keys C cat t en K :
  Forall (λ d, d.1 ∈ dict_keys K) (candidates set_iter C cat t en K).
Proof.
  apply Forall_forall. intros [bname n] Hin. simpl.
  apply list_elem_of_fmap in Hin as ([k b] & [= -> ->] & Hin).
  apply list_elem_of_filter in Hin as [_ Hin].
  apply dict_items_elem in Hin. apply dict_get_is_Some. eauto.
Qed.

(** The selection of one category on the annotated catalog: it always
    returns, and what it returns is the greedy cover over the candidates
    sorted by [n_matched]. *)
Lemma by_category_annotated C cat K t en :
  get_best_bundles_by_category set_iter C cat (annotate C K) t en
  = Ok (contribution set_iter C K t en cat).
Proof.
  unfold get_best_bundles_by_category, contribution.
  rewrite annotate_items, comprehension_annotated. fold (candidates set_iter C cat t en K).
  simpl.
  destruct (candidates set_iter C cat t en K) as [|c cs] eqn:Ec; [done|].
  rewrite <-Ec.
  destruct (select_loop_greedy (annotate C K)
              (SelState [] (list_to_set C) [])
              (sorted_by_value (candidates set_iter C cat t en K)))
    as (st' & -> & Hret).
  { rewrite sorted_by_value_perm, annotate_keys. apply candidates_keys. }
  simpl. rewrite Hret. simpl. f_equal.
  apply greedy_cover_ext, countries_of_annotate.
Qed.

Lemma contribution_elem C K t en cat x :
  x ∈ contribution set_iter C K t en cat →
  ∃ b, dict_get K x = Some b ∧ is_candidate set_iter cat t en b = true.
Proof.
  unfold contribution. intros Hx%greedy_cover_elem.
  apply list_elem_of_fmap in Hx as ([k n] & -> & Hx).
  rewrite sorted_by_value_perm in Hx.
  apply list_elem_of_fmap in Hx as ([k' b] & [= -> ->] & Hx).
  apply list_elem_of_filter in Hx as [Hc Hx].
  apply dict_items_elem in Hx. eauto.
Qed.

(** ** The selection over all categories *)

Lemma categories_loop_annotated C K t en acc cats :
  ∃ w, categories_loop set_iter C (annotate C K) t en acc cats
       = Ok (acc.1 ++ concat (contribution set_iter C K t en <$> cats), w).
Proof.
  revert acc. induction cats as [|cat cats IH]; intros [bs ws]; simpl.
  - exists ws. by rewrite app_nil_r.
  - rewrite by_category_annotated, bind_Ok.
    destruct (contribution set_iter C K t en cat) as [|x xs] eqn:Ex.
    + apply IH.
    + destruct (IH (bs ++ x :: xs,
                    if bool_decide (1 < length (x :: xs))%nat
                    then ws ++ [multiple_warning cat (x :: xs)] else ws))
        as [w ->].
      exists w. simpl. by rewrite <-app_assoc.
Qed.

Lemma get_best_bundles_contributions C K t en :
  get_best_bundles set_iter C K t en
  = Ok (concat (contribution set_iter C K t en <$> categories_of set_iter K)).
Proof.
  unfold get_best_bundles, get_best_bundles_run.
  destruct (categories_loop_annotated C K t en ([], []) (categories_of set_iter K))
    as [w ->].
  done.
Qed.

End selection_facts.

(** The selection does not depend on how a set is iterated, apart from the
    order of the categories. *)
Lemma is_candidate_set_iter f g cat t en b :
  set_iter_ok f → set_iter_ok g →
  is_candidate f cat t en b = is_candidate g cat t en b.
Proof.
  intros Hf Hg. unfold is_candidate. f_equal.
  apply bool_decide_ext.
  by rewrite (check_disabled_all f), (check_disabled_all g).
Qed.

Lemma contribution_set_iter f g C K t en cat :
  set_iter_ok f → set_iter_ok g →
  contribution f C K t en cat = contribution g C K t en cat.
Proof.
  intros Hf Hg. unfold contribution, candidates. do 4 f_equal.
  apply list_filter_iff. intros [k b]. simpl.
  by rewrite (is_candidate_set_iter f g).
Qed.

Lemma elem_of_concat {A : Type} (x : A) (ls : list (list A)) :
  x ∈ concat ls ↔ ∃ l, x ∈ l ∧ l ∈ ls.
Proof.
  induction ls as [|l0 ls IH]; simpl.
  - split; [by intros ?%elem_of_nil | by intros (? & _ & ?%elem_of_nil)].
  - rewrite elem_of_app, IH. split.
    + intros [?|(l & ? & ?)]; [exists l0 | exists l]; split; try done; [left | by right].
    + intros (l & Hx & [->|?]%elem_of_cons); [by left | right; eauto].
Qed.

Lemma concat_fmap_perm {A B : Type} (h : A → list B) (l1 l2 : list A) :
  l1 ≡ₚ l2 → concat (h <$> l1) ≡ₚ concat (h <$> l2).
Proof.
  induction 1 as [|x l1 l2 _ IH|x y l|l1 l2 l3 _ IH1 _ IH2]; simpl.
  - done.
  - by rewrite IH.
  - rewrite !app_assoc. f_equiv. apply Permutation_app_comm.
  - by rewrite IH1.
Qed.

(** ** Iteration orders used in the examples *)

Lemma set_iter_ok_elements : set_iter_ok elements.
Proof. intros s. reflexivity. Qed.

Lemma set_iter_ok_rev : set_iter_ok set_iter_rev.
Proof. intros s. apply reverse_Permutation. Qed.

(** ** Claims on the selection *)

(** C1.  On the catalog as [get_best_bundles] annotates it, the selection
    of a category always returns: it visits the candidates of the category
    in an order that is ascending in [n_matched], starts from the set of
    the requested countries, takes a candidate and removes its countries
    from the set exactly when it covers a country still in the set, and
    passes over the others without stopping. *)
Theorem by_category_greedy_ascending
    (set_iter : gset string → list string) (country_list : list string)
    (category : string) (config_bundles : dict bundle) (tutorial : bool)
    (config_enable : dict bool) :
  ∃ order : list (string * nat),
    order ≡ₚ candidates set_iter country_list category tutorial config_enable
               config_bundles
    ∧ Sorted by_value order
    ∧ get_best_bundles_by_category set_iter country_list category
        (annotate country_list config_bundles) tutorial config_enable
      = Ok (greedy_cover (countries_of config_bundles)
              (list_to_set country_list) order.*1).
Proof.
  exists (sorted_by_value
            (candidates set_iter country_list category tutorial config_enable
               config_bundles)).
  split; [apply sorted_by_value_perm|].
  split; [apply sorted_by_value_sorted|].
  apply by_category_annotated.
Qed.

(** C2, counterexample.  With the two bundles of sample scenario 1 listed
    in the other order, both match one country, and the selection returns
    [common_europe] before [common_africa]: the tie is not broken by the
    names. *)
Lemma ties_not_broken_by_id :
  get_best_bundles elements ["MA"; "FR"] scenario1_swapped false []
    = Ok ["common_europe"; "common_africa"]
  ∧ ¬ ties_by_id ["MA"; "FR"] scenario1_swapped ["common_europe"; "common_africa"].
Proof.
  split; [by vm_compute|].
  intros Hties.
  specialize (Hties 0%nat 1%nat "common_europe" "common_africa"
    (sample_bundle ["DE"; "FR"] "common" (Some false) None)
    (sample_bundle ["DZ"; "EG"; "MA"] "common" (Some false) None)).
  assert (String.ltb "common_europe" "common_africa" = true) as Hlt.
  { apply Hties; try reflexivity. lia. }
  vm_compute in Hlt. discriminate.
Qed.

(** C2, as amended.  The candidates are sorted on [n_matched] alone and the
    sort is stable: candidates with the same [n_matched] are visited in the
    order of the catalog.  For the catalog that lists [common_africa]
    before [common_europe] and the countries MA and FR the selection is
    [common_africa], [common_europe]; with the catalog listed the other way
    round it is [common_europe], [common_africa]. *)
Theorem ties_keep_catalog_order
    (set_iter : gset string → list string) (country_list : list string)
    (category : string) (config_bundles : dict bundle) (tutorial : bool)
    (config_enable : dict bool) :
  (∃ order : list (string * nat),
      get_best_bundles_by_category set_iter country_list category
        (annotate country_list config_bundles) tutorial config_enable
      = Ok (greedy_cover (countries_of config_bundles)
              (list_to_set country_list) order.*1)
      ∧ Sorted by_value order
      ∧ ∀ n : nat,
          filter (λ x, x.2 = n) order
          = filter (λ x, x.2 = n)
              (candidates set_iter country_list category tutorial
                 config_enable config_bundles))
  ∧ get_best_bundles elements ["MA"; "FR"] scenario1 false []
    = Ok ["common_africa"; "common_europe"]
  ∧ get_best_bundles elements ["MA"; "FR"] scenario1_swapped false []
    = Ok ["common_europe"; "common_africa"].
Proof.
  split; [|split; by vm_compute].
  exists (sorted_by_value
            (candidates set_iter country_list category tutorial config_enable
               config_bundles)).
  split; [apply by_category_annotated|].
  split; [apply sorted_by_value_sorted|].
  intros n. apply sorted_by_value_stable.
Qed.

(** C3, counterexample.  Two orders in which a set may be iterated give two
    different selections from the same catalog, countries, mode and
    options. *)
Lemma selection_depends_on_set_order :
  set_iter_ok elements ∧ set_iter_ok set_iter_rev
  ∧ get_best_bundles elements ["MA"; "DZ"] two_categories false []
    = Ok ["bundle_common"; "bundle_cutouts"; "bundle_data"]
  ∧ get_best_bundles set_iter_rev ["MA"; "DZ"] two_categories false []
    = Ok ["bundle_data"; "bundle_common"; "bundle_cutouts"]
  ∧ get_best_bundles elements ["MA"; "DZ"] two_categories false []
    ≠ get_best_bundles set_iter_rev ["MA"; "DZ"] two_categories false [].
Proof.
  split; [apply set_iter_ok_elements|].
  split; [apply set_iter_ok_rev|].
  split; [by vm_compute|].
  split; [by vm_compute|].
  vm_compute. discriminate.
Qed.

(** C3, as amended.  The selection is the concatenation, in the order in
    which the set of categories is iterated, of the selections of the
    categories, and the selection of a category does not depend on any
    iteration order: under two iteration orders the call returns the same
    bundles, each as often, possibly in another order. *)
Theorem selection_up_to_category_order
    (f g : gset string → list string) (countries : list string)
    (config_bundles : dict bundle) (tutorial : bool) (config_enable : dict bool) :
  set_iter_ok f → set_iter_ok g →
  ∃ r1 r2 : list string,
    get_best_bundles f countries config_bundles tutorial config_enable = Ok r1
    ∧ get_best_bundles g countries config_bundles tutorial config_enable = Ok r2
    ∧ r1 = concat (contribution f countries config_bundles tutorial config_enable
                     <$> categories_of f config_bundles)
    ∧ r2 = concat (contribution f countries config_bundles tutorial config_enable
                     <$> categories_of g config_bundles)
    ∧ r1 ≡ₚ r2.
Proof.
  intros Hf Hg. eexists _, _.
  split; [apply get_best_bundles_contributions|].
  split; [apply get_best_bundles_contributions|].
  split; [done|].
  assert (contribution g countries config_bundles tutorial config_enable
            <$> categories_of g config_bundles
          = contribution f countries config_bundles tutorial config_enable
            <$> categories_of g config_bundles) as ->.
  { apply list_fmap_ext. intros _ cat _. by apply contribution_set_iter. }
  split; [done|].
  apply concat_fmap_perm. unfold categories_of. by rewrite (Hf _), (Hg _).
Qed.

Lemma selection_up_to_category_order_witness :
  ∃ r1 r2 : list string,
    get_best_bundles elements ["MA"; "DZ"] two_categories false [] = Ok r1
    ∧ get_best_bundles set_iter_rev ["MA"; "DZ"] two_categories false [] = Ok r2
    ∧ r1 = concat (contribution elements ["MA"; "DZ"] two_categories false []
                     <$> categories_of elements two_categories)
    ∧ r2 = concat (contribution elements ["MA"; "DZ"] two_categories false []
                     <$> categories_of set_iter_rev two_categories)
    ∧ r1 ≡ₚ r2.
Proof.
  apply (selection_up_to_category_order elements set_iter_rev).
  - apply set_iter_ok_elements.
  - apply set_iter_ok_rev.
Defined.

(** C4.  The selection always returns, and every name it returns is the
    name of a bundle whose [tutorial] flag, [False] when the key is absent,
    equals the requested mode. *)
Theorem selection_respects_tutorial
    (set_iter : gset string → list string) (countries : list string)
    (config_bundles : dict bundle) (tutorial : bool) (config_enable : dict bool) :
  ∃ r : list string,
    get_best_bundles set_iter countries config_bundles tutorial config_enable = Ok r
    ∧ Forall (λ bname, ∃ b, dict_get config_bundles bname = Some b
                            ∧ default false (bundle_tutorial b) = tutorial) r.
Proof.
  eexists. split; [apply get_best_bundles_contributions|].
  apply Forall_forall. intros bname Hin.
  apply elem_of_concat in Hin as (l & Hin & Hl).
  apply list_elem_of_fmap in Hl as (cat & -> & _).
  apply contribution_elem in Hin as (b & Hb & Hc).
  exists b. split; [done|].
  unfold is_candidate in Hc.
  apply andb_prop in Hc as [Hc _]. apply andb_prop in Hc as [_ Hc].
  by apply bool_decide_eq_true in Hc.
Qed.

(** C5.  The bundle check returns the list [["all"]] exactly when the
    sentinel is in the union of the lists of the active options; a bundle
    for which it is never comes out of a selection, whatever its
    countries; and for a bundle without [disable_by_opt] the check returns
    the empty list, so that the bundle is not disabled. *)
Theorem disabled_bundles_never_selected (set_iter : gset string → list string) :
  set_iter_ok set_iter →
  (∀ (b : bundle) (config_enable : dict bool),
      _check_disabled_by_opt set_iter b config_enable = ["all"]
      ↔ is_fully_disabled b config_enable = true)
  ∧ (∀ (countries : list string) (config_bundles : dict bundle)
       (tutorial : bool) (config_enable : dict bool),
      ∃ r : list string,
        get_best_bundles set_iter countries config_bundles tutorial config_enable
          = Ok r
        ∧ ∀ (bname : string) (b : bundle),
            dict_get config_bundles bname = Some b →
            is_fully_disabled b config_enable = true → bname ∉ r)
  ∧ (∀ (b : bundle) (config_enable : dict bool),
      bundle_disable_by_opt b = None →
      _check_disabled_by_opt set_iter b config_enable = []
      ∧ is_fully_disabled b config_enable = false).
Proof.
  intros Hok. split; [|split].
  - intros b en. by apply check_disabled_all.
  - intros countries K t en. eexists.
    split; [apply get_best_bundles_contributions|].
    intros bname b Hb Hdis Hin.
    apply elem_of_concat in Hin as (l & Hin & Hl).
    apply list_elem_of_fmap in Hl as (cat & -> & _).
    apply contribution_elem in Hin as (b' & Hb' & Hc).
    assert (b' = b) as -> by congruence.
    unfold is_candidate in Hc. apply andb_prop in Hc as [_ Hc].
    apply bool_decide_eq_true in Hc. apply Hc.
    by apply check_disabled_all.
  - intros b en Hnone. split; [by apply check_disabled_absent|].
    unfold is_fully_disabled. by rewrite Hnone.
Qed.

Lemma disabled_bundles_never_selected_witness :
  (_check_disabled_by_opt elements
     (sample_bundle ["DZ"; "MA"] "common" None (Some [("build_cutout", ["all"])]))
     [("build_cutout", true)] = ["all"])
  ∧ (∃ r : list string,
       get_best_bundles elements ["MA"; "DZ"] two_categories false
         [("build_cutout", true)] = Ok r
       ∧ "bundle_cutouts" ∉ r)
  ∧ _check_disabled_by_opt elements (sample_bundle ["DZ"] "data" None None)
      [("build_cutout", true)] = [].
Proof.
  destruct (disabled_bundles_never_selected elements set_iter_ok_elements)
    as (Hall & Hsel & Habsent).
  split; [|split].
  - apply Hall. reflexivity.
  - destruct (Hsel ["MA"; "DZ"] two_categories false [("build_cutout", true)])
      as (r & Hr & Hnot).
    exists r. split; [exact Hr|].
    apply (Hnot "bundle_cutouts"
             (sample_bundle ["DZ"; "MA"] "common" None
                (Some [("build_cutout", ["all"])]))); reflexivity.
  - apply Habsent. reflexivity.
Defined.

(** C6.  With an empty list of requested countries the selection returns
    the empty list, and so does the selection of every category; the
    call returns normally. *)
Theorem empty_request_selects_nothing
    (set_iter : gset string → list string) (config_bundles : dict bundle)
    (tutorial : bool) (config_enable : dict bool) :
  get_best_bundles set_iter [] config_bundles tutorial config_enable = Ok []
  ∧ ∀ category : string,
      get_best_bundles_by_category set_iter [] category
        (annotate [] config_bundles) tutorial config_enable = Ok [].
Proof.
  assert (∀ cat, contribution set_iter [] config_bundles tutorial config_enable cat
                 = []) as Hnil.
  { intros cat. unfold contribution. apply greedy_cover_empty. }
  split.
  - rewrite get_best_bundles_contributions. f_equal.
    induction (categories_of set_iter config_bundles) as [|cat cats IH]; [done|].
    rewrite fmap_cons. cbn [concat]. by rewrite Hnil, IH.
  - intros category. by rewrite by_category_annotated, Hnil.
Qed.

(** ** The download functions *)

Section retrieval_facts.
Context {World : Type}.
Variable progress_retrieve :
  url_entry → string → option (dict string) → bool → World → result unit * World.
Variable extractall : string → string → World → result unit * World.
Variable os_path_exists : string → World → bool.
Variable os_remove : string → World → result unit * World.
Variable download_file_from_google_drive :
  string → string → bool → World → result unit * World.
Variable py_repr : url_entry → string.

Lemma M_bind_unfold {S A B : Type} (m : M S A) (k : A → M S B) (s : S) :
  (m ≫= k) s = match m s with
               | (Ok a, s') => k a s'
               | (Raise e, s') => (Raise e, s')
               end.
Proof. done. Qed.

(** C10.  Let the record have a gdrive source whose URL passes the two
    tests of the function: the text holds one of the markers [/view] and
    [\view], and the text before the first marker holds a separator.  What
    the call with [hot_run=False] does then depends on the module-level
    name [host].  If the name is unbound, as it is unless the loop under
    [__main__] has bound it, the call returns no boolean: it raises
    [NameError] for [host] and leaves the record and the environment as
    they were.  If the name is bound, the call logs the error that names
    the host and returns [False], the record and the world as they
    were. *)
Theorem gdrive_cold_run_follows_host
    (rootpath : string) (disable_progress : bool) (c : call) (url : url_entry) :
  dict_get (bundle_urls (config c)) "gdrive" = Some url →
  (2 ≤ length (split_view (py_str py_repr url)))%nat →
  (2 ≤ length (split_separators
                 (default EmptyString (head (split_view (py_str py_repr url))))))%nat →
  (host (call_env c) = None →
   download_and_unzip_gdrive extractall os_path_exists os_remove
     download_file_from_google_drive py_repr rootpath false disable_progress c
   = (Raise (NameError "host"), c))
  ∧ (∀ h : string,
       host (call_env c) = Some h →
       download_and_unzip_gdrive extractall os_path_exists os_remove
         download_file_from_google_drive py_repr rootpath false disable_progress c
       = (Ok false,
          Call (config c)
               (env_log ERROR ("Host " +:+ h +:+ " not implemented") (call_env c)))).
Proof.
  intros Hurl Hview Hsep.
  split; [intros Hhost | intros h Hhost].
  all: unfold download_and_unzip_gdrive.
  all: rewrite M_bind_unfold; unfold get_config at 1; cbv beta iota.
  all: rewrite M_bind_unfold; unfold of_result, getitem; rewrite Hurl.
  all: rewrite bool_decide_false by lia.
  all: rewrite bool_decide_false by lia.
  all: rewrite M_bind_unfold; unfold global_host; rewrite Hhost.
  - reflexivity.
  - reflexivity.
Qed.

(** *** What a download function may raise, and what it does to the record *)

Lemma safe_ret {S A : Type} (a : A) : safe (mret a : M S A).
Proof. intros s e s' [=]. Qed.

Lemma safe_bind {S A B : Type} (m : M S A) (k : A → M S B) :
  safe m → (∀ a, safe (k a)) → safe (m ≫= k).
Proof.
  intros Hm Hk s e s'. rewrite M_bind_unfold.
  destruct (m s) as [[a|e0] s0] eqn:Em.
  - apply Hk.
  - intros [= <- <-]. by apply (Hm _ _ _ Em).
Qed.

Lemma safe_try_any {S A : Type} (body handler : M S A) :
  safe handler → safe (try_except any_exception body handler).
Proof.
  intros Hh s e s'. unfold try_except, any_exception.
  destruct (body s) as [[a|e0] s0]; [by intros [=]|apply Hh].
Qed.

Lemma safe_raise {S A : Type} (e : exn) :
  is_Exception e = true → safe (raise e : M S A).
Proof. by intros He s e' s' [= <- <-]. Qed.

Lemma safe_getitem {S V : Type} (d : dict V) (k : string) :
  safe (of_result (getitem d k) : M S V).
Proof.
  intros s e s'. unfold of_result, getitem.
  destruct (dict_get d k); by intros [= <- <-].
Qed.

Lemma safe_dict_pop {S V : Type} (d : dict V) (k : string) :
  safe (of_result (dict_pop d k) : M S (V * dict V)).
Proof.
  intros s e s'. unfold of_result, dict_pop.
  destruct (dict_get d k); by intros [= <- <-].
Qed.

Lemma safe_on_world {A : Type} (f : World → result A * World) :
  world_safe f → safe (on_world f).
Proof.
  intros Hf c e c'. unfold on_world.
  destruct (f (world (call_env c))) as [r w] eqn:Ef. intros [= -> <-].
  by apply (Hf _ _ _ Ef).
Qed.

Lemma safe_logger lvl msg : safe (logger (World:=World) lvl msg).
Proof. intros c e c' [=]. Qed.

Lemma safe_get_config : safe (get_config (World:=World)).
Proof. intros c e c' [=]. Qed.

Lemma safe_set_config b : safe (set_config (World:=World) b).
Proof. intros c e c' [=]. Qed.

Lemma safe_global_host : safe (global_host (World:=World)).
Proof.
  intros c e c'. unfold global_host.
  destruct (host (call_env c)); by intros [= <- <-].
Qed.

Lemma safe_remove_if_exists file_path :
  world_safe (os_remove file_path) →
  safe (remove_if_exists os_path_exists os_remove file_path).
Proof.
  intros Hrm c e c'. unfold remove_if_exists.
  destruct (os_path_exists file_path (world (call_env c))); [|by intros [=]].
  by apply safe_on_world.
Qed.

Lemma safe_basename_of url : safe (basename_of (World:=World) url).
Proof. destruct url; (apply safe_ret || by apply safe_raise). Qed.

Lemma keeps_ret {A : Type} (a : A) : keeps (mret a : M (@call World) A).
Proof. by intros c r c' [= <- <-]. Qed.

Lemma keeps_bind {A B : Type} (m : M (@call World) A) (k : A → M (@call World) B) :
  keeps m → (∀ a, keeps (k a)) → keeps (m ≫= k).
Proof.
  intros Hm Hk c r c'. rewrite M_bind_unfold.
  destruct (m c) as [[a|e0] c0] eqn:Em.
  - intros Hka. rewrite (Hk _ _ _ _ Hka). by apply (Hm _ _ _ Em).
  - intros [= <- <-]. by apply (Hm _ _ _ Em).
Qed.

Lemma keeps_try {A : Type} (catches : exn → bool) (body handler : M (@call World) A) :
  keeps body → keeps handler → keeps (try_except catches body handler).
Proof.
  intros Hb Hh c r c'. unfold try_except.
  destruct (body c) as [[a|e0] c0] eqn:Eb.
  - intros [= <- <-]. by apply (Hb _ _ _ Eb).
  - destruct (catches e0).
    + intros Hhc. rewrite (Hh _ _ _ Hhc). by apply (Hb _ _ _ Eb).
    + intros [= <- <-]. by apply (Hb _ _ _ Eb).
Qed.

Lemma keeps_raise {A : Type} (e : exn) :
  keeps (raise e : M (@call World) A).
Proof. by intros c r c' [= <- <-]. Qed.

Lemma keeps_of_result {A : Type} (r : result A) :
  keeps (World:=World) (of_result r).
Proof. by intros c r' c' [= <- <-]. Qed.

Lemma keeps_on_world {A : Type} (f : World → result A * World) :
  keeps (on_world f).
Proof.
  intros c r c'. unfold on_world.
  destruct (f (world (call_env c))) as [r0 w]. by intros [= <- <-].
Qed.

Lemma keeps_logger lvl msg : keeps (World:=World) (logger lvl msg).
Proof. by intros c r c' [= <- <-]. Qed.

Lemma keeps_get_config : keeps (World:=World) get_config.
Proof. by intros c r c' [= <- <-]. Qed.

Lemma keeps_global_host : keeps (World:=World) global_host.
Proof.
  intros c r c'. unfold global_host.
  destruct (host (call_env c)); by intros [= <- <-].
Qed.

Lemma keeps_remove_if_exists file_path :
  keeps (remove_if_exists os_path_exists os_remove file_path).
Proof.
  intros c r c'. unfold remove_if_exists.
  destruct (os_path_exists file_path (world (call_env c))).
  - apply keeps_on_world.
  - by intros [= <- <-].
Qed.

Lemma keeps_basename_of url : keeps (World:=World) (basename_of url).
Proof. destruct url; (apply keeps_ret || apply keeps_raise). Qed.

End retrieval_facts.

Ltac safe_step :=
  first
    [ apply safe_bind; [|intros ?]
    | apply safe_try_any
    | apply safe_ret
    | apply safe_logger
    | apply safe_get_config
    | apply safe_set_config
    | apply safe_global_host
    | apply safe_getitem
    | apply safe_dict_pop
    | apply safe_basename_of
    | apply safe_remove_if_exists; solve [auto]
    | apply safe_on_world; solve [auto]
    | apply safe_raise; reflexivity
    | match goal with |- safe (if ?b then _ else _) => destruct b end
    | match goal with |- safe (match ?x with _ => _ end) => destruct x end ].

Ltac keeps_step :=
  first
    [ apply keeps_bind; [|intros ?]
    | apply keeps_try
    | apply keeps_ret
    | apply keeps_logger
    | apply keeps_get_config
    | apply keeps_global_host
    | apply keeps_of_result
    | apply keeps_basename_of
    | apply keeps_remove_if_exists
    | apply keeps_on_world
    | apply keeps_raise
    | match goal with |- keeps (if ?b then _ else _) => destruct b end
    | match goal with |- keeps (match ?x with _ => _ end) => destruct x end ].

Section downloader_facts.
Context {World : Type}.
Variable progress_retrieve :
  url_entry → string → option (dict string) → bool → World → result unit * World.
Variable extractall : string → string → World → result unit * World.
Variable os_path_exists : string → World → bool.
Variable os_remove : string → World → result unit * World.
Variable download_file_from_google_drive :
  string → string → bool → World → result unit * World.
Variable py_repr : url_entry → string.

Hypothesis retrieve_safe : ∀ url file_path data dp,
  world_safe (progress_retrieve url file_path data dp).
Hypothesis extractall_safe : ∀ archive destination,
  world_safe (extractall archive destination).
Hypothesis remove_safe : ∀ file_path, world_safe (os_remove file_path).
Hypothesis drive_safe : ∀ file_id dest_path showsize,
  world_safe (download_file_from_google_drive file_id dest_path showsize).

Lemma zenodo_safe rootpath hot_run dp :
  safe (download_and_unzip_zenodo progress_retrieve extractall os_remove py_repr
          rootpath hot_run dp).
Proof. unfold download_and_unzip_zenodo. repeat safe_step. Qed.

Lemma gdrive_safe rootpath hot_run dp :
  safe (download_and_unzip_gdrive extractall os_path_exists os_remove
          download_file_from_google_drive py_repr rootpath hot_run dp).
Proof. unfold download_and_unzip_gdrive. repeat safe_step. Qed.

Lemma direct_safe rootpath hot_run dp :
  safe (download_and_unzip_direct progress_retrieve extractall os_path_exists
          os_remove py_repr rootpath hot_run dp).
Proof. unfold download_and_unzip_direct. repeat safe_step. Qed.

Lemma post_safe rootpath hot_run dp :
  safe (download_and_unzip_post progress_retrieve extractall os_path_exists
          os_remove rootpath hot_run dp).
Proof. unfold download_and_unzip_post, pop_post_url. repeat safe_step. Qed.

End downloader_facts.

(** The download functions other than the post one leave the record as
    they found it. *)
Section frame_facts.
Context {World : Type}.
Variable progress_retrieve :
  url_entry → string → option (dict string) → bool → World → result unit * World.
Variable extractall : string → string → World → result unit * World.
Variable os_path_exists : string → World → bool.
Variable os_remove : string → World → result unit * World.
Variable download_file_from_google_drive :
  string → string → bool → World → result unit * World.
Variable py_repr : url_entry → string.

Lemma zenodo_keeps rootpath hot_run dp :
  keeps (download_and_unzip_zenodo progress_retrieve extractall os_remove py_repr
           rootpath hot_run dp).
Proof. unfold download_and_unzip_zenodo. repeat keeps_step. Qed.

Lemma gdrive_keeps rootpath hot_run dp :
  keeps (download_and_unzip_gdrive extractall os_path_exists os_remove
           download_file_from_google_drive py_repr rootpath hot_run dp).
Proof. unfold download_and_unzip_gdrive. repeat keeps_step. Qed.

Lemma direct_keeps rootpath hot_run dp :
  keeps (download_and_unzip_direct progress_retrieve extractall os_path_exists
           os_remove py_repr rootpath hot_run dp).
Proof. unfold download_and_unzip_direct. repeat keeps_step. Qed.

(** The post one takes the [url] entry out of the mapping of the record. *)
Lemma pop_post_url_removes (c : @call World) (postdata : dict string) (u : string) :
  dict_get (bundle_urls (config c)) "post" = Some (UrlMap postdata) →
  dict_get postdata "url" = Some u →
  pop_post_url c
  = (Ok u,
     Call (set_urls (config c)
             (dict_set (bundle_urls (config c)) "post"
                (UrlMap (dict_del postdata "url"))))
          (call_env c)).
Proof.
  intros Hpost Hurl. unfold pop_post_url.
  rewrite M_bind_unfold. unfold get_config at 1. cbv beta iota.
  rewrite M_bind_unfold. unfold of_result at 1, getitem. rewrite Hpost.
  cbv beta iota.
  rewrite M_bind_unfold. unfold of_result, dict_pop. rewrite Hurl.
  done.
Qed.

End frame_facts.

(** ** The download loop *)

Section download_loop_facts.
Context {World : Type}.
Variable globals : string → option (@downloader World).
Variable rootpath : string.
Variable disable_progress : bool.

Lemma attempt_keys b_name h s r s' :
  attempt globals rootpath disable_progress b_name h s = (r, s') →
  dict_keys (config_bundles s') = dict_keys (config_bundles s).
Proof.
  unfold attempt. destruct (globals _) as [dl|].
  - unfold call_downloader.
    destruct (dict_get (config_bundles s) b_name) as [cfg|] eqn:Eb.
    + destruct (dl rootpath true disable_progress (Call cfg (script_env s)))
        as [r0 c0].
      intros [= <- <-]. simpl. apply dict_keys_set, dict_get_is_Some. eauto.
    + by intros [= <- <-].
  - by intros [= <- <-].
Qed.

Lemma tried_keys b_name hosts s d s' :
  tried_in_order globals rootpath disable_progress b_name hosts s d s' →
  dict_keys (config_bundles s') = dict_keys (config_bundles s).
Proof.
  induction 1 as [s|h rest s s' Ha|h rest s s' d s'' Ha _ IH
                 |h rest s e s' d s'' Ha _ _ IH].
  - done.
  - by rewrite (attempt_keys _ _ _ _ _ Ha).
  - by rewrite IH, (attempt_keys _ _ _ _ _ Ha).
  - rewrite IH. simpl. by rewrite (attempt_keys _ _ _ _ _ Ha).
Qed.

Hypothesis Hsafe : raises_exceptions_only globals rootpath disable_progress.

Lemma attempt_safe b_name h :
  safe (attempt globals rootpath disable_progress b_name h).
Proof.
  intros s e s'. unfold attempt. destruct (globals _) as [dl|] eqn:Eg.
  - unfold call_downloader.
    destruct (dict_get (config_bundles s) b_name) as [cfg|].
    + destruct (dl rootpath true disable_progress (Call cfg (script_env s)))
        as [r0 c0] eqn:Ed.
      intros [= -> <-]. by apply (Hsafe _ _ _ _ _ Eg Ed).
    + by intros [= <- <-].
  - by intros [= <- <-].
Qed.

Lemma hosts_loop_tried b_name host_list s :
  ∃ d s', hosts_loop globals rootpath disable_progress b_name host_list s
          = (Ok d, s')
    ∧ tried_in_order globals rootpath disable_progress b_name host_list s d s'.
Proof.
  revert s. induction host_list as [|h rest IH]; intros s.
  - exists false, s. split; [done|constructor].
  - cbn [hosts_loop]. rewrite M_bind_unfold. unfold try_host, try_except.
    destruct (attempt globals rootpath disable_progress b_name h
                (announce b_name h s)) as [[[|]|e] s1] eqn:Ea.
    + exists true, s1. split; [done|]. by apply tried_succeeded.
    + destruct (IH s1) as (d & s2 & Hl & Ht).
      exists d, s2. split; [done|]. by eapply tried_returned_false.
    + rewrite (attempt_safe _ _ _ _ _ Ea).
      destruct (IH (warn b_name h s1)) as (d & s2 & Hl & Ht).
      exists d, s2. split; [done|].
      eapply tried_raised; [done| |done]. by apply (attempt_safe _ _ _ _ _ Ea).
Qed.

Lemma download_loop_fetched bundles_to_download s :
  Forall (λ b_name, b_name ∈ dict_keys (config_bundles s)) bundles_to_download →
  ∃ report s',
    download_loop globals rootpath disable_progress bundles_to_download s
      = (Ok report, s')
    ∧ fetched globals rootpath disable_progress bundles_to_download s report s'
    ∧ report.*1 = bundles_to_download.
Proof.
  revert s. induction bundles_to_download as [|b_name rest IH]; intros s Hin.
  - exists [], s. split; [done|]. split; [constructor|done].
  - apply Forall_cons in Hin as [Hb Hrest].
    apply dict_get_is_Some in Hb as [cfg Hcfg].
    destruct (hosts_loop_tried b_name (dict_keys (bundle_urls cfg)) s)
      as (d & s1 & Hl & Ht).
    pose proof (tried_keys _ _ _ _ _ Ht) as Hkeys.
    destruct (IH (if d then s1 else mark_failed b_name s1))
      as (report & s2 & Hloop & Hf & Hnames).
    { destruct d; simpl; by rewrite Hkeys. }
    exists ((b_name, d) :: report), s2. split; [|split].
    + cbn [download_loop]. rewrite M_bind_unfold. unfold download_bundle.
      rewrite M_bind_unfold. unfold catalog_getitem, getitem. rewrite Hcfg.
      rewrite M_bind_unfold, Hl. rewrite M_bind_unfold.
      destruct d; cbn; rewrite M_bind_unfold, Hloop; done.
    + by eapply fetched_cons.
    + csimpl. by rewrite Hnames.
Qed.

End download_loop_facts.

(** ** The table of the module and the sample world *)

Lemma module_globals_raises_exceptions_only {World : Type}
    (progress_retrieve :
       url_entry → string → option (dict string) → bool → World → result unit * World)
    (extractall : string → string → World → result unit * World)
    (os_path_exists : string → World → bool)
    (os_remove : string → World → result unit * World)
    (drive : string → string → bool → World → result unit * World)
    (py_repr : url_entry → string)
    (protectedplanet hydrobasins : @downloader World)
    (rootpath : string) (disable_progress : bool) :
  (∀ url file_path data dp, world_safe (progress_retrieve url file_path data dp)) →
  (∀ archive destination, world_safe (extractall archive destination)) →
  (∀ file_path, world_safe (os_remove file_path)) →
  (∀ file_id dest_path showsize, world_safe (drive file_id dest_path showsize)) →
  safe (protectedplanet rootpath true disable_progress) →
  safe (hydrobasins rootpath true disable_progress) →
  raises_exceptions_only
    (module_globals progress_retrieve extractall os_path_exists os_remove drive
                    py_repr protectedplanet hydrobasins)
    rootpath disable_progress.
Proof.
  intros Hr Hx Hrm Hd Hpp Hhb name dl c e c' Hname Hdl.
  unfold module_globals in Hname.
  repeat case_bool_decide; simplify_eq.
  - by eapply zenodo_safe.
  - by eapply gdrive_safe.
  - by eapply Hpp.
  - by eapply direct_safe.
  - by eapply Hhb.
  - by eapply post_safe.
Qed.


(** ** Claims on the loader and the retrieval *)

(** C7, the input on which the loader fails to fail.  Handed the empty
    list, which is neither a mapping nor a path, the loader writes the
    error record to the logger and returns the list: it raises nothing. *)
Theorem loader_returns_on_empty_list
    (load_yaml_databundles : string → result pyval)
    (create_country_list : pyval → result pyval) :
  load_databundle_config load_yaml_databundles create_country_list (PList [])
  = ([(ERROR, "Impossible to load the databundle configuration")],
     Ok (PList [])).
Proof. reflexivity. Qed.



(** The run of the sample: the first bundle is delivered by its third
    source after the first raised and the second returned false, and its
    fourth source is not tried; the second bundle fails and is marked; the
    third is delivered all the same. *)
Example sample_run_report :
  (download_loop sample_globals "/root" false
     ["bundle_a"; "bundle_b"; "bundle_c"] (Script fetch_catalog sample_env)).1
  = Ok [("bundle_a", true); ("bundle_b", false); ("bundle_c", true)].
Proof. by vm_compute. Qed.

(** C9, the input on which the record is not left as it was.  On a record
    whose post source names its url, a first attempt takes the [url] entry
    out of the mapping of the record, and a second attempt on the same
    record raises [KeyError] for it. *)
Theorem post_attempt_drops_url :
  ∃ c' : call,
    download_and_unzip_post sample_retrieve sample_extractall sample_exists
      sample_remove "/root" true false (Call post_bundle sample_env)
    = (Ok true, c')
    ∧ dict_get (bundle_urls post_bundle) "post"
      = Some (UrlMap [("url", "https://example.org/files/data.zip");
                      ("token", "abc")])
    ∧ dict_get (bundle_urls (config c')) "post" = Some (UrlMap [("token", "abc")])
    ∧ ∃ c'' : call,
        download_and_unzip_post sample_retrieve sample_extractall sample_exists
          sample_remove "/root" true false c'
        = (Raise (KeyError "url"), c'').
Proof.
  eexists. split; [by vm_compute|].
  split; [done|]. split; [done|].
  eexists. by vm_compute.
Qed.

(** C10, counterexample.  With the name [host] bound, as the loop under
    [__main__] binds it before it calls a download function, the call with
    [hot_run=False] on a link that passes both tests returns [False]: it
    does not raise. *)
Lemma gdrive_cold_run_returns_with_host_bound :
  dict_get (bundle_urls gdrive_bundle) "gdrive"
    = Some (UrlStr "https://drive.google.com/file/d/1abc/view?usp=sharing")
  ∧ split_view "https://drive.google.com/file/d/1abc/view?usp=sharing"
    = ["https://drive.google.com/file/d/1abc"; "?usp=sharing"]
  ∧ split_separators "https://drive.google.com/file/d/1abc"
    = ["https:"; ""; "drive.google.com"; "file"; "d"; "1abc"]
  ∧ download_and_unzip_gdrive sample_extractall sample_exists sample_remove
      sample_drive sample_repr "/root" false false
      (Call gdrive_bundle (Env [] [] (Some "gdrive")))
    = (Ok false,
       Call gdrive_bundle
            (Env [] [(ERROR, "Host gdrive not implemented")] (Some "gdrive"))).
Proof. repeat split; by vm_compute. Qed.

Lemma gdrive_cold_run_follows_host_witness :
  download_and_unzip_gdrive sample_extractall sample_exists sample_remove
    sample_drive sample_repr "/root" false false (Call gdrive_bundle sample_env)
  = (Raise (NameError "host"), Call gdrive_bundle sample_env).
Proof.
  apply (gdrive_cold_run_follows_host sample_extractall sample_exists
           sample_remove sample_drive sample_repr "/root" false
           (Call gdrive_bundle sample_env)
           (UrlStr "https://drive.google.com/file/d/1abc/view?usp=sharing")).
  - reflexivity.
  - vm_compute. lia.
  - vm_compute. lia.
  - reflexivity.
Defined.

(** * Further properties *)

(** ** Further properties of the selection *)

Lemma greedy_cover_covers cof (remaining : gset string) l (c : string) :
  c ∈ remaining → (∃ x, x ∈ l ∧ c ∈ cof x) →
  ∃ y, y ∈ greedy_cover cof remaining l ∧ c ∈ cof y.
Proof.
  revert remaining. induction l as [|x l IH]; intros remaining Hc (x' & Hx' & Hcx').
  - by apply elem_of_nil in Hx'.
  - simpl. destruct (decide (c ∈ cof x)) as [Hcx|Hcx].
    + rewrite bool_decide_true.
      * exists x. split; [left|done].
      * intros Hempty. assert (c ∈ cof x ∩ remaining) as Hin
          by (apply elem_of_intersection; done).
        rewrite Hempty in Hin. by apply elem_of_empty in Hin.
    + apply elem_of_cons in Hx' as [->|Hx']; [done|].
      case_bool_decide.
      * destruct (IH (remaining ∖ (cof x ∩ remaining))) as (y & Hy & Hcy).
        { apply elem_of_difference. split; [done|].
          rewrite elem_of_intersection. tauto. }
        { eauto. }
        exists y. split; [by right|done].
      * destruct (IH remaining) as (y & Hy & Hcy); eauto.
Qed.

Lemma greedy_cover_new cof (remaining : gset string) l pre y post :
  greedy_cover cof remaining l = pre ++ y :: post →
  ∃ c, c ∈ remaining ∧ c ∈ cof y ∧ ∀ z, z ∈ pre → c ∉ cof z.
Proof.
  revert remaining pre. induction l as [|x l IH]; intros remaining pre; simpl.
  - by destruct pre.
  - case_bool_decide as Hne.
    + destruct pre as [|p pre]; simpl; intros [= <- Hrest].
      * apply set_choose_L in Hne as [c Hc].
        apply elem_of_intersection in Hc as [Hcx Hcr].
        exists c. split; [done|]. split; [done|]. by intros z ?%elem_of_nil.
      * apply IH in Hrest as (c & Hc & Hcy & Hpre).
        apply elem_of_difference in Hc as [Hcr Hnot].
        exists c. split; [done|]. split; [done|].
        intros z [->|Hz]%elem_of_cons; [|by apply Hpre].
        intros Hcx. apply Hnot. by apply elem_of_intersection.
    + apply IH.
Qed.

Lemma greedy_cover_length cof (remaining : gset string) l :
  (length (greedy_cover cof remaining l) ≤ size remaining)%nat.
Proof.
  revert remaining. induction l as [|x l IH]; intros remaining; simpl; [lia|].
  case_bool_decide as Hne; [|apply IH].
  simpl. specialize (IH (remaining ∖ (cof x ∩ remaining))).
  assert (size (remaining ∖ (cof x ∩ remaining)) < size remaining)%nat; [|lia].
  apply subset_size. apply set_choose_L in Hne as [c Hc].
  apply elem_of_intersection in Hc as [Hcx Hcr].
  split.
  - intros z ?%elem_of_difference. tauto.
  - intros Hsub. specialize (Hsub c Hcr).
    apply elem_of_difference in Hsub as [_ Hnot]. apply Hnot.
    by apply elem_of_intersection.
Qed.

Lemma greedy_cover_sublist cof (remaining : gset string) l :
  greedy_cover cof remaining l `sublist_of` l.
Proof.
  revert remaining. induction l as [|x l IH]; intros remaining; simpl; [done|].
  case_bool_decide.
  - by apply sublist_skip.
  - by apply sublist_cons.
Qed.

Lemma candidate_names f C cat t en K x :
  x ∈ (sorted_by_value (candidates f C cat t en K)).*1
  ↔ ∃ b, dict_get K x = Some b ∧ is_candidate f cat t en b = true.
Proof.
  rewrite sorted_by_value_perm. unfold candidates.
  rewrite <-list_fmap_compose, list_elem_of_fmap. split.
  - intros ([k b] & -> & Hin). apply list_elem_of_filter in Hin as [Hc Hin].
    apply dict_items_elem in Hin. eauto.
  - intros (b & Hb & Hc). exists (x, b). split; [done|].
    apply list_elem_of_filter. split; [done|]. by apply dict_items_elem.
Qed.

Lemma countries_of_elem K bname b (c : string) :
  dict_get K bname = Some b → c ∈ countries_of K bname ↔ c ∈ bundle_countries b.
Proof. intros Hb. unfold countries_of. rewrite Hb. apply elem_of_list_to_set. Qed.

Lemma is_candidate_true f cat t en b :
  set_iter_ok f →
  is_candidate f cat t en b = true
  ↔ bundle_category b = cat ∧ default false (bundle_tutorial b) = t
    ∧ is_fully_disabled b en = false.
Proof.
  intros Hf. unfold is_candidate.
  rewrite !andb_true_iff, !bool_decide_eq_true, (check_disabled_all f) by done.
  destruct (is_fully_disabled b en); split; intros [[? ?] ?] || intros (? & ? & ?);
    done.
Qed.

(** X1.  A requested country that some bundle of the requested mode covers,
    the bundle not being disabled, is covered by a bundle of the selection
    of the same category. *)
Theorem selection_covers_requested_countries
    (set_iter : gset string → list string) (countries : list string)
    (config_bundles : dict bundle) (tutorial : bool) (config_enable : dict bool)
    (bname : string) (b : bundle) (c : string) :
  set_iter_ok set_iter →
  dict_get config_bundles bname = Some b →
  default false (bundle_tutorial b) = tutorial →
  is_fully_disabled b config_enable = false →
  c ∈ countries → c ∈ bundle_countries b →
  ∃ r : list string,
    get_best_bundles set_iter countries config_bundles tutorial config_enable = Ok r
    ∧ ∃ (sel : string) (b' : bundle),
        sel ∈ r ∧ dict_get config_bundles sel = Some b'
        ∧ bundle_category b' = bundle_category b ∧ c ∈ bundle_countries b'.
Proof.
  intros Hf Hb Ht Hdis Hc Hcb. eexists.
  split; [apply get_best_bundles_contributions|].
  destruct (greedy_cover_covers (countries_of config_bundles)
              (list_to_set countries)
              (sorted_by_value
                 (candidates set_iter countries (bundle_category b) tutorial
                    config_enable config_bundles)).*1 c)
    as (sel & Hsel & Hcsel).
  { by apply elem_of_list_to_set. }
  { exists bname. split; [|by apply (countries_of_elem _ _ b)].
    apply candidate_names. exists b. split; [done|].
    by apply is_candidate_true. }
  pose proof Hsel as Hsel'. apply greedy_cover_elem, candidate_names in Hsel'
    as (b' & Hb' & Hcand).
  exists sel, b'. split; [|split; [done|split]].
  - apply elem_of_concat. eexists. split; [exact Hsel|].
    apply list_elem_of_fmap. exists (bundle_category b). split; [done|].
    unfold categories_of. apply (set_iter_ok_elem _ _ _ Hf), elem_of_list_to_set.
    apply list_elem_of_fmap. exists b. split; [done|].
    apply list_elem_of_fmap. exists (bname, b). split; [done|].
    by apply dict_items_elem.
  - by apply (is_candidate_true _ _ _ _ _ Hf) in Hcand as (? & _).
  - by apply (countries_of_elem _ _ b') in Hcsel.
Qed.

(** X2.  The selection of a category holds no more bundles than there are
    distinct requested countries, and every bundle of it covers a requested
    country that none of the bundles selected before it covers. *)
Theorem selected_bundles_add_coverage
    (set_iter : gset string → list string) (country_list : list string)
    (category : string) (config_bundles : dict bundle) (tutorial : bool)
    (config_enable : dict bool) :
  ∃ r : list string,
    get_best_bundles_by_category set_iter country_list category
      (annotate country_list config_bundles) tutorial config_enable = Ok r
    ∧ (length r ≤ size (list_to_set country_list : gset string))%nat
    ∧ ∀ (pre : list string) (y : string) (post : list string),
        r = pre ++ y :: post →
        ∃ c : string,
          c ∈ country_list ∧ c ∈ countries_of config_bundles y
          ∧ ∀ z, z ∈ pre → c ∉ countries_of config_bundles z.
Proof.
  eexists. split; [apply by_category_annotated|]. unfold contribution. split.
  - apply greedy_cover_length.
  - intros pre y post Hr. apply greedy_cover_new in Hr as (c & Hc & Hrest).
    exists c. split; [by apply elem_of_list_to_set in Hc|done].
Qed.

Lemma NoDup_concat_fmap {A B : Type} (h : A → list B) (l : list A) :
  NoDup l → (∀ a, a ∈ l → NoDup (h a)) →
  (∀ a1 a2 x, x ∈ h a1 → x ∈ h a2 → a1 = a2) →
  NoDup (concat (h <$> l)).
Proof.
  intros Hl Hh Hdisj. induction Hl as [|a l Ha Hl IH]; csimpl; [constructor|].
  apply NoDup_app. split; [apply Hh; left|]. split.
  - intros x Hx Hin. apply elem_of_concat in Hin as (l' & Hx' & Hl').
    apply list_elem_of_fmap in Hl' as (a' & -> & Ha').
    assert (a = a') as -> by eauto. done.
  - apply IH. intros a' Ha'. apply Hh. by right.
Qed.

(** X3.  From a catalog with distinct names no bundle is selected twice. *)
Theorem selection_has_no_duplicates
    (set_iter : gset string → list string) (countries : list string)
    (config_bundles : dict bundle) (tutorial : bool) (config_enable : dict bool) :
  set_iter_ok set_iter → dict_wf config_bundles →
  ∃ r : list string,
    get_best_bundles set_iter countries config_bundles tutorial config_enable = Ok r
    ∧ NoDup r.
Proof.
  intros Hf Hwf. eexists. split; [apply get_best_bundles_contributions|].
  apply NoDup_concat_fmap.
  - unfold categories_of. rewrite (Hf _). apply NoDup_elements.
  - intros cat _. unfold contribution.
    eapply sublist_NoDup; [|apply greedy_cover_sublist].
    rewrite sorted_by_value_perm. unfold candidates.
    rewrite <-list_fmap_compose, dict_items_wf by done.
    eapply sublist_NoDup; [exact Hwf|].
    unfold dict_keys. apply fmap_sublist, sublist_filter.
  - intros cat1 cat2 x H1 H2.
    apply contribution_elem in H1 as (b1 & Hb1 & Hc1).
    apply contribution_elem in H2 as (b2 & Hb2 & Hc2).
    assert (b1 = b2) as -> by congruence.
    apply (is_candidate_true _ _ _ _ _ Hf) in Hc1 as (<- & _).
    by apply (is_candidate_true _ _ _ _ _ Hf) in Hc2 as (<- & _).
Qed.

Lemma candidates_annotate f C C' cat t en K :
  candidates f C cat t en (annotate C' K) = candidates f C cat t en K.
Proof.
  unfold candidates. rewrite annotate_items.
  induction (dict_items K) as [|[k b] items IH]; [done|].
  rewrite fmap_cons, !filter_cons. cbn [fst snd].
  rewrite is_candidate_annotate. case_decide; [|done].
  rewrite !fmap_cons. by rewrite IH.
Qed.

Lemma contribution_annotate f C C' K t en cat :
  contribution f C (annotate C' K) t en cat = contribution f C K t en cat.
Proof.
  unfold contribution. rewrite candidates_annotate.
  apply greedy_cover_ext, countries_of_annotate.
Qed.

Lemma categories_of_annotate f C' K :
  categories_of f (annotate C' K) = categories_of f K.
Proof.
  unfold categories_of. rewrite annotate_items. do 2 f_equal.
  rewrite <-!list_fmap_compose. by apply list_fmap_ext.
Qed.

Lemma get_best_bundles_run_annotated f C K t en :
  ∃ ws, get_best_bundles_run f C K t en
        = Ok (SelectionRun
                (concat (contribution f C K t en <$> categories_of f K))
                ws (annotate C K)).
Proof.
  unfold get_best_bundles_run.
  destruct (categories_loop_annotated f C K t en ([], []) (categories_of f K))
    as [w ->].
  by exists w.
Qed.

(** X4.  The annotations an earlier call left in the catalog, for whatever
    countries, have no effect on a later call: it returns what it returns
    on the catalog as loaded. *)
Theorem stale_annotations_are_overwritten
    (set_iter : gset string → list string)
    (countries0 : list string) (tutorial0 : bool) (config_enable0 : dict bool)
    (countries : list string) (config_bundles : dict bundle) (tutorial : bool)
    (config_enable : dict bool) :
  ∃ run0 : selection_run,
    get_best_bundles_run set_iter countries0 config_bundles tutorial0 config_enable0
      = Ok run0
    ∧ get_best_bundles set_iter countries (catalog_after run0) tutorial config_enable
      = get_best_bundles set_iter countries config_bundles tutorial config_enable.
Proof.
  destruct (get_best_bundles_run_annotated set_iter countries0 config_bundles
              tutorial0 config_enable0) as [ws ->].
  eexists. split; [done|]. cbn [catalog_after].
  rewrite !get_best_bundles_contributions, categories_of_annotate. do 2 f_equal.
  apply list_fmap_ext. intros _ cat _. apply contribution_annotate.
Qed.

(** X6.  A call leaves the catalog with the same names in the same order,
    and every record with [matched_countries] set to its countries that
    are requested, [n_matched] to their number, and all other keys as they
    were. *)
Theorem annotation_changes_two_fields_only
    (set_iter : gset string → list string) (countries : list string)
    (config_bundles : dict bundle) (tutorial : bool) (config_enable : dict bool) :
  ∃ run : selection_run,
    get_best_bundles_run set_iter countries config_bundles tutorial config_enable
      = Ok run
    ∧ dict_keys (catalog_after run) = dict_keys config_bundles
    ∧ ∀ (bname : string) (b : bundle),
        dict_get config_bundles bname = Some b →
        ∃ b' : bundle,
          dict_get (catalog_after run) bname = Some b'
          ∧ bundle_matched_countries b'
            = Some (filter (λ c, c ∈ countries) (bundle_countries b))
          ∧ bundle_n_matched b'
            = Some (length (filter (λ c, c ∈ countries) (bundle_countries b)))
          ∧ bundle_countries b' = bundle_countries b
          ∧ bundle_category b' = bundle_category b
          ∧ bundle_tutorial b' = bundle_tutorial b
          ∧ bundle_destination b' = bundle_destination b
          ∧ bundle_urls b' = bundle_urls b
          ∧ bundle_unzip b' = bundle_unzip b
          ∧ bundle_output b' = bundle_output b
          ∧ bundle_disable_by_opt b' = bundle_disable_by_opt b.
Proof.
  destruct (get_best_bundles_run_annotated set_iter countries config_bundles
              tutorial config_enable) as [ws ->].
  eexists. split; [done|]. cbn [catalog_after]. split; [apply annotate_keys|].
  intros bname b Hb. exists (annotate_bundle countries b).
  rewrite annotate_get, Hb. done.
Qed.

(** The warnings of the loop over the categories. *)
Lemma categories_loop_warnings f C K t en acc cats :
  categories_loop f C (annotate C K) t en acc cats
  = Ok (acc.1 ++ concat (contribution f C K t en <$> cats),
        acc.2 ++ ((λ cat, multiple_warning cat (contribution f C K t en cat)) <$>
                    filter (λ cat, 1 < length (contribution f C K t en cat))%nat
                           cats)).
Proof.
  revert acc. induction cats as [|cat cats IH]; intros [bs ws]; simpl.
  - by rewrite !app_nil_r.
  - rewrite by_category_annotated, bind_Ok, filter_cons.
    destruct (contribution f C K t en cat) as [|x xs] eqn:Ex.
    + rewrite IH. rewrite decide_False by (simpl; lia). done.
    + rewrite IH. cbn [fst snd concat fmap list_fmap]. rewrite <-app_assoc.
      destruct (decide (1 < length (x :: xs))%nat) as [Hlen|Hlen].
      * rewrite bool_decide_true by done.
        rewrite fmap_cons, Ex, <-app_assoc. done.
      * rewrite bool_decide_false by done. done.
Qed.

(** X7.  The warnings of a call are one for every category from which more
    than one bundle is selected, in the order of the categories, each
    naming the bundles selected for the category. *)
Theorem warning_for_each_category_with_several_bundles
    (set_iter : gset string → list string) (countries : list string)
    (config_bundles : dict bundle) (tutorial : bool) (config_enable : dict bool) :
  ∃ run : selection_run,
    get_best_bundles_run set_iter countries config_bundles tutorial config_enable
      = Ok run
    ∧ warnings run
      = (λ cat, multiple_warning cat
                  (contribution set_iter countries config_bundles tutorial
                     config_enable cat)) <$>
          filter (λ cat, 1 < length (contribution set_iter countries config_bundles
                                       tutorial config_enable cat))%nat
                 (categories_of set_iter config_bundles)
    ∧ ∀ cat : string,
        get_best_bundles_by_category set_iter countries cat
          (catalog_after run) tutorial config_enable
        = Ok (contribution set_iter countries config_bundles tutorial
                config_enable cat).
Proof.
  unfold get_best_bundles_run. rewrite categories_loop_warnings, bind_Ok.
  eexists. split; [done|]. split; [done|].
  intros cat. apply by_category_annotated.
Qed.

(** The comprehension on a catalog that may lack annotations. *)
Lemma comprehension_cases f cat t en (items : list (string * bundle)) :
  (comprehension_n_matched f cat t en items = Raise (KeyError "n_matched")
   ∧ Exists (λ kb, is_candidate f cat t en kb.2 = true
                   ∧ bundle_n_matched kb.2 = None) items)
  ∨ (comprehension_n_matched f cat t en items
     = Ok ((λ kb, (kb.1, default 0%nat (bundle_n_matched kb.2))) <$>
             filter (λ kb, is_candidate f cat t en kb.2 = true) items)
     ∧ Forall (λ kb, is_candidate f cat t en kb.2 = true →
                     is_Some (bundle_n_matched kb.2)) items).
Proof.
  induction items as [|[bname b] items IH]; [right; by split|].
  rewrite filter_cons. cbn [comprehension_n_matched fst snd].
  destruct (is_candidate f cat t en b) eqn:Ec.
  - rewrite decide_True by done.
    destruct (bundle_n_matched b) as [n|] eqn:En.
    + destruct IH as [[-> Hex]|[-> Hall]].
      * left. split; [done|]. by apply Exists_cons_tl.
      * right. split; [by rewrite fmap_cons; cbn; rewrite En|].
        constructor; [|done]. cbn. rewrite En. eauto.
    + left. split; [done|]. apply Exists_cons_hd. by split.
  - rewrite decide_False by done.
    destruct IH as [[-> Hex]|[-> Hall]].
    + left. split; [done|]. by apply Exists_cons_tl.
    + right. split; [done|]. constructor; [|done]. cbn. by rewrite Ec.
Qed.

(** The order of the stored [n_matched] values, for a catalog that holds
    them. *)
Lemma stored_candidates_keys f cat t en K :
  Forall (λ d : string * nat, d.1 ∈ dict_keys K)
    ((λ kb : string * bundle, (kb.1, default 0%nat (bundle_n_matched kb.2))) <$>
       filter (λ kb, is_candidate f cat t en kb.2 = true) (dict_items K)).
Proof.
  apply Forall_forall. intros [bname n] Hin. simpl.
  apply list_elem_of_fmap in Hin as ([k b] & [= -> ->] & Hin).
  apply list_elem_of_filter in Hin as [_ Hin].
  apply dict_items_elem in Hin. apply dict_get_is_Some. eauto.
Qed.

(** X5.  On a catalog as it is, the selection of a category raises
    [KeyError] for [n_matched] exactly when a candidate of the category has
    no [n_matched]; otherwise it returns the greedy cover over the
    candidates sorted on the [n_matched] they hold.  For a category
    without candidates it returns the empty list. *)
Theorem by_category_needs_annotated_candidates
    (set_iter : gset string → list string) (country_list : list string)
    (category : string) (config_bundles : dict bundle) (tutorial : bool)
    (config_enable : dict bool) :
  (get_best_bundles_by_category set_iter country_list category config_bundles
     tutorial config_enable = Raise (KeyError "n_matched")
   ∧ ∃ (bname : string) (b : bundle),
       dict_get config_bundles bname = Some b
       ∧ is_candidate set_iter category tutorial config_enable b = true
       ∧ bundle_n_matched b = None)
  ∨ (get_best_bundles_by_category set_iter country_list category config_bundles
       tutorial config_enable
     = Ok (greedy_cover (countries_of config_bundles) (list_to_set country_list)
             (sorted_by_value
                ((λ kb, (kb.1, default 0%nat (bundle_n_matched kb.2))) <$>
                   filter (λ kb, is_candidate set_iter category tutorial
                                   config_enable kb.2 = true)
                          (dict_items config_bundles))).*1)
     ∧ ∀ (bname : string) (b : bundle),
         dict_get config_bundles bname = Some b →
         is_candidate set_iter category tutorial config_enable b = true →
         is_Some (bundle_n_matched b)).
Proof.
  unfold get_best_bundles_by_category.
  destruct (comprehension_cases set_iter category tutorial config_enable
              (dict_items config_bundles)) as [[-> Hex]|[-> Hall]].
  - left. split; [done|]. apply Exists_exists in Hex as ([k b] & Hin & Hc & Hn).
    apply dict_items_elem in Hin. eauto.
  - right. split.
    + rewrite bind_Ok.
      pose proof (stored_candidates_keys set_iter category tutorial config_enable
                    config_bundles) as Hkeys.
      destruct ((λ kb : string * bundle,
                   (kb.1, default 0%nat (bundle_n_matched kb.2))) <$>
                filter (λ kb, is_candidate set_iter category tutorial config_enable
                                kb.2 = true) (dict_items config_bundles))
        as [|d ds] eqn:Ed; [done|].
      destruct (select_loop_greedy set_iter config_bundles
                  (SelState [] (list_to_set country_list) [])
                  (sorted_by_value (d :: ds))) as (st' & -> & Hret).
      { by rewrite sorted_by_value_perm. }
      rewrite bind_Ok, Hret. done.
    + intros bname b Hb Hc. rewrite Forall_forall in Hall.
      apply (Hall (bname, b)); [|done]. by apply dict_items_elem.
Qed.

(** ** Further properties of the option check *)

(** X8.  For a bundle that is not fully disabled the check returns the
    empty list unless the options hold the key [output]; if they do, it
    returns, without repetition, the outputs listed under the options that
    [config_enable] switches on. *)
Theorem partly_disabled_outputs
    (set_iter : gset string → list string) (config_bundle : bundle)
    (config_enable : dict bool) (disabled_config : dict (list string)) :
  set_iter_ok set_iter →
  bundle_disable_by_opt config_bundle = Some disabled_config →
  is_fully_disabled config_bundle config_enable = false →
  ("output" ∉ dict_keys config_enable →
     _check_disabled_by_opt set_iter config_bundle config_enable = [])
  ∧ ("output" ∈ dict_keys config_enable →
     NoDup (_check_disabled_by_opt set_iter config_bundle config_enable)
     ∧ ∀ out : string,
         out ∈ _check_disabled_by_opt set_iter config_bundle config_enable
         ↔ ∃ (optname : string) (outs : list string),
             dict_get disabled_config optname = Some outs
             ∧ enabled config_enable optname = true ∧ out ∈ outs).
Proof.
  intros Hok Hcfg Hdis. unfold is_fully_disabled in Hdis.
  unfold _check_disabled_by_opt. rewrite Hcfg in *.
  apply bool_decide_eq_false in Hdis. rewrite <-merge_unique_union in Hdis.
  rewrite bool_decide_false by done. split.
  - intros Hout. by rewrite bool_decide_false.
  - intros Hout. rewrite bool_decide_true by done. split.
    + rewrite (Hok _). apply NoDup_elements.
    + intros out. rewrite (set_iter_ok_elem _ _ _ Hok), elem_of_list_to_set,
        merge_unique_elem. split.
      * intros (outs & Hin & Ho).
        apply list_elem_of_fmap in Hin as ([optname outs'] & -> & Hin).
        apply list_elem_of_filter in Hin as [Hen Hin].
        apply dict_items_elem in Hin. eauto.
      * intros (optname & outs & Hget & Hen & Ho). exists outs. split; [|done].
        apply list_elem_of_fmap. exists (optname, outs). split; [done|].
        apply list_elem_of_filter. split; [done|]. by apply dict_items_elem.
Qed.

(** ** Further properties of dictionaries *)

Section dict_more.
Context {V : Type}.
Implicit Types (d : dict V) (k : string) (v : V).

Lemma dict_get_app_notin (d1 d2 : dict V) k :
  k ∉ dict_keys d1 → dict_get (d1 ++ d2) k = dict_get d2 k.
Proof.
  unfold dict_keys. induction d1 as [|[k' v'] d1 IH]; csimpl; [done|].
  rewrite not_elem_of_cons. intros [Hne Hnot].
  rewrite bool_decide_false by done. by apply IH.
Qed.

Lemma dict_set_app_notin (d1 d2 : dict V) k v :
  k ∉ dict_keys d1 → dict_set (d1 ++ d2) k v = d1 ++ dict_set d2 k v.
Proof.
  unfold dict_keys. induction d1 as [|[k' v'] d1 IH]; csimpl; [done|].
  rewrite not_elem_of_cons. intros [Hne Hnot].
  rewrite bool_decide_false by done. f_equal. by apply IH.
Qed.

(** Writing back the value that is there changes nothing. *)
Lemma dict_set_same d k v : dict_get d k = Some v → dict_set d k v = d.
Proof.
  induction d as [|[k' v'] d IH]; simpl; [done|].
  case_bool_decide.
  - by intros [= ->].
  - intros Hg. f_equal. by apply IH.
Qed.

Lemma dict_set_set d k v v' : dict_set (dict_set d k v) k v' = dict_set d k v'.
Proof.
  induction d as [|[k0 v0] d IH]; simpl.
  - by rewrite bool_decide_true.
  - case_bool_decide as Hk; simpl.
    + by rewrite bool_decide_true.
    + rewrite bool_decide_false by done. by rewrite IH.
Qed.

End dict_more.

(** ** The loader on a mapping *)

Lemma parse_countries_dict ccl (processed todo : list (string * pyval)) :
  NoDup (dict_keys (processed ++ todo)) →
  parse_countries ccl (PDict (processed ++ todo)) (PStr <$> dict_keys todo)
  = (λ r, PDict (processed ++ r)) <$> parse_entries ccl todo.
Proof.
  revert processed. induction todo as [|[k v] todo IH]; intros processed Hnd.
  - reflexivity.
  - assert (k ∉ dict_keys processed) as Hk.
    { unfold dict_keys in *. rewrite fmap_app in Hnd.
      apply NoDup_app in Hnd as (_ & Hdisj & _). intros Hin.
      apply (Hdisj k Hin). left. }
    cbn [dict_keys fmap list_fmap parse_countries parse_entries py_getitem
         fst snd].
    unfold getitem. rewrite dict_get_app_notin by done.
    cbn [dict_get]. rewrite bool_decide_true by done. rewrite bind_Ok.
    unfold parse_entry.
    destruct (py_getitem v (PStr "countries")) as [listed|e]; [|done].
    rewrite !bind_Ok.
    destruct (ccl listed) as [parsed|e]; [|done]. rewrite !bind_Ok.
    destruct (py_setitem_str v "countries" parsed) as [entry'|e]; [|done].
    rewrite !bind_Ok. cbn [py_store]. rewrite bind_Ok.
    rewrite dict_set_app_notin by done. cbn [dict_set].
    rewrite bool_decide_true by done.
    specialize (IH (processed ++ [(k, entry')])).
    rewrite <-!app_assoc in IH. cbn [app] in IH.
    unfold dict_keys in IH. rewrite IH.
    + destruct (parse_entries ccl todo) as [rest'|e]; [|done].
      cbn. by rewrite <-app_assoc.
    + unfold dict_keys in Hnd. by rewrite !fmap_app in *.
Qed.

Lemma parse_entries_keys ccl d d' :
  parse_entries ccl d = Ok d' →
  Forall2 (λ e e', e.1 = e'.1 ∧ parse_entry ccl e.2 = Ok e'.2) d d'.
Proof.
  revert d'. induction d as [|[k v] d IH]; intros d'; simpl.
  - intros [= <-]. constructor.
  - destruct (parse_entry ccl v) as [v'|e] eqn:Ev; [|done]. rewrite bind_Ok.
    destruct (parse_entries ccl d) as [rest|e]; [|done]. rewrite bind_Ok.
    intros [= <-]. constructor; [done|]. by apply IH.
Qed.

Lemma parse_entries_same_keys ccl d d' :
  parse_entries ccl d = Ok d' → dict_keys d' = dict_keys d.
Proof.
  intros Hd'%parse_entries_keys. unfold dict_keys.
  induction Hd' as [|[k v] [k' v'] d0 d0' [Hk _] _ IH]; csimpl; [done|].
  simpl in Hk. by rewrite Hk, IH.
Qed.

Lemma load_mapping ly ccl (d : list (string * pyval)) :
  dict_wf d →
  load_databundle_config ly ccl (PDict d) = ([], PDict <$> parse_entries ccl d).
Proof.
  intros Hwf. unfold load_databundle_config. f_equal. rewrite bind_Ok.
  cbn [py_iter]. rewrite bind_Ok.
  apply (parse_countries_dict ccl [] d Hwf).
Qed.

(** X9.  On a mapping, given directly or read from a path, the loader logs
    nothing and parses the entries in order: it returns the mapping with
    the same names and every entry parsed, or raises what the first entry
    that cannot be parsed raises. *)
Theorem loader_parses_mapping_in_order
    (load_yaml_databundles : string → result pyval)
    (create_country_list : pyval → result pyval)
    (d : list (string * pyval)) :
  dict_wf d →
  load_databundle_config load_yaml_databundles create_country_list (PDict d)
    = ([], PDict <$> parse_entries create_country_list d)
  ∧ (∀ path : string,
       load_yaml_databundles path = Ok (PDict d) →
       load_databundle_config load_yaml_databundles create_country_list (PStr path)
       = ([], PDict <$> parse_entries create_country_list d))
  ∧ ∀ d' : list (string * pyval),
      parse_entries create_country_list d = Ok d' →
      dict_keys d' = dict_keys d
      ∧ Forall2 (λ e e', e.1 = e'.1
                         ∧ parse_entry create_country_list e.2 = Ok e'.2) d d'.
Proof.
  intros Hwf. split; [by apply load_mapping|split].
  - intros path Hpath. rewrite <-(load_mapping load_yaml_databundles) by done.
    unfold load_databundle_config. by rewrite Hpath.
  - intros d' Hd'. split; [by eapply parse_entries_same_keys|].
    by apply parse_entries_keys.
Qed.

(** ** The loader on what is neither a string nor a dict *)

Lemma parse_countries_ordered_dict ccl (processed todo : list (string * pyval)) :
  NoDup (dict_keys (processed ++ todo)) →
  parse_countries ccl (POrderedDict (processed ++ todo)) (PStr <$> dict_keys todo)
  = (λ r, POrderedDict (processed ++ r)) <$> parse_entries ccl todo.
Proof.
  revert processed. induction todo as [|[k v] todo IH]; intros processed Hnd.
  - reflexivity.
  - assert (k ∉ dict_keys processed) as Hk.
    { unfold dict_keys in *. rewrite fmap_app in Hnd.
      apply NoDup_app in Hnd as (_ & Hdisj & _). intros Hin.
      apply (Hdisj k Hin). left. }
    cbn [dict_keys fmap list_fmap parse_countries parse_entries py_getitem
         fst snd].
    unfold getitem. rewrite dict_get_app_notin by done.
    cbn [dict_get]. rewrite bool_decide_true by done. rewrite bind_Ok.
    unfold parse_entry.
    destruct (py_getitem v (PStr "countries")) as [listed|e]; [|done].
    rewrite !bind_Ok.
    destruct (ccl listed) as [parsed|e]; [|done]. rewrite !bind_Ok.
    destruct (py_setitem_str v "countries" parsed) as [entry'|e]; [|done].
    rewrite !bind_Ok. cbn [py_store]. rewrite bind_Ok.
    rewrite dict_set_app_notin by done. cbn [dict_set].
    rewrite bool_decide_true by done.
    specialize (IH (processed ++ [(k, entry')])).
    rewrite <-!app_assoc in IH. cbn [app] in IH.
    unfold dict_keys in IH. rewrite IH.
    + destruct (parse_entries ccl todo) as [rest'|e]; [|done].
      cbn. by rewrite <-app_assoc.
    + unfold dict_keys in Hnd. by rewrite !fmap_app in *.
Qed.

Lemma list_getitem_elem l z v : list_getitem l z = Ok v → v ∈ l.
Proof.
  unfold list_getitem.
  destruct (seq_index (length l) z) as [i|e]; [|done]. rewrite bind_Ok.
  destruct (l !! i) as [y|] eqn:Ei; [|done]. intros [= ->].
  apply list_elem_of_lookup. eauto.
Qed.

Lemma py_getitem_list_index l x v :
  py_getitem (PList l) x = Ok v → is_index x = true ∧ v ∈ l.
Proof. destruct x; simpl; try done; intros ?%list_getitem_elem; done. Qed.

Lemma py_getitem_tuple_index l x v :
  py_getitem (PTuple l) x = Ok v → is_index x = true ∧ v ∈ l.
Proof. destruct x; simpl; try done; intros ?%list_getitem_elem; done. Qed.

Lemma py_store_list l x v config' :
  py_store (PList l) x v = Ok config' → ∃ l', config' = PList l'.
Proof.
  destruct x; simpl; try done.
  - destruct (seq_index (length l) (int_of_bool b)); [|done].
    rewrite bind_Ok. intros [= <-]. eauto.
  - destruct (seq_index (length l) z); [|done].
    rewrite bind_Ok. intros [= <-]. eauto.
Qed.

Lemma py_store_tuple l x v config' :
  py_store (PTuple l) x v = Ok config' → ∃ l', config' = PTuple l'.
Proof.
  destruct x; simpl; try done.
  - destruct (seq_index (length l) (int_of_bool b)); [|done].
    rewrite bind_Ok. intros [= <-]. eauto.
  - destruct (seq_index (length l) z); [|done].
    rewrite bind_Ok. intros [= <-]. eauto.
Qed.

(** An entry that has the key [countries] is no subscript. *)
Lemma entry_is_no_index v listed :
  py_getitem v (PStr "countries") = Ok listed → is_index v = false.
Proof. by destruct v. Qed.

Section sequences.
(** [mk] is one of [PList] and [PTuple]. *)
Variable mk : list pyval → pyval.
Hypothesis mk_getitem : ∀ l x v,
  py_getitem (mk l) x = Ok v → is_index x = true ∧ v ∈ l.
Hypothesis mk_store : ∀ l x v config',
  py_store (mk l) x v = Ok config' → ∃ l', config' = mk l'.

(** A name that is no subscript stops the loop over a sequence. *)
Lemma parse_countries_sequence_raises ccl l names :
  Exists (λ x, is_index x = false) names →
  ∃ e, parse_countries ccl (mk l) names = Raise e.
Proof.
  intros Hex. revert l. induction Hex as [x names Hx|x names _ IH]; intros l.
  - cbn [parse_countries].
    destruct (py_getitem (mk l) x) as [v|e] eqn:Eg; [|eexists; reflexivity].
    apply mk_getitem in Eg as [Hidx _]. congruence.
  - cbn [parse_countries].
    destruct (py_getitem (mk l) x) as [v|e]; [|eexists; reflexivity].
    rewrite bind_Ok.
    destruct (py_getitem v (PStr "countries")) as [listed|e]; [|eexists; reflexivity].
    rewrite bind_Ok. destruct (ccl listed) as [parsed|e]; [|eexists; reflexivity].
    rewrite bind_Ok.
    destruct (py_setitem_str v "countries" parsed) as [entry'|e]; [|eexists; reflexivity].
    rewrite bind_Ok.
    destruct (py_store (mk l) x entry') as [config'|e] eqn:Es; [|eexists; reflexivity].
    rewrite bind_Ok. apply mk_store in Es as [l' ->]. apply IH.
Qed.

(** The loop over a sequence with an element raises: the element under a
    subscript that has the key [countries] is itself no subscript. *)
Lemma parse_countries_nonempty_sequence_raises ccl x l :
  ∃ e, parse_countries ccl (mk (x :: l)) (x :: l) = Raise e.
Proof.
  destruct (is_index x) eqn:Hx.
  - cbn [parse_countries].
    destruct (py_getitem (mk (x :: l)) x) as [v|e] eqn:Eg; [|eexists; reflexivity].
    rewrite bind_Ok. apply mk_getitem in Eg as [_ Hv].
    destruct (py_getitem v (PStr "countries")) as [listed|e] eqn:El; [|eexists; reflexivity].
    rewrite bind_Ok. apply entry_is_no_index in El as Hnv.
    destruct (ccl listed) as [parsed|e]; [|eexists; reflexivity]. rewrite bind_Ok.
    destruct (py_setitem_str v "countries" parsed) as [entry'|e]; [|eexists; reflexivity].
    rewrite bind_Ok.
    destruct (py_store (mk (x :: l)) x entry') as [config'|e] eqn:Es; [|eexists; reflexivity].
    rewrite bind_Ok. apply mk_store in Es as [l' ->].
    apply parse_countries_sequence_raises.
    apply elem_of_cons in Hv as [->|Hv]; [congruence|].
    apply Exists_exists. eauto.
  - apply parse_countries_sequence_raises. by apply Exists_cons_hd.
Qed.

End sequences.

(** A set cannot be subscripted. *)
Lemma parse_countries_set_raises ccl l x names :
  ∃ e, parse_countries ccl (PSet l) (x :: names) = Raise e.
Proof. cbn [parse_countries]. destruct x; eexists; reflexivity. Qed.

(** What a subscript yields of a [bytes] is an [int], which has no key. *)
Lemma parse_countries_bytes_raises ccl b x names :
  ∃ e, parse_countries ccl (PBytes b) (x :: names) = Raise e.
Proof.
  cbn [parse_countries].
  destruct (py_getitem (PBytes b) x) as [v|e] eqn:Eg; [|eexists; reflexivity].
  rewrite bind_Ok.
  assert (v ∈ PInt <$> b) as Hv.
  { destruct x; simpl in Eg; try done; by apply list_getitem_elem in Eg. }
  apply list_elem_of_fmap in Hv as (z & -> & _).
  eexists. reflexivity.
Qed.

(** After the error the loop runs on the input as it is. *)
Lemma load_other ly ccl config :
  neither_str_nor_dict config = true →
  load_databundle_config ly ccl config
  = ([(ERROR, "Impossible to load the databundle configuration")],
     names ← py_iter config; parse_countries ccl config names).
Proof. by destruct config. Qed.

(** X10.  Let the input be neither a string nor a [dict]: [None], a
    [bool], an [int], a list, a tuple, a set, a [bytes] or an
    [OrderedDict].  The loader logs the error and goes on with the loop.
    A list, tuple, set or [bytes] without elements is returned as it is;
    an [OrderedDict] is loaded as a [dict] is, entry by entry; every other
    of these inputs makes the loop raise. *)
Theorem loader_goes_on_after_the_error
    (load_yaml_databundles : string → result pyval)
    (create_country_list : pyval → result pyval) (config : pyval) :
  neither_str_nor_dict config = true →
  ∃ r : result pyval,
    load_databundle_config load_yaml_databundles create_country_list config
    = ([(ERROR, "Impossible to load the databundle configuration")], r)
    ∧ (is_empty_iterable config = true → r = Ok config)
    ∧ (∀ d : list (string * pyval),
         config = POrderedDict d → dict_wf d →
         r = POrderedDict <$> parse_entries create_country_list d)
    ∧ (is_empty_iterable config = false → is_ordered_dict config = false →
       ∃ e : exn, r = Raise e).
Proof.
  intros Hconfig. eexists. split; [by apply load_other|].
  split; [|split].
  - intros Hempty.
    destruct config as [| | | |[|]| |[|]|[|]|[|]|]; try done.
  - intros d -> Hwf. cbn [py_iter]. rewrite bind_Ok.
    apply (parse_countries_ordered_dict create_country_list [] d Hwf).
  - intros Hempty Hod.
    destruct config as [| | | |l| |l|l|b|]; try done;
      try (eexists; reflexivity).
    + destruct l as [|x l]; [done|]. cbn [py_iter]. rewrite bind_Ok.
      apply (parse_countries_nonempty_sequence_raises PList
               py_getitem_list_index py_store_list).
    + destruct l as [|x l]; [done|]. cbn [py_iter]. rewrite bind_Ok.
      apply (parse_countries_nonempty_sequence_raises PTuple
               py_getitem_tuple_index py_store_tuple).
    + destruct l as [|x l]; [done|]. cbn [py_iter]. rewrite bind_Ok.
      apply parse_countries_set_raises.
    + destruct b as [|z b]; [done|]. cbn [py_iter fmap list_fmap].
      rewrite bind_Ok. apply parse_countries_bytes_raises.
Qed.

(** ** Loading what was loaded *)

Lemma parse_entry_again ccl entry entry' :
  (∀ listed parsed, ccl listed = Ok parsed → ccl parsed = Ok parsed) →
  parse_entry ccl entry = Ok entry' → parse_entry ccl entry' = Ok entry'.
Proof.
  intros Hccl. unfold parse_entry.
  destruct (py_getitem entry (PStr "countries")) as [listed|e]; [|done].
  rewrite bind_Ok. destruct (ccl listed) as [parsed|e] eqn:Ec; [|done].
  rewrite bind_Ok. destruct entry; try done.
  all: cbn [py_setitem_str]; intros [= <-].
  all: cbn [py_getitem]; unfold getitem.
  all: rewrite dict_get_set, bool_decide_true by done.
  all: rewrite bind_Ok, (Hccl _ _ Ec), bind_Ok; cbn [py_setitem_str].
  all: by rewrite dict_set_set.
Qed.

Lemma parse_entries_again ccl d d' :
  (∀ listed parsed, ccl listed = Ok parsed → ccl parsed = Ok parsed) →
  parse_entries ccl d = Ok d' → parse_entries ccl d' = Ok d'.
Proof.
  intros Hccl. revert d'. induction d as [|[k v] d IH]; intros d'; simpl.
  - by intros [= <-].
  - destruct (parse_entry ccl v) as [v'|e] eqn:Ev; [|done]. rewrite bind_Ok.
    destruct (parse_entries ccl d) as [rest|e]; [|done]. rewrite bind_Ok.
    intros [= <-]. simpl.
    by rewrite (parse_entry_again _ _ _ Hccl Ev), bind_Ok, (IH rest), bind_Ok.
Qed.

(** X11.  When the country-list helper leaves its results as they are, the
    loader returns the catalog it has loaded unchanged. *)
Theorem loading_twice_is_loading_once
    (load_yaml_databundles : string → result pyval)
    (create_country_list : pyval → result pyval)
    (d : list (string * pyval)) (loaded : pyval) :
  (∀ listed parsed,
     create_country_list listed = Ok parsed →
     create_country_list parsed = Ok parsed) →
  dict_wf d →
  load_databundle_config load_yaml_databundles create_country_list (PDict d)
    = ([], Ok loaded) →
  load_databundle_config load_yaml_databundles create_country_list loaded
    = ([], Ok loaded).
Proof.
  intros Hccl Hwf.
  rewrite (load_mapping _ _ _ Hwf).
  destruct (parse_entries create_country_list d) as [d'|e] eqn:Ed; [|done].
  intros [= <-]. rewrite load_mapping.
  - by rewrite (parse_entries_again _ _ _ Hccl Ed).
  - unfold dict_wf. by rewrite (parse_entries_same_keys _ _ _ Ed).
Qed.

(** ** Further properties of the download functions *)

Section downloader_more.
Context {World : Type}.
Variable progress_retrieve :
  url_entry → string → option (dict string) → bool → World → result unit * World.
Variable extractall : string → string → World → result unit * World.
Variable os_path_exists : string → World → bool.
Variable os_remove : string → World → result unit * World.
Variable download_file_from_google_drive :
  string → string → bool → World → result unit * World.
Variable py_repr : url_entry → string.

(** X14.  Without a zenodo source the function raises [KeyError] and changes
    nothing.  With one, a cold run returns [True] and changes nothing, and
    a hot run never raises: it returns [True] exactly when the download, the
    extraction and the removal of the archive succeed in turn, and [False]
    after logging a warning otherwise; the record is left as it was. *)
Theorem zenodo_returns_whatever_fails
    (rootpath : string) (hot_run disable_progress : bool) (c : call) :
  (dict_get (bundle_urls (config c)) "zenodo" = None →
   download_and_unzip_zenodo progress_retrieve extractall os_remove py_repr
     rootpath hot_run disable_progress c
   = (Raise (KeyError "zenodo"), c))
  ∧ ∀ url : url_entry,
      dict_get (bundle_urls (config c)) "zenodo" = Some url →
      download_and_unzip_zenodo progress_retrieve extractall os_remove py_repr
        rootpath false disable_progress c
      = (Ok true, c)
      ∧ ∃ (b : bool) (c' : call),
          download_and_unzip_zenodo progress_retrieve extractall os_remove py_repr
            rootpath true disable_progress c
          = (Ok b, c')
          ∧ config c' = config c
          ∧ (b = true ↔
             ∃ w1 w2 : World,
               progress_retrieve url (path_join rootpath "tempfile.zip") None
                 disable_progress (world (call_env c)) = (Ok (), w1)
               ∧ extractall (path_join rootpath "tempfile.zip")
                   (bundle_destination (config c)) w1 = (Ok (), w2)
               ∧ os_remove (path_join rootpath "tempfile.zip") w2
                 = (Ok (), world (call_env c')))
          ∧ (b = false →
             last (log (call_env c'))
             = Some (WARNING,
                     failed_download (bundle_category (config c))
                       (py_str py_repr url))).
Proof.
  split.
  - intros Hnone. unfold download_and_unzip_zenodo.
    rewrite M_bind_unfold. unfold get_config at 1. cbv beta iota.
    rewrite M_bind_unfold. unfold of_result, getitem. by rewrite Hnone.
  - intros url Hurl. split.
    + unfold download_and_unzip_zenodo.
      rewrite M_bind_unfold. unfold get_config at 1. cbv beta iota.
      rewrite M_bind_unfold. unfold of_result, getitem. by rewrite Hurl.
    + destruct c as [cfg [w lg h]]. cbn [config call_env world log host] in *.
      cbv [download_and_unzip_zenodo mbind M_bind get_config of_result getitem
           try_except any_exception logger on_world env_log mret M_ret
           call_env world config log host].
      rewrite Hurl.
      destruct (progress_retrieve url (path_join rootpath "tempfile.zip") None
                  disable_progress w) as [[[]|e1] w1] eqn:E1.
      2:{ eexists _, _. split; [reflexivity|]. cbn.
          split; [done|]. split; [|intros _; by rewrite last_snoc].
          split; [done|]. intros (w1' & w2' & ? & _). cbn in *. congruence. }
      destruct (extractall (path_join rootpath "tempfile.zip")
                  (bundle_destination cfg) w1) as [[[]|e2] w2] eqn:E2.
      2:{ eexists _, _. split; [reflexivity|]. cbn.
          split; [done|]. split; [|intros _; by rewrite last_snoc].
          split; [done|]. intros (w1' & w2' & ? & ? & _). cbn in *. congruence. }
      destruct (os_remove (path_join rootpath "tempfile.zip") w2)
        as [[[]|e3] w3] eqn:E3.
      2:{ eexists _, _. split; [reflexivity|]. cbn.
          split; [done|]. split; [|intros _; by rewrite last_snoc].
          split; [done|]. intros (w1' & w2' & ? & ? & ?). cbn in *. congruence. }
      eexists _, _. split; [reflexivity|]. cbn.
      split; [done|]. split; [|done].
      split; [|done]. intros _. eauto.
Qed.

End downloader_more.

(** ** Splitting a drive link *)

Lemma split_view_cons c s :
  split_view (String c s)
  = if starts_with_marker (String c s)
    then [EmptyString;
          String.substring 5 (String.length (String c s) - 5) (String c s)]
    else match split_view s with
         | piece :: pieces => String c piece :: pieces
         | [] => [String c EmptyString]
         end.
Proof. reflexivity. Qed.

Lemma split_view_length s :
  length (split_view s) = if has_marker s then 2%nat else 1%nat.
Proof.
  induction s as [|c s IH]; [done|].
  rewrite split_view_cons. cbn [has_marker].
  destruct (starts_with_marker (String c s)); [done|]. cbn [orb].
  destruct (split_view s) as [|piece pieces]; [by destruct (has_marker s)|].
  exact IH.
Qed.

Lemma split_chars_no_separator p s :
  (∀ c, p c = is_separator c) → has_separator s = false →
  split_chars p s = [s].
Proof.
  intros Hp. induction s as [|c s IH]; [done|]. cbn [has_separator split_chars].
  rewrite Hp. intros [Hc Hs]%orb_false_elim. rewrite Hc, (IH Hs). done.
Qed.

Lemma split_chars_nonempty p s : split_chars p s ≠ [].
Proof. destruct s; simpl; [done|]. by repeat case_match. Qed.

Lemma split_separators_length s :
  (2 ≤ length (split_separators s))%nat ↔ has_separator s = true.
Proof.
  unfold split_separators. induction s as [|c s IH]; [simpl; split; [lia|done]|].
  cbn [split_chars has_separator]. fold (is_separator c).
  destruct (is_separator c); cbn [orb].
  - split; [done|]. intros _. cbn [length].
    pose proof (split_chars_nonempty
                  (λ c, bool_decide (c = backslash) || bool_decide (c = slash)) s).
    destruct (split_chars _ s); [done|cbn; lia].
  - rewrite <-IH. destruct (split_chars _ s); cbn [length]; lia.
Qed.

Lemma is_separator_cases c :
  is_separator c = true → c = backslash ∨ c = slash.
Proof.
  unfold is_separator. intros [H|H]%orb_prop; apply bool_decide_eq_true in H; auto.
Qed.

Lemma append_nil_l (s : string) : EmptyString +:+ s = s.
Proof. reflexivity. Qed.

Lemma append_cons (c : Ascii.ascii) (a s : string) :
  String c a +:+ s = String c (a +:+ s).
Proof. reflexivity. Qed.

(** A marker cannot start before a separator and end after it. *)
Ltac view_char_step Hpre Hsep :=
  rewrite ?append_cons, ?append_nil_l in Hpre;
  cbn [String.prefix] in Hpre; cbn [String.prefix];
  match type of Hpre with
  | context [Ascii.ascii_dec ?x ?y] =>
      destruct (Ascii.ascii_dec x y) as [?E|]; [|done]
  end;
  try (exfalso; destruct Hsep as [Hs|Hs]; rewrite Hs in *;
       match goal with E : _ = _ |- _ => vm_compute in E; discriminate E end).

Lemma prefix_view_before_separator a sep t :
  is_separator sep = true →
  String.prefix "view" (a +:+ String sep t) = true → String.prefix "view" a = true.
Proof.
  intros Hsep%is_separator_cases Hpre.
  destruct a as [|c1 a]; view_char_step Hpre Hsep.
  destruct a as [|c2 a]; view_char_step Hpre Hsep.
  destruct a as [|c3 a]; view_char_step Hpre Hsep.
  destruct a as [|c4 a]; view_char_step Hpre Hsep.
  by destruct a.
Qed.

Lemma starts_with_marker_before_separator c a sep t :
  is_separator sep = true →
  starts_with_marker (String c a +:+ String sep t) = true →
  starts_with_marker (String c a) = true.
Proof.
  intros Hsep. unfold starts_with_marker. rewrite append_cons.
  cbn [String.prefix].
  intros [H|H]%orb_prop; apply orb_true_iff; [left|right];
    (case_match; [|done]); by eapply prefix_view_before_separator.
Qed.

Lemma substring_whole (s : string) :
  String.substring 0 (String.length s) s = s.
Proof. induction s as [|c s IH]; [done|]. cbn. by rewrite IH. Qed.

Lemma substring_after_marker sep rest :
  String.substring 5 (String.length (String sep ("view" +:+ rest)) - 5)
    (String sep ("view" +:+ rest)) = rest.
Proof.
  rewrite !append_cons, append_nil_l.
  match goal with
  | |- String.substring 5 (?n - 5) ?s = _ =>
      change (n - 5)%nat with (String.length rest - 0)%nat;
      change (String.substring 5 (String.length rest - 0) s)
        with (String.substring 0 (String.length rest - 0) rest)
  end.
  rewrite Nat.sub_0_r. apply substring_whole.
Qed.

(** The link is cut at the marker when none starts before it. *)
Lemma split_view_at_marker a sep rest :
  is_separator sep = true → has_marker a = false →
  split_view (a +:+ String sep ("view" +:+ rest)) = [a; rest].
Proof.
  intros Hsep. induction a as [|c a IH]; intros Ha.
  - rewrite append_nil_l, split_view_cons.
    assert (starts_with_marker (String sep ("view" +:+ rest)) = true) as ->.
    { unfold starts_with_marker. rewrite !append_cons, append_nil_l.
      apply is_separator_cases in Hsep as [->| ->]; by destruct rest. }
    by rewrite substring_after_marker.
  - cbn [has_marker] in Ha. apply orb_false_elim in Ha as [Hc Ha'].
    rewrite append_cons, split_view_cons.
    assert (starts_with_marker (String c (a +:+ String sep ("view" +:+ rest)))
            = false) as ->.
    { destruct (starts_with_marker (String c (a +:+ _))) eqn:E; [|done].
      apply (starts_with_marker_before_separator c a sep) in E; [|done].
      congruence. }
    by rewrite (IH Ha').
Qed.

(** The last piece between separators. *)
Lemma split_chars_last p base sep id :
  (∀ c, p c = is_separator c) → is_separator sep = true →
  has_separator id = false →
  ∃ pieces, pieces ≠ []
    ∧ split_chars p (base +:+ String sep id) = pieces ++ [id].
Proof.
  intros Hp Hsep Hid. induction base as [|c base IH].
  - rewrite append_nil_l. cbn [split_chars].
    rewrite Hp, Hsep, (split_chars_no_separator p id Hp Hid).
    by exists [EmptyString].
  - rewrite append_cons. cbn [split_chars].
    destruct IH as (pieces & Hne & ->). destruct (p c).
    + exists (EmptyString :: pieces). done.
    + destruct pieces as [|piece pieces]; [done|].
      exists (String c piece :: pieces). done.
Qed.

Section gdrive_more.
Context {World : Type}.
Variable extractall : string → string → World → result unit * World.
Variable os_path_exists : string → World → bool.
Variable os_remove : string → World → result unit * World.
Variable download_file_from_google_drive :
  string → string → bool → World → result unit * World.
Variable py_repr : url_entry → string.

(** X18.  When the link holds no marker, or no separator before its first
    marker, the drive function returns [False] after logging one error,
    hot run or not: nothing is downloaded and the record is unchanged. *)
Theorem gdrive_rejects_unparsable_link
    (rootpath : string) (hot_run disable_progress : bool) (c : call)
    (url : url_entry) :
  dict_get (bundle_urls (config c)) "gdrive" = Some url →
  has_marker (py_str py_repr url) = false
  ∨ has_separator (before_marker (py_str py_repr url)) = false →
  ∃ msg : string,
    download_and_unzip_gdrive extractall os_path_exists os_remove
      download_file_from_google_drive py_repr rootpath hot_run disable_progress c
    = (Ok false, Call (config c) (env_log ERROR msg (call_env c))).
Proof.
  intros Hurl Hbad. unfold download_and_unzip_gdrive.
  rewrite M_bind_unfold. unfold get_config at 1. cbv beta iota.
  rewrite M_bind_unfold. unfold of_result, getitem. rewrite Hurl.
  cbv beta iota.
  destruct (has_marker (py_str py_repr url)) eqn:Hm.
  - destruct Hbad as [?|Hsep]; [done|].
    rewrite bool_decide_false by (rewrite split_view_length, Hm; lia).
    fold (before_marker (py_str py_repr url)).
    rewrite bool_decide_true.
    + eexists. reflexivity.
    + pose proof (split_separators_length (before_marker (py_str py_repr url)))
        as Hlen.
      rewrite Hsep in Hlen. destruct Hlen as [Hlen _].
      destruct (decide (2 ≤ length (split_separators
                                      (before_marker (py_str py_repr url))))%nat)
        as [Hge|Hlt]; [by apply Hlen in Hge|lia].
  - rewrite bool_decide_true by (rewrite split_view_length, Hm; lia).
    eexists. reflexivity.
Qed.

(** X19.  For a link of the shape base, separator, id, separator, [view],
    rest, where the id holds no separator and no marker starts before the
    one after the id, a hot run asks the drive for exactly that id. *)
Theorem gdrive_downloads_the_id_before_the_marker
    (rootpath : string) (disable_progress : bool) (c : call)
    (base file_id rest : string) (sep1 sep2 : Ascii.ascii) :
  dict_get (bundle_urls (config c)) "gdrive"
    = Some (UrlStr ((base +:+ String sep1 file_id) +:+ String sep2 ("view" +:+ rest))) →
  is_separator sep1 = true → is_separator sep2 = true →
  has_separator file_id = false →
  has_marker (base +:+ String sep1 file_id) = false →
  download_and_unzip_gdrive extractall os_path_exists os_remove
    download_file_from_google_drive py_repr rootpath true disable_progress c
  = (remove_if_exists os_path_exists os_remove (path_join rootpath "tempfile.zip");;
     on_world (download_file_from_google_drive file_id
                 (path_join rootpath "tempfile.zip") (negb disable_progress));;
     on_world (extractall (path_join rootpath "tempfile.zip")
                 (bundle_destination (config c)));;
     logger INFO
       ("Download resource '" +:+ bundle_category (config c) +:+ "' from cloud '"
          +:+ ((base +:+ String sep1 file_id) +:+ String sep2 ("view" +:+ rest))
          +:+ "'.");;
     mret true) c.
Proof.
  intros Hurl Hs1 Hs2 Hid Hm. unfold download_and_unzip_gdrive.
  rewrite M_bind_unfold. unfold get_config at 1. cbv beta iota.
  rewrite M_bind_unfold. unfold of_result, getitem. rewrite Hurl.
  cbv beta iota. cbn [py_str].
  rewrite (split_view_at_marker _ _ _ Hs2 Hm). cbn [length head default from_option]. unfold Datatypes.id.
  rewrite bool_decide_false by lia.
  destruct (split_chars_last
              (λ c, bool_decide (c = backslash) || bool_decide (c = slash))
              base sep1 file_id) as (pieces & Hne & Hpieces); [done..|].
  unfold split_separators. rewrite Hpieces.
  rewrite bool_decide_false.
  - by rewrite last_last.
  - rewrite length_app. destruct pieces; [done|]. cbn. lia.
Qed.

End gdrive_more.

(** ** Further properties of the download loop *)

Lemma append_inj_l (s a b : string) : s +:+ a = s +:+ b → a = b.
Proof.
  induction s as [|c s IH]; [done|]. rewrite !append_cons. intros [= H]. auto.
Qed.

Section loop_more.
Context {World : Type}.
Variable globals : string → option (@downloader World).
Variable rootpath : string.
Variable disable_progress : bool.

(** The sources that failed are passed, and the loop goes on from the
    state they left. *)
Lemma hosts_loop_after_failures b_name pre l s s1 :
  tried_in_order globals rootpath disable_progress b_name pre s false s1 →
  hosts_loop globals rootpath disable_progress b_name (pre ++ l) s
  = hosts_loop globals rootpath disable_progress b_name l s1.
Proof.
  intros Ht. remember false as d eqn:Hd.
  induction Ht as [s|h rest s s' Ha|h rest s s' d s'' Ha _ IH
                  |h rest s e s' d s'' Ha He _ IH].
  - done.
  - done.
  - cbn [app hosts_loop]. rewrite M_bind_unfold. unfold try_host, try_except.
    rewrite Ha. by apply IH.
  - cbn [app hosts_loop]. rewrite M_bind_unfold. unfold try_host, try_except.
    rewrite Ha, He. by apply IH.
Qed.

(** X21.  When, after sources that failed, an attempt raises an exception
    that is not of class [Exception], the loop ends with that exception in
    the state the attempt left: no warning is logged, the bundle is not
    marked, and no further source or bundle is tried. *)
Theorem interrupt_stops_the_loop
    (b_name : string) (cfg : bundle) (pre : list string) (h : string)
    (rest bundles : list string) (s s1 s2 : script) (e : exn) :
  dict_get (config_bundles s) b_name = Some cfg →
  dict_keys (bundle_urls cfg) = pre ++ h :: rest →
  tried_in_order globals rootpath disable_progress b_name pre s false s1 →
  attempt globals rootpath disable_progress b_name h (announce b_name h s1)
    = (Raise e, s2) →
  is_Exception e = false →
  download_loop globals rootpath disable_progress (b_name :: bundles) s
  = (Raise e, s2).
Proof.
  intros Hcfg Hkeys Hpre Ha He.
  cbn [download_loop]. rewrite M_bind_unfold. unfold download_bundle.
  rewrite M_bind_unfold. unfold catalog_getitem, getitem. rewrite Hcfg.
  rewrite M_bind_unfold, Hkeys, (hosts_loop_after_failures _ _ _ _ _ Hpre).
  cbn [hosts_loop]. rewrite M_bind_unfold. unfold try_host, try_except.
  by rewrite Ha, He.
Qed.

(** The loop changes the catalog only through the download functions. *)
Hypothesis Hkeeps : ∀ name dl,
  globals name = Some dl → keeps (dl rootpath true disable_progress).

Lemma attempt_catalog b_name h s r s' :
  attempt globals rootpath disable_progress b_name h s = (r, s') →
  config_bundles s' = config_bundles s.
Proof.
  unfold attempt. destruct (globals _) as [dl|] eqn:Eg.
  - unfold call_downloader.
    destruct (dict_get (config_bundles s) b_name) as [cfg|] eqn:Eb.
    + destruct (dl rootpath true disable_progress (Call cfg (script_env s)))
        as [r0 c0] eqn:Ed.
      intros [= <- <-]. cbn [config_bundles].
      apply dict_set_same. by rewrite (Hkeeps _ _ Eg _ _ _ Ed).
    + by intros [= <- <-].
  - by intros [= <- <-].
Qed.

Lemma hosts_loop_catalog b_name host_list s r s' :
  hosts_loop globals rootpath disable_progress b_name host_list s = (r, s') →
  config_bundles s' = config_bundles s.
Proof.
  revert s r s'. induction host_list as [|h rest IH]; intros s r s'.
  - by intros [= <- <-].
  - cbn [hosts_loop]. rewrite M_bind_unfold. unfold try_host, try_except.
    destruct (attempt globals rootpath disable_progress b_name h
                (announce b_name h s)) as [[[|]|e] s1] eqn:Ea;
      apply attempt_catalog in Ea; cbn [announce script_log bind_host
                                          config_bundles] in Ea.
    + by intros [= <- <-].
    + intros Hl%IH. congruence.
    + destruct (is_Exception e).
      * intros Hl%IH. cbn [warn script_log config_bundles] in Hl. congruence.
      * by intros [= <- <-].
Qed.

Lemma download_loop_catalog bundles s r s' :
  download_loop globals rootpath disable_progress bundles s = (r, s') →
  config_bundles s' = config_bundles s.
Proof.
  revert s r s'. induction bundles as [|b_name rest IH]; intros s r s'.
  - by intros [= <- <-].
  - cbn [download_loop]. rewrite M_bind_unfold. unfold download_bundle.
    rewrite M_bind_unfold. unfold catalog_getitem, getitem.
    destruct (dict_get (config_bundles s) b_name) as [cfg|];
      [|by intros [= <- <-]].
    rewrite M_bind_unfold.
    destruct (hosts_loop globals rootpath disable_progress b_name
                (dict_keys (bundle_urls cfg)) s) as [[d|e] s1] eqn:El;
      apply hosts_loop_catalog in El; [|by intros [= <- <-]].
    rewrite M_bind_unfold.
    destruct d; cbn [modify mret M_ret mark_failed script_log];
      rewrite M_bind_unfold;
      match goal with
      | |- context [download_loop _ _ _ rest ?s0] =>
          destruct (download_loop globals rootpath disable_progress rest s0)
            as [[rep|e] s2] eqn:Er
      end;
      apply IH in Er; cbn in Er; intros [= <- <-]; congruence.
Qed.

End loop_more.

(** X22.  When the download functions of the table leave the record they
    are handed as it was, the loop leaves the catalog as it was. *)
Theorem loop_changes_catalog_through_functions_only {World : Type}
    (globals : string → option (@downloader World))
    (rootpath : string) (disable_progress : bool)
    (bundles_to_download : list string) (s : script)
    (r : result (list (string * bool))) (s' : script) :
  (∀ name dl, globals name = Some dl →
              keeps (dl rootpath true disable_progress)) →
  download_loop globals rootpath disable_progress bundles_to_download s = (r, s') →
  config_bundles s' = config_bundles s.
Proof. intros Hkeeps. by apply download_loop_catalog. Qed.

Lemma reading_globals_keep rootpath disable_progress name dl :
  reading_globals name = Some dl → keeps (dl rootpath true disable_progress).
Proof.
  unfold reading_globals, sample_globals, module_globals.
  repeat case_bool_decide; intros [= <-]; try done.
  - apply zenodo_keeps.
  - apply gdrive_keeps.
  - by intros c r c' [= <- <-].
  - apply direct_keeps.
  - by intros c r c' [= <- <-].
Qed.

Lemma loop_changes_catalog_through_functions_only_witness :
  config_bundles
    (download_loop reading_globals "/root" false
       ["bundle_a"; "bundle_b"; "bundle_c"] (Script fetch_catalog sample_env)).2
  = fetch_catalog.
Proof.
  apply (loop_changes_catalog_through_functions_only reading_globals "/root" false
           ["bundle_a"; "bundle_b"; "bundle_c"] (Script fetch_catalog sample_env)
           (download_loop reading_globals "/root" false
              ["bundle_a"; "bundle_b"; "bundle_c"]
              (Script fetch_catalog sample_env)).1).
  - intros name dl. apply reading_globals_keep.
  - apply surjective_pairing.
Defined.

(** X20.  A key of [urls] that names none of the six download functions,
    such as [suffixes], is an attempt that fails: the loop logs the attempt
    and a warning, changes nothing else, and goes on. *)
Theorem unknown_source_key_is_a_failed_attempt {World : Type}
    (progress_retrieve :
       url_entry → string → option (dict string) → bool → World → result unit * World)
    (extractall : string → string → World → result unit * World)
    (os_path_exists : string → World → bool)
    (os_remove : string → World → result unit * World)
    (drive : string → string → bool → World → result unit * World)
    (py_repr : url_entry → string)
    (protectedplanet hydrobasins : @downloader World)
    (rootpath : string) (disable_progress : bool)
    (b_name h : string) (s : script) :
  h ∉ ["zenodo"; "gdrive"; "protectedplanet"; "direct"; "hydrobasins"; "post"] →
  try_host
    (module_globals progress_retrieve extractall os_path_exists os_remove drive
       py_repr protectedplanet hydrobasins)
    rootpath disable_progress b_name h s
  = (Ok false, warn b_name h (announce b_name h s)).
Proof.
  intros Hh.
  assert (∀ n, n ∈ ["zenodo"; "gdrive"; "protectedplanet"; "direct";
                    "hydrobasins"; "post"] →
               "download_and_unzip_" +:+ h ≠ "download_and_unzip_" +:+ n) as Hne.
  { intros n Hn Heq%append_inj_l. by subst. }
  unfold try_host, try_except, attempt, module_globals.
  rewrite (bool_decide_false (_ = "download_and_unzip_zenodo"))
    by (apply (Hne "zenodo"); set_solver).
  rewrite (bool_decide_false (_ = "download_and_unzip_gdrive"))
    by (apply (Hne "gdrive"); set_solver).
  rewrite (bool_decide_false (_ = "download_and_unzip_protectedplanet"))
    by (apply (Hne "protectedplanet"); set_solver).
  rewrite (bool_decide_false (_ = "download_and_unzip_direct"))
    by (apply (Hne "direct"); set_solver).
  rewrite (bool_decide_false (_ = "download_and_unzip_hydrobasins"))
    by (apply (Hne "hydrobasins"); set_solver).
  rewrite (bool_decide_false (_ = "download_and_unzip_post"))
    by (apply (Hne "post"); set_solver).
  done.
Qed.

Lemma unknown_source_key_is_a_failed_attempt_witness :
  try_host sample_globals "/root" false "bundle_hydrobasins" "suffixes"
    (Script fetch_catalog sample_env)
  = (Ok false,
     warn "bundle_hydrobasins" "suffixes"
       (announce "bundle_hydrobasins" "suffixes"
          (Script fetch_catalog sample_env))).
Proof.
  apply (unknown_source_key_is_a_failed_attempt sample_retrieve sample_extractall
           sample_exists sample_remove sample_drive sample_repr sample_other
           sample_other "/root" false "bundle_hydrobasins" "suffixes").
  apply (bool_decide_unpack _). vm_compute. exact I.
Defined.

Lemma interrupt_stops_the_loop_witness :
  ∃ s2 : script,
    download_loop interrupted_globals "/root" false ["bundle_a"; "bundle_b"]
      (Script fetch_catalog sample_env)
    = (Raise KeyboardInterrupt, s2).
Proof.
  eexists.
  eapply (interrupt_stops_the_loop interrupted_globals "/root" false "bundle_a"
            _ ["gdrive"] "zenodo" _ ["bundle_b"]).
  - reflexivity.
  - reflexivity.
  - eapply tried_raised; [vm_compute; reflexivity|reflexivity|apply tried_none].
  - vm_compute. reflexivity.
  - reflexivity.
Defined.

(** ** The two other download functions *)

Section other_downloader_facts.
Context {World : Type}.
Variable progress_retrieve :
  url_entry → string → option (dict string) → bool → World → result unit * World.
Variable progress_retrieve_headers :
  string → string → list (string * string) → bool → World → result unit * World.
Variable extractall : string → string → World → result unit * World.
Variable namelist : string → World → result (list string) * World.
Variable extract_member : string → string → string → World → result unit * World.
Variable os_path_exists : string → World → bool.
Variable os_remove : string → World → result unit * World.
Variable py_repr : url_entry → string.
Variable hydrobasins_level : result Z.

Lemma extract_nested_keeps file_path destination zip_files :
  keeps (extract_nested extractall extract_member os_remove
           file_path destination zip_files).
Proof.
  induction zip_files as [|fzip rest IH]; cbn [extract_nested];
    repeat keeps_step. exact IH.
Qed.

Lemma protectedplanet_keeps rootpath hot_run dp :
  keeps (download_and_unzip_protectedplanet progress_retrieve extractall namelist
           extract_member os_path_exists os_remove py_repr rootpath hot_run dp).
Proof.
  unfold download_and_unzip_protectedplanet.
  repeat first [apply extract_nested_keeps | keeps_step].
Qed.

Lemma concat_url_keeps url_templ tail :
  keeps (concat_url (World:=World) url_templ tail).
Proof. destruct url_templ; unfold concat_url; keeps_step. Qed.

Lemma hydrobasins_loop_keeps cfg url_templ level_code hot_run dp suffix_list :
  keeps (hydrobasins_loop progress_retrieve_headers extractall os_path_exists
           os_remove cfg url_templ level_code hot_run dp suffix_list).
Proof.
  induction suffix_list as [|rg rest IH]; cbn [hydrobasins_loop];
    repeat first [apply concat_url_keeps | exact IH | keeps_step].
Qed.

Lemma hydrobasins_keeps rootpath hot_run dp :
  keeps (download_and_unzip_hydrobasins progress_retrieve_headers extractall
           os_path_exists os_remove hydrobasins_level rootpath hot_run dp).
Proof.
  unfold download_and_unzip_hydrobasins.
  repeat first [apply hydrobasins_loop_keeps | keeps_step].
Qed.

Hypothesis retrieve_safe : ∀ url file_path data dp,
  world_safe (progress_retrieve url file_path data dp).
Hypothesis retrieve_headers_safe : ∀ url file_path headers dp,
  world_safe (progress_retrieve_headers url file_path headers dp).
Hypothesis extractall_safe : ∀ archive destination,
  world_safe (extractall archive destination).
Hypothesis namelist_safe : ∀ file_path, world_safe (namelist file_path).
Hypothesis extract_member_safe : ∀ archive member destination,
  world_safe (extract_member archive member destination).
Hypothesis remove_safe : ∀ file_path, world_safe (os_remove file_path).
Hypothesis level_safe : ∀ e, hydrobasins_level = Raise e → is_Exception e = true.

Lemma extract_nested_safe file_path destination zip_files :
  safe (extract_nested extractall extract_member os_remove
          file_path destination zip_files).
Proof.
  induction zip_files as [|fzip rest IH]; cbn [extract_nested];
    repeat first [exact IH | safe_step].
Qed.

Lemma protectedplanet_safe rootpath hot_run dp :
  safe (download_and_unzip_protectedplanet progress_retrieve extractall namelist
          extract_member os_path_exists os_remove py_repr rootpath hot_run dp).
Proof.
  unfold download_and_unzip_protectedplanet.
  repeat first [apply extract_nested_safe | safe_step].
Qed.

Lemma concat_url_safe url_templ tail :
  safe (concat_url (World:=World) url_templ tail).
Proof. destruct url_templ; unfold concat_url; safe_step. Qed.

Lemma hydrobasins_loop_safe cfg url_templ level_code hot_run dp suffix_list :
  safe (hydrobasins_loop progress_retrieve_headers extractall os_path_exists
          os_remove cfg url_templ level_code hot_run dp suffix_list).
Proof.
  induction suffix_list as [|rg rest IH]; cbn [hydrobasins_loop];
    repeat first [exact IH | apply concat_url_safe | safe_step].
Qed.

Lemma hydrobasins_safe rootpath hot_run dp :
  safe (download_and_unzip_hydrobasins progress_retrieve_headers extractall
          os_path_exists os_remove hydrobasins_level rootpath hot_run dp).
Proof.
  unfold download_and_unzip_hydrobasins.
  repeat first [apply hydrobasins_loop_safe | safe_step].
  intros s e s'. unfold of_result. intros [= He <-]. by apply level_safe.
Qed.

End other_downloader_facts.

(** ** Attempts under a bare [except] *)

Section bare_except.
Context {World : Type}.

Lemma returns_true_ret : returns_true (mret true : M (@call World) bool).
Proof. by intros s b s' [= <- <-]. Qed.

Lemma returns_true_bind {A : Type} (m : M (@call World) A)
    (k : A → M (@call World) bool) :
  (∀ a, returns_true (k a)) → returns_true (m ≫= k).
Proof.
  intros Hk s b s'. rewrite M_bind_unfold.
  destruct (m s) as [[a|e] s0]; [apply Hk|done].
Qed.

(** A body that can only return [True], under a bare [except] that logs a
    warning and returns [False]: the whole returns in every case, and
    [False] only after the warning. *)
Lemma try_warning_returns (body : M (@call World) bool) (msg : string) (c : call) :
  returns_true body → keeps body →
  ∃ (b : bool) (c' : call),
    try_except any_exception body (logger WARNING msg;; mret false) c = (Ok b, c')
    ∧ config c' = config c
    ∧ (b = true ↔ ∃ c0, body c = (Ok true, c0))
    ∧ (b = false → last (log (call_env c')) = Some (WARNING, msg)).
Proof.
  intros Htrue Hkeeps. unfold try_except, any_exception.
  destruct (body c) as [[b|e] c0] eqn:Eb.
  - pose proof (Htrue _ _ _ Eb) as ->. exists true, c0.
    split; [done|]. split; [by apply (Hkeeps _ _ _ Eb)|]. split; [|done].
    split; eauto.
  - eexists false, _. split; [reflexivity|]. cbn.
    split; [by apply (Hkeeps _ _ _ Eb)|]. split; [|intros _; by rewrite last_snoc].
    split; [done|]. by intros [c1 [=]].
Qed.

End bare_except.

Ltac returns_true_step :=
  first [ apply returns_true_ret | apply returns_true_bind; intros ? ].

Section other_downloader_theorems.
Context {World : Type}.
Variable progress_retrieve :
  url_entry → string → option (dict string) → bool → World → result unit * World.
Variable progress_retrieve_headers :
  string → string → list (string * string) → bool → World → result unit * World.
Variable extractall : string → string → World → result unit * World.
Variable namelist : string → World → result (list string) * World.
Variable extract_member : string → string → string → World → result unit * World.
Variable os_path_exists : string → World → bool.
Variable os_remove : string → World → result unit * World.
Variable py_repr : url_entry → string.

(** X17.  The basins loop fetches the regions in order and ends at the
    first region that fails or raises: on a longer list it does what it
    does on the shorter one and, only when that returned [True], goes on
    with the further regions. *)
Theorem hydrobasins_stops_at_first_failed_region
    (cfg : bundle) (url_templ : url_entry) (level_code : string)
    (hot_run disable_progress : bool) (regions more : list string) (c : call) :
  hydrobasins_loop progress_retrieve_headers extractall os_path_exists os_remove
    cfg url_templ level_code hot_run disable_progress (regions ++ more) c
  = match hydrobasins_loop progress_retrieve_headers extractall os_path_exists
            os_remove cfg url_templ level_code hot_run disable_progress regions c
    with
    | (Ok true, c') =>
        hydrobasins_loop progress_retrieve_headers extractall os_path_exists
          os_remove cfg url_templ level_code hot_run disable_progress more c'
    | outcome => outcome
    end.
Proof.
  revert c. induction regions as [|rg regions IH]; intros c; [done|].
  cbn [app hydrobasins_loop]. rewrite !M_bind_unfold.
  destruct (concat_url url_templ _ c) as [[url|e] c1]; [|done].
  destruct hot_run; [|apply IH].
  rewrite !M_bind_unfold.
  destruct (remove_if_exists os_path_exists os_remove _ c1) as [[[]|e] c2]; [|done].
  rewrite !M_bind_unfold.
  destruct (try_except any_exception _ _ c2) as [[[|]|e] c3]; [apply IH|done..].
Qed.

(** X16.  With a protected planet source, a cold run returns [True] and
    changes nothing.  A hot run raises only what the removal of a stale
    archive raises; once that is passed it returns, [False] only after
    logging a warning, and the record is left as it was. *)
Theorem protectedplanet_returns_whatever_fails
    (rootpath : string) (disable_progress : bool) (c : call) (url : url_entry) :
  dict_get (bundle_urls (config c)) "protectedplanet" = Some url →
  download_and_unzip_protectedplanet progress_retrieve extractall namelist
    extract_member os_path_exists os_remove py_repr rootpath false
    disable_progress c = (Ok true, c)
  ∧ (∀ e c1,
       remove_if_exists os_path_exists os_remove
         (path_join rootpath "tempfile_wpda.zip") c = (Raise e, c1) →
       download_and_unzip_protectedplanet progress_retrieve extractall namelist
         extract_member os_path_exists os_remove py_repr rootpath true
         disable_progress c = (Raise e, c1))
  ∧ (∀ c1,
       remove_if_exists os_path_exists os_remove
         (path_join rootpath "tempfile_wpda.zip") c = (Ok (), c1) →
       ∃ (b : bool) (c' : call),
         download_and_unzip_protectedplanet progress_retrieve extractall namelist
           extract_member os_path_exists os_remove py_repr rootpath true
           disable_progress c = (Ok b, c')
         ∧ config c' = config c
         ∧ (b = false →
            last (log (call_env c'))
            = Some (WARNING,
                    failed_download (bundle_category (config c))
                      (py_str py_repr url)))).
Proof.
  intros Hurl.
  assert (∀ hot_run,
    download_and_unzip_protectedplanet progress_retrieve extractall namelist
      extract_member os_path_exists os_remove py_repr rootpath hot_run
      disable_progress c
    = (if hot_run then
         remove_if_exists os_path_exists os_remove
           (path_join rootpath "tempfile_wpda.zip");;
         try_except any_exception
           (logger INFO (downloading (bundle_category (config c))
                           (py_str py_repr url));;
            on_world (progress_retrieve url
                        (path_join rootpath "tempfile_wpda.zip") None
                        disable_progress);;
            names ← on_world (namelist (path_join rootpath "tempfile_wpda.zip"));
            extract_nested extractall extract_member os_remove
              (path_join rootpath "tempfile_wpda.zip")
              (bundle_destination (config c))
              (filter (λ fname, ends_with ".zip" fname = true) names);;
            on_world (os_remove (path_join rootpath "tempfile_wpda.zip"));;
            logger INFO (downloaded (bundle_category (config c))
                           (py_str py_repr url));;
            mret true)
           (logger WARNING (failed_download (bundle_category (config c))
                              (py_str py_repr url));;
            mret false)
       else mret true) c) as Hunfold.
  { intros hot_run. unfold download_and_unzip_protectedplanet.
    rewrite M_bind_unfold. unfold get_config at 1. cbv beta iota.
    rewrite M_bind_unfold. unfold of_result, getitem. by rewrite Hurl. }
  split; [by rewrite Hunfold|]. split.
  - intros e c1 Hrm. by rewrite Hunfold, M_bind_unfold, Hrm.
  - intros c1 Hrm. rewrite Hunfold, M_bind_unfold, Hrm.
    pose proof (keeps_remove_if_exists os_path_exists os_remove _ _ _ _ Hrm)
      as Hc1.
    match goal with
    | |- context [try_except any_exception ?body (logger WARNING ?msg;; _) c1] =>
        destruct (try_warning_returns body msg c1)
          as (b & c' & Htry & Hcfg & _ & Hwarn)
    end.
    + repeat returns_true_step.
    + repeat first [apply extract_nested_keeps | keeps_step].
    + exists b, c'. split; [exact Htry|]. split; [congruence|done].
Qed.

(** X15.  A direct source that is not a string raises [TypeError] before
    anything is done.  With a string, a cold run returns [True] and changes
    nothing; a hot run raises only what the removal of a stale file
    raises, and otherwise returns, [False] only after logging a warning,
    with the record left as it was. *)
Theorem direct_returns_unless_the_stale_file_stays
    (rootpath : string) (disable_progress : bool) (c : call) :
  (∀ (url : url_entry) (hot_run : bool),
     dict_get (bundle_urls (config c)) "direct" = Some url →
     (∀ u, url ≠ UrlStr u) →
     download_and_unzip_direct progress_retrieve extractall os_path_exists
       os_remove py_repr rootpath hot_run disable_progress c
     = (Raise (TypeError "expected str, bytes or os.PathLike object"), c))
  ∧ ∀ u : string,
      dict_get (bundle_urls (config c)) "direct" = Some (UrlStr u) →
      download_and_unzip_direct progress_retrieve extractall os_path_exists
        os_remove py_repr rootpath false disable_progress c = (Ok true, c)
      ∧ (∀ e c1,
           remove_if_exists os_path_exists os_remove
             (path_join (bundle_destination (config c)) (basename u)) c
           = (Raise e, c1) →
           download_and_unzip_direct progress_retrieve extractall os_path_exists
             os_remove py_repr rootpath true disable_progress c = (Raise e, c1))
      ∧ (∀ c1,
           remove_if_exists os_path_exists os_remove
             (path_join (bundle_destination (config c)) (basename u)) c
           = (Ok (), c1) →
           ∃ (b : bool) (c' : call),
             download_and_unzip_direct progress_retrieve extractall
               os_path_exists os_remove py_repr rootpath true disable_progress c
             = (Ok b, c')
             ∧ config c' = config c
             ∧ (b = false →
                last (log (call_env c'))
                = Some (WARNING,
                        failed_download (bundle_category (config c)) u))).
Proof.
  split.
  - intros url hot_run Hurl Hnot. unfold download_and_unzip_direct.
    rewrite M_bind_unfold. unfold get_config at 1. cbv beta iota.
    rewrite M_bind_unfold. unfold of_result, getitem. rewrite Hurl.
    cbv beta iota. rewrite M_bind_unfold.
    destruct url; [by destruct (Hnot u)|done..].
  - intros u Hurl.
    assert (∀ hot_run,
      download_and_unzip_direct progress_retrieve extractall os_path_exists
        os_remove py_repr rootpath hot_run disable_progress c
      = (if hot_run then
           remove_if_exists os_path_exists os_remove
             (path_join (bundle_destination (config c)) (basename u));;
           try_except any_exception
             (logger INFO (downloading (bundle_category (config c)) u);;
              on_world (progress_retrieve (UrlStr u)
                          (path_join (bundle_destination (config c)) (basename u))
                          None disable_progress);;
              (if default false (bundle_unzip (config c)) then
                 on_world (extractall
                             (path_join (bundle_destination (config c))
                                (basename u))
                             (bundle_destination (config c)));;
                 on_world (os_remove
                             (path_join (bundle_destination (config c))
                                (basename u)))
               else mret ());;
              logger INFO (downloaded (bundle_category (config c)) u);;
              mret true)
             (logger WARNING (failed_download (bundle_category (config c)) u);;
              mret false)
         else mret true) c) as Hunfold.
    { intros hot_run. unfold download_and_unzip_direct.
      rewrite M_bind_unfold. unfold get_config at 1. cbv beta iota.
      rewrite M_bind_unfold. unfold of_result, getitem. by rewrite Hurl. }
    split; [by rewrite Hunfold|]. split.
    + intros e c1 Hrm. by rewrite Hunfold, M_bind_unfold, Hrm.
    + intros c1 Hrm. rewrite Hunfold, M_bind_unfold, Hrm.
      pose proof (keeps_remove_if_exists os_path_exists os_remove _ _ _ _ Hrm)
        as Hc1.
      match goal with
      | |- context [try_except any_exception ?body (logger WARNING ?msg;; _) c1] =>
          destruct (try_warning_returns body msg c1)
            as (b & c' & Htry & Hcfg & _ & Hwarn)
      end.
      * repeat returns_true_step.
      * repeat keeps_step.
      * exists b, c'. split; [exact Htry|]. split; [congruence|done].
Qed.

End other_downloader_theorems.

(** ** The loop over the table of the module *)

(** X23.  With the six download functions of the module, collaborators
    that raise nothing but exceptions of class [Exception] and bundles of
    the catalog, the loop returns: every bundle is processed through its
    sources in order and reported. *)
Theorem script_loop_returns_a_report {World : Type}
    (progress_retrieve :
       url_entry → string → option (dict string) → bool → World → result unit * World)
    (progress_retrieve_headers :
       string → string → list (string * string) → bool → World → result unit * World)
    (extractall : string → string → World → result unit * World)
    (namelist : string → World → result (list string) * World)
    (extract_member : string → string → string → World → result unit * World)
    (os_path_exists : string → World → bool)
    (os_remove : string → World → result unit * World)
    (drive : string → string → bool → World → result unit * World)
    (py_repr : url_entry → string)
    (hydrobasins_level : result Z)
    (rootpath : string) (disable_progress : bool)
    (bundles_to_download : list string) (s : script) :
  (∀ url file_path data dp, world_safe (progress_retrieve url file_path data dp)) →
  (∀ url file_path headers dp,
     world_safe (progress_retrieve_headers url file_path headers dp)) →
  (∀ archive destination, world_safe (extractall archive destination)) →
  (∀ file_path, world_safe (namelist file_path)) →
  (∀ archive member destination,
     world_safe (extract_member archive member destination)) →
  (∀ file_path, world_safe (os_remove file_path)) →
  (∀ file_id dest_path showsize, world_safe (drive file_id dest_path showsize)) →
  (∀ e, hydrobasins_level = Raise e → is_Exception e = true) →
  Forall (λ b_name, b_name ∈ dict_keys (config_bundles s)) bundles_to_download →
  ∃ (report : list (string * bool)) (s' : script),
    download_loop
      (script_globals progress_retrieve progress_retrieve_headers extractall
         namelist extract_member os_path_exists os_remove drive py_repr
         hydrobasins_level)
      rootpath disable_progress bundles_to_download s
    = (Ok report, s')
    ∧ fetched
        (script_globals progress_retrieve progress_retrieve_headers extractall
           namelist extract_member os_path_exists os_remove drive py_repr
           hydrobasins_level)
        rootpath disable_progress bundles_to_download s report s'
    ∧ report.*1 = bundles_to_download.
Proof.
  intros Hr Hrh Hx Hn Hm Hrm Hd Hl Hin.
  apply download_loop_fetched; [|done].
  apply module_globals_raises_exceptions_only; try done.
  - by apply protectedplanet_safe.
  - by apply hydrobasins_safe.
Qed.

Lemma sample_retrieve_safe url file_path data dp :
  world_safe (sample_retrieve url file_path data dp).
Proof.
  intros w e w'. unfold sample_retrieve.
  destruct url; [destruct (String.prefix _ _)|..]; by intros [= <- <-].
Qed.

Lemma sample_retrieve_headers_safe url file_path headers dp :
  world_safe (sample_retrieve_headers url file_path headers dp).
Proof.
  intros w e w'. unfold sample_retrieve_headers.
  destruct (String.prefix _ _); by intros [= <- <-].
Qed.

Lemma sample_extractall_safe archive destination :
  world_safe (sample_extractall archive destination).
Proof.
  intros w e w'. unfold sample_extractall. case_bool_decide; by intros [= <- <-].
Qed.

Lemma sample_namelist_safe file_path : world_safe (sample_namelist file_path).
Proof.
  intros w e w'. unfold sample_namelist. case_bool_decide; by intros [= <- <-].
Qed.

Lemma sample_extract_member_safe archive member destination :
  world_safe (sample_extract_member archive member destination).
Proof.
  intros w e w'. unfold sample_extract_member.
  case_bool_decide; by intros [= <- <-].
Qed.

Lemma sample_remove_safe file_path : world_safe (sample_remove file_path).
Proof.
  intros w e w'. unfold sample_remove. case_bool_decide; by intros [= <- <-].
Qed.

Lemma sample_drive_safe file_id dest_path showsize :
  world_safe (sample_drive file_id dest_path showsize).
Proof. intros w e w'. by intros [= <- <-]. Qed.

Lemma script_loop_returns_a_report_witness :
  ∃ (report : list (string * bool)) (s' : script),
    download_loop sample_script_globals "/root" false
      ["bundle_hydrobasins"; "bundle_landcover"]
      (Script registry_catalog sample_env)
    = (Ok report, s')
    ∧ fetched sample_script_globals "/root" false
        ["bundle_hydrobasins"; "bundle_landcover"]
        (Script registry_catalog sample_env) report s'
    ∧ report.*1 = ["bundle_hydrobasins"; "bundle_landcover"].
Proof.
  apply (script_loop_returns_a_report sample_retrieve sample_retrieve_headers
           sample_extractall sample_namelist sample_extract_member sample_exists
           sample_remove sample_drive sample_repr (Ok 6%Z) "/root" false).
  - apply sample_retrieve_safe.
  - apply sample_retrieve_headers_safe.
  - apply sample_extractall_safe.
  - apply sample_namelist_safe.
  - apply sample_extract_member_safe.
  - apply sample_remove_safe.
  - apply sample_drive_safe.
  - intros e [=].
  - apply (bool_decide_unpack _). vm_compute. exact I.
Defined.

Lemma protectedplanet_returns_whatever_fails_witness :
  download_and_unzip_protectedplanet sample_retrieve sample_extractall
    sample_namelist sample_extract_member sample_exists sample_remove sample_repr
    "/root" false false
    (Call (Bundle ["DZ"] "data" None "data/landcover"
             [("protectedplanet", UrlStr "https://example.org/WDPA_shp.zip")]
             None [] None None None) sample_env)
  = (Ok true,
     Call (Bundle ["DZ"] "data" None "data/landcover"
             [("protectedplanet", UrlStr "https://example.org/WDPA_shp.zip")]
             None [] None None None) sample_env).
Proof.
  apply (protectedplanet_returns_whatever_fails sample_retrieve sample_extractall
           sample_namelist sample_extract_member sample_exists sample_remove
           sample_repr "/root" false _
           (UrlStr "https://example.org/WDPA_shp.zip")).
  reflexivity.
Defined.

Lemma gdrive_rejects_unparsable_link_witness :
  ∃ msg : string,
    download_and_unzip_gdrive sample_extractall sample_exists sample_remove
      sample_drive sample_repr "/root" true false
      (Call (Bundle ["DZ"] "data" None "data"
               [("gdrive", UrlStr "https://drive.google.com/open?id=1abc")]
               None [] None None None) sample_env)
    = (Ok false,
       Call (Bundle ["DZ"] "data" None "data"
               [("gdrive", UrlStr "https://drive.google.com/open?id=1abc")]
               None [] None None None)
            (env_log ERROR msg sample_env)).
Proof.
  apply (gdrive_rejects_unparsable_link sample_extractall sample_exists
           sample_remove sample_drive sample_repr "/root" true false
           (Call (Bundle ["DZ"] "data" None "data"
                    [("gdrive", UrlStr "https://drive.google.com/open?id=1abc")]
                    None [] None None None) sample_env)
           (UrlStr "https://drive.google.com/open?id=1abc")).
  - reflexivity.
  - left. vm_compute. reflexivity.
Defined.

Lemma gdrive_downloads_the_id_before_the_marker_witness :
  download_and_unzip_gdrive sample_extractall sample_exists sample_remove
    sample_drive sample_repr "/root" true false (Call gdrive_bundle sample_env)
  = (remove_if_exists sample_exists sample_remove (path_join "/root" "tempfile.zip");;
     on_world (sample_drive "1abc" (path_join "/root" "tempfile.zip") (negb false));;
     on_world (sample_extractall (path_join "/root" "tempfile.zip")
                 (bundle_destination gdrive_bundle));;
     logger INFO
       ("Download resource '" +:+ bundle_category gdrive_bundle +:+ "' from cloud '"
          +:+ (("https://drive.google.com/file/d" +:+ String slash "1abc")
                 +:+ String slash ("view" +:+ "?usp=sharing"))
          +:+ "'.");;
     mret true) (Call gdrive_bundle sample_env).
Proof.
  apply (gdrive_downloads_the_id_before_the_marker sample_extractall sample_exists
           sample_remove sample_drive sample_repr "/root" false
           (Call gdrive_bundle sample_env)
           "https://drive.google.com/file/d" "1abc" "?usp=sharing" slash slash).
  - reflexivity.
  - reflexivity.
  - reflexivity.
  - reflexivity.
  - vm_compute. reflexivity.
Defined.

Lemma selection_covers_requested_countries_witness :
  ∃ r : list string,
    get_best_bundles elements ["MA"; "FR"] scenario1 false [] = Ok r
    ∧ ∃ (sel : string) (b' : bundle),
        sel ∈ r ∧ dict_get scenario1 sel = Some b'
        ∧ bundle_category b'
          = bundle_category
              (sample_bundle ["DZ"; "EG"; "MA"] "common" (Some false) None)
        ∧ "MA" ∈ bundle_countries b'.
Proof.
  apply (selection_covers_requested_countries elements ["MA"; "FR"] scenario1
           false [] "common_africa"
           (sample_bundle ["DZ"; "EG"; "MA"] "common" (Some false) None) "MA").
  - apply set_iter_ok_elements.
  - reflexivity.
  - reflexivity.
  - reflexivity.
  - apply (bool_decide_unpack _). vm_compute. exact I.
  - apply (bool_decide_unpack _). vm_compute. exact I.
Defined.

Lemma selection_has_no_duplicates_witness :
  ∃ r : list string,
    get_best_bundles elements ["MA"; "DZ"] two_categories false [] = Ok r
    ∧ NoDup r.
Proof.
  apply (selection_has_no_duplicates elements ["MA"; "DZ"] two_categories false []).
  - apply set_iter_ok_elements.
  - apply (bool_decide_unpack _). vm_compute. exact I.
Defined.

Lemma partly_disabled_outputs_witness :
  ("output" ∉ dict_keys [("build_cutout", true); ("output", true)] →
     _check_disabled_by_opt elements partly_disabled_bundle
       [("build_cutout", true); ("output", true)] = [])
  ∧ ("output" ∈ dict_keys [("build_cutout", true); ("output", true)] →
     NoDup (_check_disabled_by_opt elements partly_disabled_bundle
              [("build_cutout", true); ("output", true)])
     ∧ ∀ out : string,
         out ∈ _check_disabled_by_opt elements partly_disabled_bundle
                 [("build_cutout", true); ("output", true)]
         ↔ ∃ (optname : string) (outs : list string),
             dict_get [("build_cutout", ["cutouts/a.nc"; "cutouts/b.nc"]);
                       ("build_natura_raster", ["cutouts/b.nc"; "data/natura.tiff"]);
                       ("retrieve_cost_data", ["data/costs.csv"])] optname
             = Some outs
             ∧ enabled [("build_cutout", true); ("output", true)] optname = true
             ∧ out ∈ outs).
Proof.
  apply (partly_disabled_outputs elements partly_disabled_bundle
           [("build_cutout", true); ("output", true)]).
  - apply set_iter_ok_elements.
  - reflexivity.
  - vm_compute. reflexivity.
Defined.

Lemma loader_parses_mapping_in_order_witness :
  load_databundle_config (λ _, Ok (PDict raw_catalog)) sample_country_list
    (PDict raw_catalog)
    = ([], PDict <$> parse_entries sample_country_list raw_catalog)
  ∧ (∀ path : string,
       (λ _ : string, Ok (PDict raw_catalog)) path = Ok (PDict raw_catalog) →
       load_databundle_config (λ _, Ok (PDict raw_catalog)) sample_country_list
         (PStr path)
       = ([], PDict <$> parse_entries sample_country_list raw_catalog))
  ∧ ∀ d' : list (string * pyval),
      parse_entries sample_country_list raw_catalog = Ok d' →
      dict_keys d' = dict_keys raw_catalog
      ∧ Forall2 (λ e e', e.1 = e'.1
                         ∧ parse_entry sample_country_list e.2 = Ok e'.2)
          raw_catalog d'.
Proof.
  apply (loader_parses_mapping_in_order (λ _, Ok (PDict raw_catalog))
           sample_country_list raw_catalog).
  apply (bool_decide_unpack _). vm_compute. exact I.
Defined.

Lemma loader_goes_on_after_the_error_witness :
  load_databundle_config (λ _, Ok (PDict raw_catalog)) sample_country_list
    (POrderedDict raw_catalog)
  = ([(ERROR, "Impossible to load the databundle configuration")],
     Ok (POrderedDict
           [ ("bundle_a", PDict [("countries", PList [PStr "DZ"; PStr "EG"]);
                                 ("category", PStr "data")]);
             ("bundle_b", PDict [("category", PStr "common");
                                 ("countries", PList [PStr "DE"; PStr "FR"])]) ])).
Proof.
  destruct (loader_goes_on_after_the_error (λ _, Ok (PDict raw_catalog))
              sample_country_list (POrderedDict raw_catalog) eq_refl)
    as (r & Hload & _ & Hordered & _).
  rewrite Hload. f_equal.
  rewrite (Hordered raw_catalog eq_refl).
  - reflexivity.
  - apply (bool_decide_unpack _). vm_compute. exact I.
Defined.

Lemma sample_country_list_again listed parsed :
  sample_country_list listed = Ok parsed → sample_country_list parsed = Ok parsed.
Proof.
  destruct listed as [| | | |tokens| | | | |]; try done. intros [= <-].
  unfold sample_country_list. do 2 f_equal.
  induction tokens as [|token tokens IH]; [done|].
  rewrite bind_cons, bind_app, IH. f_equal.
  destruct token as [| | |name| | | | | |]; try done.
  case_bool_decide; [done|]. csimpl. by rewrite bool_decide_false.
Qed.

Lemma loading_twice_is_loading_once_witness :
  load_databundle_config (λ _, Ok (PDict raw_catalog)) sample_country_list
    (PDict [("bundle_a", PDict [("countries", PList [PStr "DZ"; PStr "EG"]);
                                ("category", PStr "data")]);
            ("bundle_b", PDict [("category", PStr "common");
                                ("countries", PList [PStr "DE"; PStr "FR"])])])
  = ([], Ok (PDict [("bundle_a", PDict [("countries", PList [PStr "DZ"; PStr "EG"]);
                                        ("category", PStr "data")]);
                    ("bundle_b", PDict [("category", PStr "common");
                                        ("countries", PList [PStr "DE"; PStr "FR"])])])).
Proof.
  apply (loading_twice_is_loading_once (λ _, Ok (PDict raw_catalog))
           sample_country_list raw_catalog).
  - apply sample_country_list_again.
  - apply (bool_decide_unpack _). vm_compute. exact I.
  - reflexivity.
Defined.

(** ** The loader on records *)

Lemma encode_catalog_keys K : dict_keys (encode_catalog K) = dict_keys K.
Proof.
  unfold dict_keys, encode_catalog. rewrite <-list_fmap_compose.
  by apply list_fmap_ext.
Qed.

Lemma encode_bundle_countries b :
  ∃ rest, ∀ cs,
    encode_bundle (set_countries b cs)
    = PDict (("countries", encode_strings cs) :: rest).
Proof.
  eexists. intros cs. unfold encode_bundle, set_countries.
  cbn [bundle_countries bundle_category bundle_tutorial bundle_destination
       bundle_urls bundle_unzip bundle_output bundle_disable_by_opt
       bundle_matched_countries bundle_n_matched app].
  reflexivity.
Qed.

Lemma parse_entry_encoded ccl_py ccl b :
  (∀ cs, ccl_py (encode_strings cs) = encode_strings <$> ccl cs) →
  parse_entry ccl_py (encode_bundle b)
  = encode_bundle <$> (set_countries b <$> ccl (bundle_countries b)).
Proof.
  intros Hccl. destruct (encode_bundle_countries b) as [rest Hrest].
  assert (b = set_countries b (bundle_countries b)) as Hb by (by destruct b).
  rewrite Hb at 1. rewrite Hrest. unfold parse_entry.
  cbn [py_getitem]. unfold getitem. cbn [dict_get].
  rewrite bool_decide_true by done. rewrite bind_Ok, Hccl.
  destruct (ccl (bundle_countries b)) as [cs'|e]; [|done].
  cbn [fmap result_fmap rmap rbind]. rewrite bind_Ok. cbn [py_setitem_str dict_set].
  rewrite bool_decide_true by done. by rewrite Hrest.
Qed.

Lemma parse_entries_encoded ccl_py ccl K :
  (∀ cs, ccl_py (encode_strings cs) = encode_strings <$> ccl cs) →
  parse_entries ccl_py (encode_catalog K) = encode_catalog <$> load_records ccl K.
Proof.
  intros Hccl. induction K as [|[k b] K IH]; [done|].
  cbn [encode_catalog fmap list_fmap parse_entries load_records fst snd].
  rewrite (parse_entry_encoded _ _ _ Hccl).
  destruct (ccl (bundle_countries b)) as [cs'|e]; [|done].
  cbn [fmap result_fmap rmap rbind]. rewrite !bind_Ok.
  fold (encode_catalog K). rewrite IH.
  destruct (load_records ccl K) as [rest|e]; done.
Qed.

(** X12.  On the mapping that encodes a catalog of records the loader does
    what the loader on records does: it returns the encoding of the
    catalog with the countries parsed, or raises the same exception. *)
Theorem loader_on_records_is_the_loader
    (load_yaml_databundles : string → result pyval)
    (create_country_list_py : pyval → result pyval)
    (create_country_list : list string → result (list string))
    (config : dict bundle) :
  (∀ cs, create_country_list_py (encode_strings cs)
         = encode_strings <$> create_country_list cs) →
  dict_wf config →
  load_databundle_config load_yaml_databundles create_country_list_py
    (PDict (encode_catalog config))
  = ([], (λ loaded, PDict (encode_catalog loaded)) <$>
           load_records create_country_list config).
Proof.
  intros Hccl Hwf. rewrite load_mapping.
  - rewrite (parse_entries_encoded _ _ _ Hccl).
    by destruct (load_records create_country_list config).
  - unfold dict_wf. by rewrite encode_catalog_keys.
Qed.

(** ** [datafiles_retrivedatabundle] *)

Lemma listed_outputs_spec K bundles :
  Forall (λ bundlename, bundlename ∈ dict_keys K) bundles →
  ∃ outputs,
    listed_outputs K bundles = Ok outputs
    ∧ ∀ o, o ∈ outputs
           ↔ ∃ bundlename b,
               bundlename ∈ bundles ∧ dict_get K bundlename = Some b
               ∧ o ∈ bundle_output b ∧ is_listed o = true.
Proof.
  induction 1 as [|bundlename bundles Hk _ (rest & Hrest & Hspec)].
  - exists []. split; [done|]. intros o. split; [by intros ?%elem_of_nil|].
    by intros (? & ? & ?%elem_of_nil & _).
  - apply dict_get_is_Some in Hk as [b Hb].
    eexists. split.
    { cbn [listed_outputs]. unfold getitem. rewrite Hb, bind_Ok, Hrest.
      by rewrite bind_Ok. }
    intros o. rewrite elem_of_app, list_elem_of_filter, Hspec. split.
    + intros [[Hl Ho]|(n & b' & Hn & Hb' & Ho & Hl)].
      * exists bundlename, b. split; [left|done].
      * exists n, b'. split; [by right|done].
    + intros (n & b' & [->|Hn]%elem_of_cons & Hb' & Ho & Hl).
      * left. assert (b' = b) as -> by congruence. done.
      * right. eauto 6.
Qed.

(** X13.  When the catalog loads, [datafiles_retrivedatabundle] returns,
    without repetition, the outputs of the selected bundles that hold no
    [*] or end with [/], and nothing else. *)
Theorem datafiles_lists_outputs_of_selected_bundles
    (set_iter : gset string → list string)
    (create_country_list : list string → result (list string))
    (config : run_config) (config_bundles : dict bundle) :
  set_iter_ok set_iter →
  load_records create_country_list (run_databundles config) = Ok config_bundles →
  ∃ (selection outputs : list string),
    get_best_bundles set_iter (run_countries config) config_bundles
      (run_tutorial config) (run_enable config) = Ok selection
    ∧ datafiles_retrivedatabundle set_iter create_country_list config = Ok outputs
    ∧ NoDup outputs
    ∧ ∀ o : string,
        o ∈ outputs
        ↔ ∃ (bundlename : string) (b : bundle),
            bundlename ∈ selection
            ∧ dict_get config_bundles bundlename = Some b
            ∧ o ∈ bundle_output b ∧ is_listed o = true.
Proof.
  intros Hf Hload. unfold datafiles_retrivedatabundle. rewrite Hload, bind_Ok.
  destruct (get_best_bundles_run_annotated set_iter (run_countries config)
              config_bundles (run_tutorial config) (run_enable config))
    as [ws Hrun].
  rewrite Hrun, bind_Ok. cbn [catalog_after bundles_to_download].
  destruct (listed_outputs_spec
              (annotate (run_countries config) config_bundles)
              (concat (contribution set_iter (run_countries config) config_bundles
                         (run_tutorial config) (run_enable config)
                       <$> categories_of set_iter config_bundles)))
    as (outputs & -> & Hspec).
  { apply Forall_forall. intros x Hx.
    apply elem_of_concat in Hx as (l & Hx & Hl).
    apply list_elem_of_fmap in Hl as (cat & -> & _).
    apply contribution_elem in Hx as (b & Hb & _).
    rewrite annotate_keys. apply dict_get_is_Some. eauto. }
  eexists _, _. split; [apply get_best_bundles_contributions|].
  split; [by rewrite bind_Ok|]. split.
  - rewrite (Hf _). apply NoDup_elements.
  - intros o. rewrite (set_iter_ok_elem _ _ _ Hf), elem_of_list_to_set, Hspec.
    split.
    + intros (n & b & Hn & Hb & Ho & Hl). rewrite annotate_get in Hb.
      destruct (dict_get config_bundles n) as [b0|] eqn:Eb; [|done].
      injection Hb as <-. exists n, b0. done.
    + intros (n & b & Hn & Hb & Ho & Hl).
      exists n, (annotate_bundle (run_countries config) b).
      rewrite annotate_get, Hb. done.
Qed.

Lemma sample_countries_agree cs :
  sample_country_list (encode_strings cs) = encode_strings <$> sample_countries cs.
Proof.
  unfold sample_country_list, sample_countries, encode_strings. cbn. do 2 f_equal.
  induction cs as [|name cs IH]; [done|].
  rewrite fmap_cons, !bind_cons, fmap_app, IH. f_equal.
  by case_bool_decide.
Qed.

Lemma loader_on_records_is_the_loader_witness :
  load_databundle_config (λ _, Ok PNone) sample_country_list
    (PDict (encode_catalog (run_databundles sample_run)))
  = ([], (λ loaded, PDict (encode_catalog loaded)) <$>
           load_records sample_countries (run_databundles sample_run)).
Proof.
  apply (loader_on_records_is_the_loader (λ _, Ok PNone) sample_country_list
           sample_countries (run_databundles sample_run)).
  - apply sample_countries_agree.
  - apply (bool_decide_unpack _). vm_compute. exact I.
Defined.

Lemma datafiles_lists_outputs_of_selected_bundles_witness :
  ∃ (selection outputs : list string),
    get_best_bundles elements (run_countries sample_run)
      [ ("bundle_africa",
         Bundle ["DZ"; "EG"] "data" None "data"
           [("zenodo", UrlStr "https://zenodo.org/record/1/files/africa.zip")]
           None ["data/africa.csv"; "data/raw/*.tif"; "data/shapes/*/"]
           None None None);
        ("bundle_europe",
         Bundle ["DE"; "FR"] "data" None "data"
           [("zenodo", UrlStr "https://zenodo.org/record/1/files/europe.zip")]
           None ["data/europe.csv"; "data/africa.csv"]
           None None None) ]
      (run_tutorial sample_run) (run_enable sample_run) = Ok selection
    ∧ datafiles_retrivedatabundle elements sample_countries sample_run = Ok outputs
    ∧ NoDup outputs
    ∧ ∀ o : string,
        o ∈ outputs
        ↔ ∃ (bundlename : string) (b : bundle),
            bundlename ∈ selection
            ∧ dict_get
                [ ("bundle_africa",
                   Bundle ["DZ"; "EG"] "data" None "data"
                     [("zenodo",
                       UrlStr "https://zenodo.org/record/1/files/africa.zip")]
                     None ["data/africa.csv"; "data/raw/*.tif"; "data/shapes/*/"]
                     None None None);
                  ("bundle_europe",
                   Bundle ["DE"; "FR"] "data" None "data"
                     [("zenodo",
                       UrlStr "https://zenodo.org/record/1/files/europe.zip")]
                     None ["data/europe.csv"; "data/africa.csv"]
                     None None None) ] bundlename = Some b
            ∧ o ∈ bundle_output b ∧ is_listed o = true.
Proof.
  apply (datafiles_lists_outputs_of_selected_bundles elements sample_countries
           sample_run).
  - apply set_iter_ok_elements.
  - reflexivity.
Defined.

Section post_more.
Context {World : Type}.
Variable progress_retrieve :
  url_entry → string → option (dict string) → bool → World → result unit * World.
Variable extractall : string → string → World → result unit * World.
Variable os_path_exists : string → World → bool.
Variable os_remove : string → World → result unit * World.

(** X24.  Without a post source, or with one that names no url, the post
    function raises [KeyError] and changes nothing.  With a url and no
    stale file, a download that raises makes the hot run raise the same
    exception, the request having carried the fields other than the url,
    and the url is gone from the record. *)
Theorem post_propagates_what_fails
    (rootpath : string) (disable_progress : bool) (c : call) :
  (∀ hot_run : bool,
     dict_get (bundle_urls (config c)) "post" = None →
     download_and_unzip_post progress_retrieve extractall os_path_exists os_remove
       rootpath hot_run disable_progress c
     = (Raise (KeyError "post"), c))
  ∧ (∀ (hot_run : bool) (postdata : dict string),
       dict_get (bundle_urls (config c)) "post" = Some (UrlMap postdata) →
       dict_get postdata "url" = None →
       download_and_unzip_post progress_retrieve extractall os_path_exists
         os_remove rootpath hot_run disable_progress c
       = (Raise (KeyError "url"), c))
  ∧ ∀ (postdata : dict string) (u : string) (e : exn) (w' : World),
      dict_get (bundle_urls (config c)) "post" = Some (UrlMap postdata) →
      dict_get postdata "url" = Some u →
      os_path_exists (path_join (bundle_destination (config c)) (basename u))
        (world (call_env c)) = false →
      progress_retrieve (UrlStr u)
        (path_join (bundle_destination (config c)) (basename u))
        (Some (dict_del postdata "url")) disable_progress (world (call_env c))
      = (Raise e, w') →
      ∃ c' : call,
        download_and_unzip_post progress_retrieve extractall os_path_exists
          os_remove rootpath true disable_progress c
        = (Raise e, c')
        ∧ dict_get (bundle_urls (config c')) "post"
          = Some (UrlMap (dict_del postdata "url"))
        ∧ world (call_env c') = w'.
Proof.
  split; [|split].
  - intros hot_run Hnone. unfold download_and_unzip_post, pop_post_url.
    rewrite !M_bind_unfold. unfold get_config at 1. cbv beta iota.
    rewrite !M_bind_unfold. unfold get_config at 1. cbv beta iota.
    rewrite !M_bind_unfold. unfold of_result at 1, getitem. by rewrite Hnone.
  - intros hot_run postdata Hpost Hurl.
    unfold download_and_unzip_post, pop_post_url.
    rewrite !M_bind_unfold. unfold get_config at 1. cbv beta iota.
    rewrite !M_bind_unfold. unfold get_config at 1. cbv beta iota.
    rewrite !M_bind_unfold. unfold of_result at 1, getitem. rewrite Hpost.
    cbv beta iota. rewrite !M_bind_unfold. unfold of_result, dict_pop.
    by rewrite Hurl.
  - intros postdata u e w' Hpost Hurl Hex Hdl.
    unfold download_and_unzip_post.
    rewrite M_bind_unfold. unfold get_config at 1. cbv beta iota.
    rewrite M_bind_unfold, (pop_post_url_removes c postdata u Hpost Hurl).
    rewrite M_bind_unfold. unfold get_config at 1. cbv beta iota.
    cbn [config set_urls bundle_urls bundle_destination bundle_category
         bundle_unzip].
    assert (dict_get (dict_set (bundle_urls (config c)) "post"
                        (UrlMap (dict_del postdata "url"))) "post"
            = Some (UrlMap (dict_del postdata "url"))) as Hafter.
    { rewrite dict_get_set. by rewrite bool_decide_true. }
    rewrite M_bind_unfold. unfold of_result, getitem. rewrite Hafter.
    cbv beta iota.
    rewrite M_bind_unfold. unfold remove_if_exists.
    cbn [call_env world]. rewrite Hex.
    rewrite M_bind_unfold. unfold logger at 1. cbv beta iota.
    rewrite M_bind_unfold. unfold on_world at 1.
    cbn [call_env world env_log config log host]. rewrite Hdl.
    eexists. split; [reflexivity|]. cbn [config call_env world bundle_urls].
    split; [|done]. exact Hafter.
Qed.

End post_more.

(** The three functions on the sample world. *)

Lemma zenodo_returns_whatever_fails_witness :
  download_and_unzip_zenodo sample_retrieve sample_extractall sample_remove
    sample_repr "/root" false false
    (Call (Bundle ["DZ"] "data" None "data"
             [("zenodo", UrlStr "https://zenodo.org/record/1/files/data.zip")]
             None [] None None None) sample_env)
  = (Ok true,
     Call (Bundle ["DZ"] "data" None "data"
             [("zenodo", UrlStr "https://zenodo.org/record/1/files/data.zip")]
             None [] None None None) sample_env)
  ∧ ∃ (b : bool) (c' : call),
      download_and_unzip_zenodo sample_retrieve sample_extractall sample_remove
        sample_repr "/root" true false
        (Call (Bundle ["DZ"] "data" None "data"
                 [("zenodo", UrlStr "https://zenodo.org/record/1/files/data.zip")]
                 None [] None None None) sample_env)
      = (Ok b, c')
      ∧ bundle_urls (config c')
        = [("zenodo", UrlStr "https://zenodo.org/record/1/files/data.zip")].
Proof.
  destruct (zenodo_returns_whatever_fails sample_retrieve sample_extractall
              sample_remove sample_repr "/root" true false
              (Call (Bundle ["DZ"] "data" None "data"
                       [("zenodo", UrlStr "https://zenodo.org/record/1/files/data.zip")]
                       None [] None None None) sample_env)) as [_ H].
  destruct (H (UrlStr "https://zenodo.org/record/1/files/data.zip") eq_refl)
    as [Hcold (b & c' & Hhot & Hcfg & _)].
  split; [exact Hcold|].
  exists b, c'. split; [exact Hhot|]. rewrite Hcfg. reflexivity.
Defined.

Lemma direct_returns_unless_the_stale_file_stays_witness :
  ∃ (b : bool) (c' : call),
    download_and_unzip_direct sample_retrieve sample_extractall sample_exists
      sample_remove sample_repr "/root" true false
      (Call (Bundle ["DZ"] "data" None "data"
               [("direct", UrlStr "ftp://example.org/files/data.zip")]
               None [] None None None) sample_env)
    = (Ok b, c')
    ∧ bundle_urls (config c')
      = [("direct", UrlStr "ftp://example.org/files/data.zip")].
Proof.
  destruct (direct_returns_unless_the_stale_file_stays sample_retrieve
              sample_extractall sample_exists sample_remove sample_repr
              "/root" false
              (Call (Bundle ["DZ"] "data" None "data"
                       [("direct", UrlStr "ftp://example.org/files/data.zip")]
                       None [] None None None) sample_env)) as [_ H].
  destruct (H "ftp://example.org/files/data.zip" eq_refl) as (_ & _ & Hhot).
  destruct (Hhot _ eq_refl) as (b & c' & Hrun & Hcfg & _).
  exists b, c'. split; [exact Hrun|]. rewrite Hcfg. reflexivity.
Defined.

Lemma post_propagates_what_fails_witness :
  ∃ c' : call,
    download_and_unzip_post sample_retrieve sample_extractall sample_exists
      sample_remove "/root" true false
      (Call (Bundle ["DZ"] "data" None "data"
               [("post", UrlMap [("url", "ftp://example.org/files/data.zip");
                                 ("token", "abc")])]
               None [] None None None) sample_env)
    = (Raise (OSError "unreachable"), c')
    ∧ dict_get (bundle_urls (config c')) "post"
      = Some (UrlMap [("token", "abc")])
    ∧ world (call_env c') = [].
Proof.
  destruct (post_propagates_what_fails sample_retrieve sample_extractall
              sample_exists sample_remove "/root" false
              (Call (Bundle ["DZ"] "data" None "data"
                       [("post", UrlMap [("url", "ftp://example.org/files/data.zip");
                                         ("token", "abc")])]
                       None [] None None None) sample_env)) as (_ & _ & H).
  exact (H [("url", "ftp://example.org/files/data.zip"); ("token", "abc")]
           "ftp://example.org/files/data.zip" (OSError "unreachable") []
           eq_refl eq_refl eq_refl eq_refl).
Defined.
